(** * PredNet (ext/prednet/prednet.py): a shallow embedding and its properties

    The development follows the layout of the Python class [PredNet]:
    constructor, [compute_output_shape], [get_initial_state], [build], [step]
    and [get_config].  Python exceptions are results of an error monad, the
    Keras backend [K] is an interface of numbers and elementwise functions, and
    tensors are dense arrays (a shape and the row-major list of entries). *)

From Stdlib Require Import ZArith List String Ascii Bool Lia DecimalString.
From Stdlib Require Import QArith Qcanon.
Import ListNotations.
Open Scope string_scope.
Open Scope Z_scope.

Set Implicit Arguments.

(* ================================================================== *)
(** ** Python results: a value or a raised exception *)

Module Py.

Inductive exn : Type :=
| AssertionError (msg : string)
| ValueError (msg : string)
| IndexError
| KeyError (key : string)
| TypeError
| UnboundLocalError (name : string).

Inductive res (A : Type) : Type :=
| Ok (a : A)
| Raise (e : exn).

Arguments Ok {A} a.
Arguments Raise {A} e.

Definition bind {A B : Type} (m : res A) (k : A -> res B) : res B :=
  match m with
  | Ok a => k a
  | Raise e => Raise e
  end.

(** [assert cond, msg] *)
Definition assert (cond : bool) (msg : string) : res unit :=
  if cond then Ok tt else Raise (AssertionError msg).

Definition is_ok {A : Type} (m : res A) : bool :=
  match m with Ok _ => true | Raise _ => false end.

(** [l[i]] for a non-negative index *)
Definition getitem {A : Type} (l : list A) (i : nat) : res A :=
  match nth_error l i with
  | Some x => Ok x
  | None => Raise IndexError
  end.

(** [l[i]] for an index of either sign: a negative one counts from the end *)
Definition index {A : Type} (l : list A) (i : Z) : res A :=
  let n := Z.of_nat (List.length l) in
  if (0 <=? i) && (i <? n) then getitem l (Z.to_nat i)
  else if (i <? 0) && (0 <=? n + i) then getitem l (Z.to_nat (n + i))
  else Raise IndexError.

(** [l[a:b]] with [0 <= a], [0 <= b] *)
Definition slice {A : Type} (l : list A) (a b : nat) : list A :=
  firstn (b - a) (skipn a l).

(** [str(n)] of a non-negative integer *)
Definition str (n : nat) : string := NilEmpty.string_of_uint (Nat.to_uint n).

(** [s[:-1]] and [s[-1]] on strings *)
Fixpoint but_last (s : string) : string :=
  match s with
  | EmptyString => EmptyString
  | String c EmptyString => EmptyString
  | String c s' => String c (but_last s')
  end.

Fixpoint last_char (s : string) : option ascii :=
  match s with
  | EmptyString => None
  | String c EmptyString => Some c
  | String c s' => last_char s'
  end.

(** [int(c)] of a one-character string *)
Definition int_of_char (c : ascii) : res nat :=
  let n := nat_of_ascii c in
  if (48 <=? n)%nat && (n <=? 57)%nat then Ok (n - 48)%nat
  else Raise (ValueError "invalid literal for int()").

(** [x in l] on a list of strings *)
Definition str_in (x : string) (l : list string) : bool :=
  existsb (String.eqb x) l.

(** [range(n)] *)
Definition range (n : nat) : list nat := seq 0 n.

(** a comprehension [[k(x) for x in l]] whose body may raise *)
Fixpoint mapM {A B : Type} (k : A -> res B) (l : list A) : res (list B) :=
  match l with
  | [] => Ok []
  | x :: l' =>
      match k x with
      | Ok y => match mapM k l' with
                | Ok ys => Ok (y :: ys)
                | Raise e => Raise e
                end
      | Raise e => Raise e
      end
  end.

(** a [for] loop over [l] that threads the variables [acc] *)
Fixpoint foldM {A S : Type} (body : A -> S -> res S) (l : list A) (acc : S) : res S :=
  match l with
  | [] => Ok acc
  | x :: l' =>
      match body x acc with
      | Ok acc' => foldM body l' acc'
      | Raise e => Raise e
      end
  end.

(** [d[key]] on a dict with string keys *)
Fixpoint dict_get {V : Type} (d : list (string * V)) (key : string) : res V :=
  match d with
  | [] => Raise (KeyError key)
  | (k, v) :: d' => if String.eqb k key then Ok v else dict_get d' key
  end.

End Py.

Import Py.

Declare Scope py_scope.
Delimit Scope py_scope with py.
Notation "x <- m ;; k" := (Py.bind m (fun x => k))
  (at level 61, m at next level, right associativity) : py_scope.
Notation "m ;;; k" := (Py.bind m (fun _ => k))
  (at level 61, right associativity) : py_scope.
Open Scope py_scope.

(* ================================================================== *)
(** ** The Keras backend: numbers and elementwise functions

    The entries of a tensor are the backend's floating-point numbers.  The
    development assumes nothing about them beyond this interface.  The one
    law a proof relies on is stated separately in [MinimumLaw]; a theorem
    that needs the value of an operation at given numbers says so in its
    hypotheses. *)

Class Backend (T : Type) : Type := {
  zero : T;
  add : T -> T -> T;
  sub : T -> T -> T;
  mul : T -> T -> T;
  (** [K.minimum], [K.maximum] on entries *)
  minimum : T -> T -> T;
  maximum : T -> T -> T;
  (** [le x m]: [x] does not exceed [m], the negation of the backend's
      [x > m] (so it holds of a [x] that is not a number) *)
  le : T -> T -> Prop;
  (** [K.mean] of the entries of one flattened sample *)
  mean_of : list T -> T;
  (** the functions of [keras.activations] other than [linear] and [relu],
      by name ([tanh], [hard_sigmoid], [sigmoid], ...) *)
  elementwise : string -> option (T -> T)
}.

(** The minimum of two numbers does not exceed the second.  The floating-point
    minimum of the backend returns its first argument when that is smaller
    than the second, and otherwise the second or a value that is not a
    number: in each case the result is not greater than the second
    argument. *)
Class MinimumLaw (T : Type) `{Backend T} : Prop := {
  minimum_le : forall x m : T, le (minimum x m) m
}.

Section Network.

Context {T : Type} `{Backend T}.

(** A function object of [keras.activations]: its [__name__] and what it
    computes on an entry. *)
Record Activation : Type := {
  act_name : string;
  act_fn : T -> T
}.

Definition linear : Activation := {| act_name := "linear"; act_fn := fun x => x |}.
Definition relu : Activation :=
  {| act_name := "relu"; act_fn := fun x => maximum x zero |}.

(** [activations.get(identifier)] for a string identifier: the function of
    that name, [ValueError] when there is none. *)
Definition activations_get (identifier : string) : res Activation :=
  if (identifier =? "linear")%string then Ok linear
  else if (identifier =? "relu")%string then Ok relu
  else match elementwise identifier with
       | Some f => Ok {| act_name := identifier; act_fn := f |}
       | None => Raise (ValueError ("Unknown activation function:" ++ identifier))
       end.

(* ------------------------------------------------------------------ *)
(** *** Keyword arguments of the constructor, and the serialized mapping

    [get_config] returns a mapping with exactly the constructor's keywords
    (and the base class's), so one record serves for both. *)

Record Config : Type := {
  kw_stack_sizes : list Z;
  kw_R_stack_sizes : list Z;
  kw_A_filt_sizes : list Z;
  kw_Ahat_filt_sizes : list Z;
  kw_R_filt_sizes : list Z;
  kw_pixel_max : T;
  kw_error_activation : string;
  kw_A_activation : string;
  kw_LSTM_activation : string;
  kw_LSTM_inner_activation : string;
  kw_output_mode : string;
  kw_extrap_start_time : option Z;
  kw_data_format : string;
  (** of [**kwargs], handed to [Recurrent.__init__] *)
  kw_return_sequences : bool
}.

(** the keywords with other sizes, or another [output_mode] *)
Definition with_sizes (kw : Config)
    (stack R_stack A_filt Ahat_filt R_filt : list Z) : Config :=
  {| kw_stack_sizes := stack;
     kw_R_stack_sizes := R_stack;
     kw_A_filt_sizes := A_filt;
     kw_Ahat_filt_sizes := Ahat_filt;
     kw_R_filt_sizes := R_filt;
     kw_pixel_max := kw_pixel_max kw;
     kw_error_activation := kw_error_activation kw;
     kw_A_activation := kw_A_activation kw;
     kw_LSTM_activation := kw_LSTM_activation kw;
     kw_LSTM_inner_activation := kw_LSTM_inner_activation kw;
     kw_output_mode := kw_output_mode kw;
     kw_extrap_start_time := kw_extrap_start_time kw;
     kw_data_format := kw_data_format kw;
     kw_return_sequences := kw_return_sequences kw |}.

Definition with_mode (kw : Config) (mode : string) : Config :=
  {| kw_stack_sizes := kw_stack_sizes kw;
     kw_R_stack_sizes := kw_R_stack_sizes kw;
     kw_A_filt_sizes := kw_A_filt_sizes kw;
     kw_Ahat_filt_sizes := kw_Ahat_filt_sizes kw;
     kw_R_filt_sizes := kw_R_filt_sizes kw;
     kw_pixel_max := kw_pixel_max kw;
     kw_error_activation := kw_error_activation kw;
     kw_A_activation := kw_A_activation kw;
     kw_LSTM_activation := kw_LSTM_activation kw;
     kw_LSTM_inner_activation := kw_LSTM_inner_activation kw;
     kw_output_mode := mode;
     kw_extrap_start_time := kw_extrap_start_time kw;
     kw_data_format := kw_data_format kw;
     kw_return_sequences := kw_return_sequences kw |}.

(** The attributes [__init__] sets on [self]. *)
Record PredNet : Type := {
  stack_sizes : list Z;
  nb_layers : nat;
  R_stack_sizes : list Z;
  A_filt_sizes : list Z;
  Ahat_filt_sizes : list Z;
  R_filt_sizes : list Z;
  pixel_max : T;
  error_activation : Activation;
  A_activation : Activation;
  LSTM_activation : Activation;
  LSTM_inner_activation : Activation;
  output_mode : string;
  output_layer_type : option string;
  output_layer_num : option nat;
  extrap_start_time : option Z;
  data_format : string;
  channel_axis : Z;
  row_axis : Z;
  column_axis : Z;
  return_sequences : bool
}.

Definition default_output_modes : list string := ["prediction"; "error"; "all"].

(** [[layer + str(n) for n in range(nb_layers) for layer in ['R','E','A','Ahat']]] *)
Definition layer_output_modes (nb_layers : nat) : list string :=
  flat_map (fun n => map (fun layer => layer ++ str n) ["R"; "E"; "A"; "Ahat"])
           (range nb_layers).

(** Lines 106-112: the unit type and the layer number of a layer mode, read
    off the string as [output_mode[:-1]] and [int(output_mode[-1])]. *)
Definition output_layer (nb_layers : nat) (output_mode : string)
    : res (option string * option nat) :=
  if str_in output_mode (layer_output_modes nb_layers)
  then match last_char output_mode with
       | Some c => n <- int_of_char c ;; Ok (Some (but_last output_mode), Some n)
       | None => Raise IndexError
       end
  else Ok (None, None).

(** [PredNet.__init__] (lines 65-123).  The decorator [legacy_prednet_support]
    only renames keywords of an older interface and is the identity on the
    keywords used here. *)
Definition __init__ (kw : Config) : res PredNet :=
  let stack_sizes := kw_stack_sizes kw in
  let nb_layers := List.length stack_sizes in
  assert (Nat.eqb (List.length (kw_R_stack_sizes kw)) nb_layers)
         "len(R_stack_sizes) must equal len(stack_sizes)" ;;;
  let R_stack_sizes := kw_R_stack_sizes kw in
  assert (Z.of_nat (List.length (kw_A_filt_sizes kw)) =? Z.of_nat nb_layers - 1)
         "len(A_filt_sizes) must equal len(stack_sizes) - 1" ;;;
  let A_filt_sizes := kw_A_filt_sizes kw in
  assert (Nat.eqb (List.length (kw_Ahat_filt_sizes kw)) nb_layers)
         "len(Ahat_filt_sizes) must equal len(stack_sizes)" ;;;
  let Ahat_filt_sizes := kw_Ahat_filt_sizes kw in
  let R_filt_sizes := [3; 3; 3; 3] in
  assert (Nat.eqb (List.length R_filt_sizes) nb_layers)
         "len(R_filt_sizes) must equal len(stack_sizes)" ;;;
  error_activation <- activations_get (kw_error_activation kw) ;;
  A_activation <- activations_get (kw_A_activation kw) ;;
  LSTM_activation <- activations_get (kw_LSTM_activation kw) ;;
  LSTM_inner_activation <- activations_get (kw_LSTM_inner_activation kw) ;;
  let output_mode := kw_output_mode kw in
  assert (str_in output_mode (default_output_modes ++ layer_output_modes nb_layers))
         ("Invalid output_mode: " ++ output_mode) ;;;
  layer <- output_layer nb_layers output_mode ;;
  let data_format := kw_data_format kw in
  assert (str_in data_format ["channels_last"; "channels_first"])
         "data_format must be in {channels_last, channels_first}" ;;;
  Ok {| stack_sizes := stack_sizes;
        nb_layers := nb_layers;
        R_stack_sizes := R_stack_sizes;
        A_filt_sizes := A_filt_sizes;
        Ahat_filt_sizes := Ahat_filt_sizes;
        R_filt_sizes := R_filt_sizes;
        pixel_max := kw_pixel_max kw;
        error_activation := error_activation;
        A_activation := A_activation;
        LSTM_activation := LSTM_activation;
        LSTM_inner_activation := LSTM_inner_activation;
        output_mode := output_mode;
        output_layer_type := fst layer;
        output_layer_num := snd layer;
        extrap_start_time := kw_extrap_start_time kw;
        data_format := data_format;
        channel_axis := if (data_format =? "channels_first")%string then -3 else -1;
        row_axis := if (data_format =? "channels_first")%string then -2 else -3;
        column_axis := if (data_format =? "channels_first")%string then -1 else -2;
        return_sequences := kw_return_sequences kw |}.

(** The attributes a construction sets, given the four resolved activations
    and the parsed layer mode: the record at the end of [__init__]. *)
Definition instance_of (kw : Config) (ea aa la ia : Activation)
    (layer : option string * option nat) : PredNet :=
  {| stack_sizes := kw_stack_sizes kw;
     nb_layers := List.length (kw_stack_sizes kw);
     R_stack_sizes := kw_R_stack_sizes kw;
     A_filt_sizes := kw_A_filt_sizes kw;
     Ahat_filt_sizes := kw_Ahat_filt_sizes kw;
     R_filt_sizes := [3; 3; 3; 3];
     pixel_max := kw_pixel_max kw;
     error_activation := ea;
     A_activation := aa;
     LSTM_activation := la;
     LSTM_inner_activation := ia;
     output_mode := kw_output_mode kw;
     output_layer_type := fst layer;
     output_layer_num := snd layer;
     extrap_start_time := kw_extrap_start_time kw;
     data_format := kw_data_format kw;
     channel_axis := if (kw_data_format kw =? "channels_first")%string then -3 else -1;
     row_axis := if (kw_data_format kw =? "channels_first")%string then -2 else -3;
     column_axis := if (kw_data_format kw =? "channels_first")%string then -1 else -2;
     return_sequences := kw_return_sequences kw |}.

(** [PredNet.get_config] (lines 324-342): the constructor's keywords read back
    from [self], on top of the base class's mapping. *)
Definition get_config (self : PredNet) : Config :=
  {| kw_stack_sizes := stack_sizes self;
     kw_R_stack_sizes := R_stack_sizes self;
     kw_A_filt_sizes := A_filt_sizes self;
     kw_Ahat_filt_sizes := Ahat_filt_sizes self;
     kw_R_filt_sizes := R_filt_sizes self;
     kw_pixel_max := pixel_max self;
     kw_error_activation := act_name (error_activation self);
     kw_A_activation := act_name (A_activation self);
     kw_LSTM_activation := act_name (LSTM_activation self);
     kw_LSTM_inner_activation := act_name (LSTM_inner_activation self);
     kw_output_mode := output_mode self;
     kw_extrap_start_time := extrap_start_time self;
     kw_data_format := data_format self;
     kw_return_sequences := return_sequences self |}.

(** [Layer.from_config] of the framework calls the constructor with the mapping as its keywords. *)
Definition from_config (config : Config) : res PredNet := __init__ config.

(** [self.output_layer_type == ty] and [self.output_layer_num == l] *)
Definition type_is (self : PredNet) (ty : string) : bool :=
  match output_layer_type self with
  | Some t => (t =? ty)%string
  | None => false
  end.

Definition layer_is (self : PredNet) (l : nat) : bool :=
  match output_layer_num self with
  | Some n => Nat.eqb n l
  | None => false
  end.

(* ------------------------------------------------------------------ *)
(** *** Shapes *)

Definition shape : Type := list Z.

(** [np.prod] *)
Definition prod (s : shape) : Z := fold_right Z.mul 1 s.

(** [PredNet.compute_output_shape] (lines 125-147).  The quotient [/] of two
    integers is written as integer division; the file carries the
    [coding: UTF-8] line of a Python 2 source, and on the shapes the layer is
    used with (sides that are multiples of [2**l]) the two Python semantics
    of [/] give the same number. *)
Definition compute_output_shape (self : PredNet) (input_shape : shape) : res shape :=
  out_shape <-
    (if (output_mode self =? "prediction")%string then Ok (skipn 2 input_shape)
     else if (output_mode self =? "error")%string then Ok [Z.of_nat (nb_layers self)]
     else if (output_mode self =? "all")%string
          then Ok [prod (skipn 2 input_shape) + Z.of_nat (nb_layers self)]
     else
       let stack := if type_is self "R" then R_stack_sizes self
                    else stack_sizes self in
       let stack_mult := if type_is self "E" then 2 else 1 in
       match output_layer_num self with
       | None => Raise TypeError
       | Some num =>
           size <- getitem stack num ;;
           let out_stack_size := stack_mult * size in
           rows <- index input_shape (row_axis self) ;;
           let out_nb_row := rows / 2 ^ Z.of_nat num in
           cols <- index input_shape (column_axis self) ;;
           let out_nb_col := cols / 2 ^ Z.of_nat num in
           if (data_format self =? "channels_first")%string
           then Ok [out_stack_size; out_nb_row; out_nb_col]
           else Ok [out_nb_row; out_nb_col; out_stack_size]
       end) ;;
  if return_sequences self
  then b <- getitem input_shape 0 ;; t <- getitem input_shape 1 ;; Ok (b :: t :: out_shape)
  else b <- getitem input_shape 0 ;; Ok (b :: out_shape).

(* ------------------------------------------------------------------ *)
(** *** Tensors: a shape and the entries in row-major order *)

Record tensor : Type := {
  tshape : shape;
  tdata : list T
}.

Definition zrange (n : Z) : list Z := map Z.of_nat (seq 0 (Z.to_nat n)).

(** position of a multi-index in the row-major list of entries *)
Fixpoint flat_index (s : shape) (idx : list Z) : Z :=
  match s, idx with
  | _ :: s', i :: idx' => i * prod s' + flat_index s' idx'
  | _, _ => 0
  end.

(** all multi-indices of a shape, in row-major order *)
Fixpoint indices (s : shape) : list (list Z) :=
  match s with
  | [] => [[]]
  | d :: s' => flat_map (fun i => map (cons i) (indices s')) (zrange d)
  end.

Definition tget (x : tensor) (idx : list Z) : T :=
  nth (Z.to_nat (flat_index (tshape x) idx)) (tdata x) zero.

Definition tabulate (s : shape) (f : list Z -> T) : tensor :=
  {| tshape := s; tdata := map f (indices s) |}.

Definition tmap (f : T -> T) (x : tensor) : tensor :=
  {| tshape := tshape x; tdata := map f (tdata x) |}.

(** [K.zeros(shape)] *)
Definition zeros (s : shape) : tensor :=
  {| tshape := s; tdata := repeat zero (Z.to_nat (prod s)) |}.

Definition shape_eqb (s1 s2 : shape) : bool :=
  if list_eq_dec Z.eq_dec s1 s2 then true else false.

(** An image batch has four axes; the layout says which one is the channel.
    [dims4] reads a shape as (samples, channels, rows, columns) and [pos4]
    writes such coordinates as a multi-index of the layout. *)
Definition dims4 (fmt : string) (s : shape) : res (Z * Z * Z * Z) :=
  match s with
  | [d0; d1; d2; d3] =>
      if (fmt =? "channels_first")%string then Ok (d0, d1, d2, d3)
      else Ok (d0, d3, d1, d2)
  | _ => Raise (ValueError "expected a tensor of 4 dimensions")
  end.

(** the same reading, total: zeros when the tensor has not four axes *)
Definition dims4' (fmt : string) (s : shape) : Z * Z * Z * Z :=
  match dims4 fmt s with
  | Ok d => d
  | Raise _ => (0, 0, 0, 0)
  end.

Definition pos4 {A : Type} (fmt : string) (n c i j : A) : list A :=
  if (fmt =? "channels_first")%string then [n; c; i; j] else [n; i; j; c].

Definition unpos4 (fmt : string) (idx : list Z) : Z * Z * Z * Z :=
  match idx with
  | [i0; i1; i2; i3] =>
      if (fmt =? "channels_first")%string then (i0, i1, i2, i3) else (i0, i3, i1, i2)
  | _ => (0, 0, 0, 0)
  end.

(** the entry at (n, c, i, j), and zero outside the image (zero padding) *)
Definition tget_pad (fmt : string) (x : tensor) (H W : Z) (n c i j : Z) : T :=
  if (0 <=? i) && (i <? H) && (0 <=? j) && (j <? W)
  then tget x (pos4 fmt n c i j) else zero.

Definition sum_over (l : list Z) (g : Z -> T) : T :=
  fold_right (fun k acc => add (g k) acc) zero l.

(* ------------------------------------------------------------------ *)
(** *** Elementwise arithmetic of the backend ([*], [+], [-]), with the
    broadcasting of axes of length one *)

Fixpoint broadcast_shape (s1 s2 : shape) : option shape :=
  match s1, s2 with
  | [], [] => Some []
  | d1 :: s1', d2 :: s2' =>
      match broadcast_shape s1' s2' with
      | Some s =>
          if d1 =? d2 then Some (d1 :: s)
          else if d1 =? 1 then Some (d2 :: s)
          else if d2 =? 1 then Some (d1 :: s)
          else None
      | None => None
      end
  | _, _ => None
  end.

(** the index read in an operand of shape [s] for index [idx] of the result *)
Fixpoint clip_index (s : shape) (idx : list Z) : list Z :=
  match s, idx with
  | d :: s', i :: idx' => (if d =? 1 then 0 else i) :: clip_index s' idx'
  | _, _ => []
  end.

Fixpoint map2 {A B C : Type} (f : A -> B -> C) (l1 : list A) (l2 : list B) : list C :=
  match l1, l2 with
  | x :: l1', y :: l2' => f x y :: map2 f l1' l2'
  | _, _ => []
  end.

(** the tensor an elementwise operation yields *)
Definition ew2 (f : T -> T -> T) (x y : tensor) : tensor :=
  if shape_eqb (tshape x) (tshape y)
  then {| tshape := tshape x; tdata := map2 f (tdata x) (tdata y) |}
  else tabulate (match broadcast_shape (tshape x) (tshape y) with
                 | Some s => s
                 | None => []
                 end)
                (fun idx => f (tget x (clip_index (tshape x) idx))
                              (tget y (clip_index (tshape y) idx))).

Definition elementwise2 (f : T -> T -> T) (x y : tensor) : res tensor :=
  match broadcast_shape (tshape x) (tshape y) with
  | Some _ => Ok (ew2 f x y)
  | None => Raise (ValueError "operands could not be broadcast together")
  end.

Definition tmul : tensor -> tensor -> res tensor := elementwise2 mul.
Definition tadd : tensor -> tensor -> res tensor := elementwise2 add.
Definition tsub : tensor -> tensor -> res tensor := elementwise2 sub.

Definition hadamard : tensor -> tensor -> tensor := ew2 mul.
Definition plus : tensor -> tensor -> tensor := ew2 add.
Definition minus : tensor -> tensor -> tensor := ew2 sub.

(** [K.minimum(x, m)] with a number [m] *)
Definition K_minimum (x : tensor) (m : T) : tensor := tmap (fun v => minimum v m) x.

(** applying a function of [keras.activations] *)
Definition apply (act : Activation) (x : tensor) : tensor := tmap (act_fn act) x.

(** [K.switch(condition, then, else)] with a scalar condition *)
Definition K_switch {A : Type} (condition : bool) (then_expression else_expression : A) : A :=
  if condition then then_expression else else_expression.

(* ------------------------------------------------------------------ *)
(** *** [K.concatenate(tensors, axis)]

    Along axis [k] a tensor is [outer] blocks of [d_k * inner] entries; the
    result takes, block by block, the block of each operand in turn. *)

Definition norm_axis (rank : nat) (axis : Z) : Z :=
  if axis <? 0 then Z.of_nat rank + axis else axis.

(** the shape with the axis set to [d] *)
Definition set_axis (s : shape) (k : nat) (d : Z) : shape :=
  (firstn k s ++ d :: skipn (S k) s)%list.

Fixpoint interleave (outer : nat) (parts : list (nat * list T)) : list T :=
  match outer with
  | O => []
  | S outer' =>
      (flat_map (fun p => firstn (fst p) (snd p)) parts
       ++ interleave outer' (map (fun p => (fst p, skipn (fst p) (snd p))) parts))%list
  end.

(** the tensors side by side along an axis *)
Definition concatenate (tensors : list tensor) (axis : Z) : tensor :=
  let s := match tensors with x :: _ => tshape x | [] => [] end in
  let k := Z.to_nat (norm_axis (List.length s) axis) in
  let inner := prod (skipn (S k) s) in
  let outer := prod (firstn k s) in
  let d := fold_right Z.add 0 (map (fun y => nth k (tshape y) 0) tensors) in
  {| tshape := set_axis s k d;
     tdata := interleave (Z.to_nat outer)
                (map (fun y => (Z.to_nat (nth k (tshape y) 0 * inner), tdata y))
                     tensors) |}.

Definition K_concatenate (tensors : list tensor) (axis : Z) : res tensor :=
  match tensors with
  | [] => Raise (ValueError "concatenate of an empty list")
  | x :: _ =>
      let rank := List.length (tshape x) in
      let ax := norm_axis rank axis in
      if (0 <=? ax) && (ax <? Z.of_nat rank) then
        let k := Z.to_nat ax in
        if forallb (fun y => shape_eqb (set_axis (tshape y) k 0) (set_axis (tshape x) k 0))
                   tensors
        then Ok (concatenate tensors axis)
        else Raise (ValueError "concatenate: the shapes differ off the axis")
      else Raise (ValueError "concatenate: no such axis")
  end.

(** [K.batch_flatten(x)] *)
Definition K_batch_flatten (x : tensor) : res tensor :=
  match tshape x with
  | [] => Raise (ValueError "batch_flatten of a scalar")
  | n :: rest => Ok {| tshape := [n; prod rest]; tdata := tdata x |}
  end.

Fixpoint chunks (count size : nat) (l : list T) : list (list T) :=
  match count with
  | O => []
  | S count' => firstn size l :: chunks count' size (skipn size l)
  end.

(** [K.mean(x, axis=-1, keepdims=True)] of a matrix *)
Definition K_mean_rows (x : tensor) : res tensor :=
  match tshape x with
  | [n; m] => Ok {| tshape := [n; 1];
                    tdata := map mean_of (chunks (Z.to_nat n) (Z.to_nat m) (tdata x)) |}
  | _ => Raise (ValueError "expected a matrix")
  end.

(* ------------------------------------------------------------------ *)
(** *** The layers of the framework the network is made of *)

(** [keras.layers.Conv2D] with [padding='same'] and unit strides.  [build]
    fixes the number of input channels and creates the kernel, of shape
    (kernel_size, kernel_size, input_dim, filters), and the bias. *)
Record Conv2D : Type := {
  filters : Z;
  kernel_size : Z;
  activation : Activation;
  conv_data_format : string;
  input_dim : option Z;
  kernel : list T;
  bias : list T
}.

Definition Conv2D_new (filters kernel_size : Z) (activation : Activation)
    (data_format : string) : Conv2D :=
  {| filters := filters; kernel_size := kernel_size; activation := activation;
     conv_data_format := data_format; input_dim := None; kernel := []; bias := [] |}.

(** [Conv2D.build(in_shape)]; [w] holds the values of the two variables. *)
Definition Conv2D_build (layer : Conv2D) (in_shape : shape) (w : list T * list T)
    : res Conv2D :=
  d <- index in_shape (if (conv_data_format layer =? "channels_first")%string
                       then 1 else -1) ;;
  Ok {| filters := filters layer; kernel_size := kernel_size layer;
        activation := activation layer; conv_data_format := conv_data_format layer;
        input_dim := Some d; kernel := fst w; bias := snd w |}.

(** The output of a convolution: convolution, bias, activation.  The window
    of output entry (i, j) starts [(kernel_size - 1) / 2] entries before it
    on each axis, and reads zero outside of the image. *)
Definition convolve (layer : Conv2D) (x : tensor) : tensor :=
  let fmt := conv_data_format layer in
  let '(N, C, Hh, W) := dims4' fmt (tshape x) in
  let k := kernel_size layer in
  let p := (k - 1) / 2 in
  let kshape := [k; k; C; filters layer] in
  tabulate (pos4 fmt N (filters layer) Hh W)
    (fun idx =>
       let '(n, f, i, j) := unpos4 fmt idx in
       act_fn (activation layer)
         (add
            (sum_over (zrange C) (fun c =>
             sum_over (zrange k) (fun di =>
             sum_over (zrange k) (fun dj =>
               mul (nth (Z.to_nat (flat_index kshape [di; dj; c; f]))
                        (kernel layer) zero)
                   (tget_pad fmt x Hh W n c (i + di - p) (j + dj - p))))))
            (nth (Z.to_nat f) (bias layer) zero))).

(** [Conv2D.call(x)] *)
Definition Conv2D_call (layer : Conv2D) (x : tensor) : res tensor :=
  match input_dim layer with
  | None => Raise (ValueError "the layer is not built")
  | Some cin =>
      d <- dims4 (conv_data_format layer) (tshape x) ;;
      let '(N, C, Hh, W) := d in
      if C =? cin then Ok (convolve layer x)
      else Raise (ValueError "the channels of the input differ from the kernel's")
  end.

(** Every entry repeated twice along rows and columns. *)
Definition upsample (fmt : string) (x : tensor) : tensor :=
  let '(N, C, Hh, W) := dims4' fmt (tshape x) in
  tabulate (pos4 fmt N C (2 * Hh) (2 * W))
    (fun idx => let '(n, c, i, j) := unpos4 fmt idx in
                tget x (pos4 fmt n c (i / 2) (j / 2))).

(** [UpSampling2D(data_format).call(x)], size (2, 2) *)
Definition UpSampling2D_call (fmt : string) (x : tensor) : res tensor :=
  dims4 fmt (tshape x) ;;; Ok (upsample fmt x).

(** The maximum of each 2 x 2 block, a last odd row or column dropped. *)
Definition maxpool (fmt : string) (x : tensor) : tensor :=
  let '(N, C, Hh, W) := dims4' fmt (tshape x) in
  tabulate (pos4 fmt N C (Hh / 2) (W / 2))
    (fun idx => let '(n, c, i, j) := unpos4 fmt idx in
                maximum
                  (maximum (tget x (pos4 fmt n c (2 * i) (2 * j)))
                           (tget x (pos4 fmt n c (2 * i) (2 * j + 1))))
                  (maximum (tget x (pos4 fmt n c (2 * i + 1) (2 * j)))
                           (tget x (pos4 fmt n c (2 * i + 1) (2 * j + 1))))).

(** [MaxPooling2D(data_format).call(x)], pool (2, 2), strides (2, 2), no
    padding *)
Definition MaxPooling2D_call (fmt : string) (x : tensor) : res tensor :=
  dims4 fmt (tshape x) ;;; Ok (maxpool fmt x).

(* ------------------------------------------------------------------ *)
(** *** [build] *)

(** [self] after [build]: the input shape it was built for and the
    convolutions, a dict from the family ('i', 'f', 'c', 'o', 'a', 'ahat') to
    the list of its layers. *)
Record Model : Type := {
  net : PredNet;
  input_spec : shape;
  conv_layers : list (string * list Conv2D)
}.

(** the number of input channels [build] gives the convolution of family [c]
    at layer [l] (lines 228-235) *)
Definition build_nb_channels (self : PredNet) (c : string) (l : nat) : res Z :=
  if (c =? "ahat")%string then getitem (R_stack_sizes self) l
  else if (c =? "a")%string then
    r <- getitem (R_stack_sizes self) l ;; Ok (2 * r)
  else
    s <- getitem (stack_sizes self) l ;;
    r <- getitem (R_stack_sizes self) l ;;
    let nb_channels := s * 2 + r in
    if Z.of_nat l <? Z.of_nat (nb_layers self) - 1
    then r1 <- getitem (R_stack_sizes self) (l + 1) ;; Ok (nb_channels + r1)
    else Ok nb_channels.

(** [PredNet.build] (lines 198-247).  [weights c l] gives the values of the
    kernel and bias of the convolution of family [c] at layer [l].  The
    first loop is written family by family; the second visits the families
    in the order of [sorted(self.conv_layers.keys())]. *)
Definition build (self : PredNet) (input_shape : shape)
    (weights : string -> nat -> list T * list T) : res Model :=
  let fmt := data_format self in
  gates <- mapM (fun c =>
             ls <- mapM (fun l =>
                     let act := if (c =? "c")%string then LSTM_activation self
                                else LSTM_inner_activation self in
                     n <- getitem (R_stack_sizes self) l ;;
                     k <- getitem (R_filt_sizes self) l ;;
                     Ok (Conv2D_new n k act fmt))
                   (range (nb_layers self)) ;;
             Ok (c, ls))
           ["i"; "f"; "c"; "o"] ;;
  ahat <- mapM (fun l =>
            let act := if Nat.eqb l 0 then relu else A_activation self in
            n <- getitem (stack_sizes self) l ;;
            k <- getitem (Ahat_filt_sizes self) l ;;
            Ok (Conv2D_new n k act fmt))
          (range (nb_layers self)) ;;
  a <- mapM (fun l =>
         n <- getitem (stack_sizes self) (l + 1) ;;
         k <- getitem (A_filt_sizes self) l ;;
         Ok (Conv2D_new n k (A_activation self) fmt))
       (filter (fun l => Z.of_nat l <? Z.of_nat (nb_layers self) - 1)
               (range (nb_layers self))) ;;
  let conv_layers := (gates ++ [("a", a); ("ahat", ahat)])%list in
  nb_row <- index input_shape (if (fmt =? "channels_first")%string then -2 else -3) ;;
  nb_col <- index input_shape (if (fmt =? "channels_first")%string then -1 else -2) ;;
  built <- mapM (fun c =>
             ls <- dict_get conv_layers c ;;
             ls' <- mapM (fun l =>
                      let ds_factor := 2 ^ Z.of_nat l in
                      nb_channels <- build_nb_channels self c l ;;
                      b <- getitem input_shape 0 ;;
                      let in_shape := [b; nb_channels; nb_row / ds_factor; nb_col / ds_factor] in
                      let in_shape := if (fmt =? "channels_last")%string
                                      then match in_shape with
                                           | [s0; s1; s2; s3] => [s0; s2; s3; s1]
                                           | _ => in_shape
                                           end
                                      else in_shape in
                      layer <- getitem ls l ;;
                      Conv2D_build layer in_shape (weights c l))
                    (range (List.length ls)) ;;
             Ok (c, ls'))
           ["a"; "ahat"; "c"; "f"; "i"; "o"] ;;
  Ok {| net := self; input_spec := input_shape; conv_layers := built |}.

(* ------------------------------------------------------------------ *)
(** *** The recurrent state *)

(** An entry of the list [states]: a tensor, or the integer scalar that
    counts the time steps.  The counter is an unbounded integer here; in the
    backend it is a machine integer, far from its bound on any sequence. *)
Inductive item : Type :=
| Tensor (x : tensor)
| Int (t : Z).

Definition as_tensor (v : item) : res tensor :=
  match v with Tensor x => Ok x | Int _ => Raise TypeError end.

Definition as_int (v : item) : res Z :=
  match v with Int t => Ok t | Tensor _ => Raise TypeError end.

Definition extrapolating (self : PredNet) : bool :=
  match extrap_start_time self with Some _ => true | None => false end.

(** [PredNet.get_initial_state] (lines 149-196).  [K.zeros_like(x)] summed
    over all axes but the first and the channels, and multiplied by a zero
    matrix, is the zero matrix of (samples, output_size); it is reshaped to
    the image shape of the unit.  Only the shape of [x] matters. *)
Definition get_initial_state (m : Model) (x : tensor) : res (list item) :=
  let self := net m in
  let input_shape := input_spec m in
  init_nb_row <- index input_shape (row_axis self) ;;
  init_nb_col <- index input_shape (column_axis self) ;;
  assert (Nat.eqb (List.length (tshape x)) 5) "expected ndim=5" ;;;
  samples <- getitem (tshape x) 0 ;;
  x_channels <- index (tshape x) (channel_axis self) ;;
  nb_channels <- index input_shape (channel_axis self) ;;
  let states_to_pass :=
    (["r"; "c"; "e"] ++ (if extrapolating self then ["ahat"] else []))%list in
  let nlayers_to_pass (u : string) : nat :=
    if (u =? "ahat")%string then 1%nat else nb_layers self in
  initial_states <-
    mapM (fun u =>
      mapM (fun l =>
        let ds_factor := 2 ^ Z.of_nat l in
        let nb_row := init_nb_row / ds_factor in
        let nb_col := init_nb_col / ds_factor in
        stack_size <-
          (if str_in u ["r"; "c"] then getitem (R_stack_sizes self) l
           else if (u =? "e")%string
                then s <- getitem (stack_sizes self) l ;; Ok (2 * s)
                else getitem (stack_sizes self) l) ;;
        if x_channels =? nb_channels then
          let output_shp := pos4 (data_format self) samples stack_size nb_row nb_col in
          Ok (Tensor (zeros output_shp))
        else Raise (ValueError "dot: the shapes are not aligned"))
      (range (nlayers_to_pass u)))
    states_to_pass ;;
  let initial_states := List.concat initial_states in
  if extrapolating self
  then Ok (initial_states ++ [Int 0])%list
  else Ok initial_states.

(* ------------------------------------------------------------------ *)
(** *** [step] *)

Definition conv (m : Model) (c : string) (l : nat) : res Conv2D :=
  ls <- dict_get (conv_layers m) c ;; getitem ls l.

Definition unbound {A : Type} (name : string) (v : option A) : res A :=
  match v with Some x => Ok x | None => Raise (UnboundLocalError name) end.

(** One turn of the loop "Update R units starting from the top" (lines
    263-278), at layer [l]; the loop variables are the lists [c] and [r] and
    [r_up], unbound before the first turn. *)
Definition update_R (m : Model) (r_tm1 c_tm1 e_tm1 : list item) (l : nat)
    (vars : list tensor * list tensor * option tensor)
    : res (list tensor * list tensor * option tensor) :=
  let self := net m in
  let '(c, r, r_up) := vars in
  r_prev <- (v <- getitem r_tm1 l ;; as_tensor v) ;;
  e_prev <- (v <- getitem e_tm1 l ;; as_tensor v) ;;
  inputs <- (if Z.of_nat l <? Z.of_nat (nb_layers self) - 1
             then u <- unbound "r_up" r_up ;; Ok [r_prev; e_prev; u]
             else Ok [r_prev; e_prev]) ;;
  inputs <- K_concatenate inputs (channel_axis self) ;;
  i <- (cv <- conv m "i" l ;; Conv2D_call cv inputs) ;;
  f <- (cv <- conv m "f" l ;; Conv2D_call cv inputs) ;;
  o <- (cv <- conv m "o" l ;; Conv2D_call cv inputs) ;;
  c_prev <- (v <- getitem c_tm1 l ;; as_tensor v) ;;
  fc <- tmul f c_prev ;;
  cand <- (cv <- conv m "c" l ;; Conv2D_call cv inputs) ;;
  ic <- tmul i cand ;;
  _c <- tadd fc ic ;;
  _r <- tmul o (apply (LSTM_activation self) _c) ;;
  r_up <- (if (0 <? l)%nat
           then u <- UpSampling2D_call (data_format self) _r ;; Ok (Some u)
           else Ok r_up) ;;
  Ok (_c :: c, _r :: r, r_up).

(** The variables of the loop "Update feedforward path starting from the
    bottom": the target [a], the list [e], and [frame_prediction] and
    [output], unbound until assigned. *)
Record feedforward : Type := {
  ff_a : tensor;
  ff_e : list tensor;
  ff_frame_prediction : option tensor;
  ff_output : option tensor
}.

(** One turn of that loop (lines 281-305), at layer [l]. *)
Definition update_E (m : Model) (r : list tensor) (l : nat) (vars : feedforward)
    : res feedforward :=
  let self := net m in
  let a := ff_a vars in
  r_l <- getitem r l ;;
  ahat <- (cv <- conv m "ahat" l ;; Conv2D_call cv r_l) ;;
  let ahat := if Nat.eqb l 0 then K_minimum ahat (pixel_max self) else ahat in
  let frame_prediction :=
    if Nat.eqb l 0 then Some ahat else ff_frame_prediction vars in
  e_up <- (d <- tsub ahat a ;; Ok (apply (error_activation self) d)) ;;
  e_down <- (d <- tsub a ahat ;; Ok (apply (error_activation self) d)) ;;
  e_l <- K_concatenate [e_up; e_down] (channel_axis self) ;;
  let e := (ff_e vars ++ [e_l])%list in
  output <-
    (if layer_is self l then
       if type_is self "A" then Ok (Some a)
       else if type_is self "Ahat" then Ok (Some ahat)
       else if type_is self "R" then x <- getitem r l ;; Ok (Some x)
       else if type_is self "E" then x <- getitem e l ;; Ok (Some x)
       else Ok (ff_output vars)
     else Ok (ff_output vars)) ;;
  a <- (if Z.of_nat l <? Z.of_nat (nb_layers self) - 1
        then e_top <- getitem e l ;;
             x <- (cv <- conv m "a" l ;; Conv2D_call cv e_top) ;;
             MaxPooling2D_call (data_format self) x
        else Ok a) ;;
  Ok {| ff_a := a; ff_e := e; ff_frame_prediction := frame_prediction;
        ff_output := output |}.

(** The loop of lines 311-313: the mean error of each layer, side by side. *)
Definition all_errors (self : PredNet) (e : list tensor) : res (option tensor) :=
  foldM (fun l all_error =>
           e_l <- getitem e l ;;
           flat <- K_batch_flatten e_l ;;
           layer_error <- K_mean_rows flat ;;
           if Nat.eqb l 0 then Ok (Some layer_error)
           else prev <- unbound "all_error" all_error ;;
                x <- K_concatenate [prev; layer_error] (-1) ;;
                Ok (Some x))
        (range (nb_layers self)) None.

(** The input the recurrence works on (lines 254-256). *)
Definition step_input (self : PredNet) (a : tensor) (states : list item)
    : res (tensor * option Z) :=
  match extrap_start_time self with
  | Some t_extrap =>
      t <- (v <- index states (-1) ;; as_int v) ;;
      prev <- (v <- index states (-2) ;; as_tensor v) ;;
      Ok (K_switch (t_extrap <=? t) prev a, Some t)
  | None => Ok (a, None)
  end.

(** The body of [step] after the input is chosen (lines 258-322); [t] is the
    time step read from the state when there is one. *)
Definition recurrence (m : Model) (a : tensor) (t : option Z) (states : list item)
    : res (tensor * list item) :=
  let self := net m in
  let L := nb_layers self in
  let r_tm1 := slice states 0 L in
  let c_tm1 := slice states L (2 * L) in
  let e_tm1 := slice states (2 * L) (3 * L) in
  top <- foldM (update_R m r_tm1 c_tm1 e_tm1) (rev (range L)) ([], [], None) ;;
  let '(c, r, _) := top in
  ff <- foldM (update_E m r) (range L)
          {| ff_a := a; ff_e := []; ff_frame_prediction := None; ff_output := None |} ;;
  let e := ff_e ff in
  output <-
    (match output_layer_type self with
     | None =>
         if (output_mode self =? "prediction")%string
         then unbound "frame_prediction" (ff_frame_prediction ff)
         else
           all_error <- all_errors self e ;;
           if (output_mode self =? "error")%string
           then unbound "all_error" all_error
           else
             frame_prediction <- unbound "frame_prediction" (ff_frame_prediction ff) ;;
             flat <- K_batch_flatten frame_prediction ;;
             all_error <- unbound "all_error" all_error ;;
             K_concatenate [flat; all_error] (-1)
     | Some _ => unbound "output" (ff_output ff)
     end) ;;
  let states := (map Tensor r ++ map Tensor c ++ map Tensor e)%list in
  match t with
  | Some t =>
      frame_prediction <- unbound "frame_prediction" (ff_frame_prediction ff) ;;
      Ok (output, (states ++ [Tensor frame_prediction; Int (t + 1)])%list)
  | None => Ok (output, states)
  end.

(** [PredNet.step] (lines 249-322). *)
Definition step (m : Model) (a : tensor) (states : list item)
    : res (tensor * list item) :=
  at_ <- step_input (net m) a states ;;
  recurrence m (fst at_) (snd at_) states.

(* ------------------------------------------------------------------ *)
(** *** The recurrence in the specification's words

    These relations follow section 4.3 of the specification; the theorems
    below compare them with [step]. *)

(** Step 2, at layer [l]: the gates are computed from the concatenation of
    [R_{l,t-1}], [E_{l,t-1}] and, below the top layer, the upsampled new
    representation [R_above] of layer [l+1]; then
    [C_l = f * C_{l,t-1} + i * cell_candidate] and
    [R_l = o * cellActivation(C_l)]. *)
Definition representation_update (m : Model) (states : list item) (l : nat)
    (R_above : option tensor) (R_l C_l : tensor) : Prop :=
  let self := net m in
  let L := nb_layers self in
  exists r_prev c_prev e_prev cvi cvf cvo cvc up,
    nth_error states l = Some (Tensor r_prev) /\
    nth_error states (L + l) = Some (Tensor c_prev) /\
    nth_error states (2 * L + l) = Some (Tensor e_prev) /\
    conv m "i" l = Ok cvi /\ conv m "f" l = Ok cvf /\
    conv m "o" l = Ok cvo /\ conv m "c" l = Ok cvc /\
    (if (S l <? L)%nat
     then exists above, R_above = Some above /\ up = [upsample (data_format self) above]
     else up = []) /\
    let inputs := concatenate ([r_prev; e_prev] ++ up)%list (channel_axis self) in
    let i := convolve cvi inputs in
    let f := convolve cvf inputs in
    let o := convolve cvo inputs in
    let cell_candidate := convolve cvc inputs in
    C_l = plus (hadamard f c_prev) (hadamard i cell_candidate) /\
    R_l = hadamard o (apply (LSTM_activation self) C_l).

(** Step 2 over all layers: the lists of the new [R_l] and [C_l]. *)
Definition top_down (m : Model) (states : list item) (R C : list tensor) : Prop :=
  let L := nb_layers (net m) in
  List.length R = L /\ List.length C = L /\
  forall l, (l < L)%nat ->
    exists R_l C_l,
      nth_error R l = Some R_l /\ nth_error C l = Some C_l /\
      representation_update m states l (nth_error R (S l)) R_l C_l.

(** Step 3, at layer [l]: the prediction (clipped at layer 0) and the error
    of the target [A_l]. *)
Definition error_update (m : Model) (l : nat) (R_l A_l Ahat_l E_l : tensor) : Prop :=
  let self := net m in
  exists cv,
    conv m "ahat" l = Ok cv /\
    Ahat_l = (if Nat.eqb l 0 then K_minimum (convolve cv R_l) (pixel_max self)
              else convolve cv R_l) /\
    E_l = concatenate [apply (error_activation self) (minus Ahat_l A_l);
                       apply (error_activation self) (minus A_l Ahat_l)]
                      (channel_axis self).

(** the target of layer [l+1] *)
Definition next_target (m : Model) (l : nat) (E_l A_next : tensor) : Prop :=
  exists cv,
    conv m "a" l = Ok cv /\
    A_next = maxpool (data_format (net m)) (convolve cv E_l).

(** Step 3 over all layers, from the input [a] of the recurrence: the lists
    of targets, predictions and errors. *)
Definition bottom_up (m : Model) (a : tensor) (R A Ahat E : list tensor) : Prop :=
  let L := nb_layers (net m) in
  List.length A = L /\ List.length Ahat = L /\ List.length E = L /\
  (forall a0, nth_error A 0 = Some a0 -> a0 = a) /\
  forall l, (l < L)%nat ->
    exists R_l A_l Ahat_l E_l,
      nth_error R l = Some R_l /\ nth_error A l = Some A_l /\
      nth_error Ahat l = Some Ahat_l /\ nth_error E l = Some E_l /\
      error_update m l R_l A_l Ahat_l E_l /\
      forall A_next, nth_error A (S l) = Some A_next -> next_target m l E_l A_next.

(** Steps 3 and 4: the output a mode selects. *)
Definition selected_output (self : PredNet) (R A Ahat E : list tensor)
    (output : tensor) : Prop :=
  match output_layer_type self with
  | None =>
      if (output_mode self =? "prediction")%string
      then nth_error Ahat 0 = Some output
      else exists all_error,
             all_errors self E = Ok (Some all_error) /\
             if (output_mode self =? "error")%string
             then output = all_error
             else exists frame_prediction flat,
                    nth_error Ahat 0 = Some frame_prediction /\
                    K_batch_flatten frame_prediction = Ok flat /\
                    output = concatenate [flat; all_error] (-1)
  | Some ty =>
      exists l, output_layer_num self = Some l /\
        ((ty = "A" /\ nth_error A l = Some output) \/
         (ty = "Ahat" /\ nth_error Ahat l = Some output) \/
         (ty = "R" /\ nth_error R l = Some output) \/
         (ty = "E" /\ nth_error E l = Some output))
  end.

(* ------------------------------------------------------------------ *)
(** *** Invariants of the two loops of [step] *)

(** The top-down loop, before the turn of layer [n - 1]: the layers from [n]
    up are done. *)
Definition top_down_from (m : Model) (states : list item) (n : nat)
    (vars : list tensor * list tensor * option tensor) : Prop :=
  let L := nb_layers (net m) in
  let '(c, r, r_up) := vars in
  List.length r = (L - n)%nat /\ List.length c = (L - n)%nat /\
  (forall l, (n <= l < L)%nat ->
     exists R_l C_l,
       nth_error r (l - n) = Some R_l /\ nth_error c (l - n) = Some C_l /\
       representation_update m states l (nth_error r (S l - n)) R_l C_l) /\
  ((0 < n < L)%nat ->
     exists above, nth_error r 0 = Some above
                   /\ r_up = Some (upsample (data_format (net m)) above)).

(** what the variable [output] may hold after the turn of layer [l] *)
Definition output_of_layer (self : PredNet) (l : nat)
    (R_l A_l Ahat_l E_l : tensor) (output : option tensor) : Prop :=
  exists ty,
    output_layer_num self = Some l /\ output_layer_type self = Some ty /\
    ((ty = "A" /\ output = Some A_l) \/ (ty = "Ahat" /\ output = Some Ahat_l) \/
     (ty = "R" /\ output = Some R_l) \/ (ty = "E" /\ output = Some E_l)).

(** The bottom-up loop, before the turn of layer [k]: the layers below [k]
    are done; [A] and [Ahat] collect their targets and predictions, and the
    variable [a] holds the target of layer [k]. *)
Definition bottom_up_upto (m : Model) (a : tensor) (r : list tensor) (k : nat)
    (A Ahat : list tensor) (ff : feedforward) : Prop :=
  let self := net m in
  let L := nb_layers self in
  List.length A = k /\ List.length Ahat = k /\ List.length (ff_e ff) = k /\
  nth_error (A ++ [ff_a ff]) 0 = Some a /\
  (forall l, (l < k)%nat ->
     exists R_l A_l Ahat_l E_l,
       nth_error r l = Some R_l /\ nth_error A l = Some A_l /\
       nth_error Ahat l = Some Ahat_l /\ nth_error (ff_e ff) l = Some E_l /\
       error_update m l R_l A_l Ahat_l E_l /\
       ((S l < L)%nat -> forall A_next,
          nth_error (A ++ [ff_a ff]) (S l) = Some A_next -> next_target m l E_l A_next)) /\
  ff_frame_prediction ff = nth_error Ahat 0 /\
  (forall x, ff_output ff = Some x ->
     exists ty l,
       output_layer_type self = Some ty /\ output_layer_num self = Some l /\
       ((ty = "A" /\ nth_error A l = Some x) \/
        (ty = "Ahat" /\ nth_error Ahat l = Some x) \/
        (ty = "R" /\ nth_error r l = Some x) \/
        (ty = "E" /\ nth_error (ff_e ff) l = Some x))).

(** The frame prediction a step records: the prediction of layer 0 in the
    bottom-up pass over the input the recurrence works on. *)
Definition frame_prediction_of (m : Model) (a : tensor) (states : list item)
    (frame_prediction : tensor) : Prop :=
  exists a' t R C A Ahat E,
    step_input (net m) a states = Ok (a', t) /\
    top_down m states R C /\
    bottom_up m a' R A Ahat E /\
    nth_error Ahat 0 = Some frame_prediction.

(* ------------------------------------------------------------------ *)
(** *** Layouts *)

Definition layout (fmt : string) : Prop :=
  fmt = "channels_last" \/ fmt = "channels_first".

(** the channel axis of a layout, as [__init__] sets it, and its position
    among the four axes of an image batch *)
Definition channel_axis_of (fmt : string) : Z :=
  if (fmt =? "channels_first")%string then -3 else -1.

Definition channel_pos (fmt : string) : nat :=
  if (fmt =? "channels_first")%string then 1%nat else 3%nat.

(* ------------------------------------------------------------------ *)
(** *** Closed forms and shapes, for the proofs *)

(** a convolution after [build] *)
Definition built (filt k : Z) (act : Activation) (fmt : string) (cin : Z)
    (w : list T * list T) : Conv2D :=
  {| filters := filt; kernel_size := k; activation := act; conv_data_format := fmt;
     input_dim := Some cin; kernel := fst w; bias := snd w |}.

(** The model [build] returns, in closed form: every convolution with the
    number of input channels of [build_nb_channels]. *)
Definition built_model (self : PredNet) (input_shape : shape)
    (weights : string -> nat -> list T * list T) : Model :=
  let fmt := data_format self in
  let L := nb_layers self in
  let S l := nth l (stack_sizes self) 0 in
  let R l := nth l (R_stack_sizes self) 0 in
  let gate c act :=
    (c, map (fun l => built (R l) (nth l (R_filt_sizes self) 0) act fmt
                        (if Z.of_nat l <? Z.of_nat L - 1
                         then S l * 2 + R l + R (l + 1)%nat else S l * 2 + R l)
                        (weights c l))
            (range L)) in
  {| net := self;
     input_spec := input_shape;
     conv_layers :=
       [("a", map (fun l => built (S (l + 1)%nat) (nth l (A_filt_sizes self) 0)
                              (A_activation self) fmt (2 * R l) (weights "a" l))
                  (range (L - 1)));
        ("ahat", map (fun l => built (S l) (nth l (Ahat_filt_sizes self) 0)
                                 (if Nat.eqb l 0 then relu else A_activation self)
                                 fmt (R l) (weights "ahat" l))
                     (range L));
        gate "c" (LSTM_activation self);
        gate "f" (LSTM_inner_activation self);
        gate "i" (LSTM_inner_activation self);
        gate "o" (LSTM_inner_activation self)] |}.

(** a convolution built for [cin] input channels in layout [fmt] *)
Definition conv_for (cv : Conv2D) (fmt : string) (cin filt : Z) : Prop :=
  input_dim cv = Some cin /\ conv_data_format cv = fmt /\ filters cv = filt.

(** the variable [output] after the turn of layer [l] (lines 293-301) *)
Definition pick_output (self : PredNet) (l : nat) (a ahat R_l E_l : tensor)
    (output : option tensor) : option tensor :=
  if layer_is self l then
    if type_is self "A" then Some a
    else if type_is self "Ahat" then Some ahat
    else if type_is self "R" then Some R_l
    else if type_is self "E" then Some E_l
    else output
  else output.

(** the shape of a clip: samples, time steps, then the image *)
Definition image5 (fmt : string) (samples steps channels rows cols : Z) : shape :=
  if (fmt =? "channels_first")%string
  then [samples; steps; channels; rows; cols]
  else [samples; steps; rows; cols; channels].

Definition item_shape (v : item) : option shape :=
  match v with
  | Tensor x => Some (tshape x)
  | Int _ => None
  end.

(** The shapes of the entries of a state, for [samples] clips of images of
    [rows] x [cols] pixels: the units R, C and E of every layer, at half the
    resolution of the layer below, then the previous frame prediction and the
    time step (not a tensor) when the network extrapolates. *)
Definition state_shapes (self : PredNet) (samples rows cols : Z) : list (option shape) :=
  let fmt := data_format self in
  let units (chan : nat -> Z) :=
    map (fun l => Some (pos4 fmt samples (chan l)
                              (rows / 2 ^ Z.of_nat l) (cols / 2 ^ Z.of_nat l)))
        (range (nb_layers self)) in
  (units (fun l => nth l (R_stack_sizes self) 0)
   ++ units (fun l => nth l (R_stack_sizes self) 0)
   ++ units (fun l => 2 * nth l (stack_sizes self) 0)
   ++ (if extrapolating self
       then [Some (pos4 fmt samples (nth 0 (stack_sizes self) 0) rows cols); None]
       else []))%list.

(* ------------------------------------------------------------------ *)
(** *** Geometry: the shapes a network and its states fit *)

(** The sizes a network works with: the layout, the number of samples, and
    for every layer the channels of its representation and of its target,
    and the rows and columns of its images. *)
Record geometry : Type := {
  g_fmt : string;
  g_samples : Z;
  g_R : nat -> Z;
  g_S : nat -> Z;
  g_rows : nat -> Z;
  g_cols : nat -> Z
}.

(** the shape of a tensor of [chan] channels at layer [l] *)
Definition unit_shape (G : geometry) (chan : Z) (l : nat) : shape :=
  pos4 (g_fmt G) (g_samples G) chan (g_rows G l) (g_cols G l).

(** every layer has half the rows and columns of the layer below, exactly *)
Definition halving (G : geometry) (L : nat) : Prop :=
  forall l, (S l < L)%nat ->
    2 * g_rows G (S l) = g_rows G l /\ g_rows G l / 2 = g_rows G (S l) /\
    2 * g_cols G (S l) = g_cols G l /\ g_cols G l / 2 = g_cols G (S l).

(** the network is of this geometry *)
Definition net_fits (self : PredNet) (G : geometry) : Prop :=
  layout (g_fmt G) /\ data_format self = g_fmt G /\
  channel_axis self = channel_axis_of (g_fmt G) /\
  halving G (nb_layers self).

(** the state holds, for every layer, units R, C and E of this geometry *)
Definition states_fit (G : geometry) (L : nat) (states : list item) : Prop :=
  forall l, (l < L)%nat ->
    exists r c e,
      nth_error states l = Some (Tensor r) /\
      nth_error states (L + l) = Some (Tensor c) /\
      nth_error states (2 * L + l) = Some (Tensor e) /\
      tshape r = unit_shape G (g_R G l) l /\
      tshape c = unit_shape G (g_R G l) l /\
      tshape e = unit_shape G (2 * g_S G l) l.

(** the channels of the input of the gates of layer [l] *)
Definition gate_channels (G : geometry) (L l : nat) : Z :=
  g_R G l + (2 * g_S G l + (if (S l <? L)%nat then g_R G (S l) else 0)).

(** the convolutions are built for the channels the step feeds them *)
Definition convs_fit (m : Model) (G : geometry) : Prop :=
  let L := nb_layers (net m) in
  (forall l c, (l < L)%nat -> In c ["i"; "f"; "o"; "c"] ->
     exists cv cin, conv m c l = Ok cv /\ conv_for cv (g_fmt G) cin (g_R G l)
                    /\ cin = gate_channels G L l) /\
  (forall l, (l < L)%nat ->
     exists cv cin, conv m "ahat" l = Ok cv /\ conv_for cv (g_fmt G) cin (g_S G l)
                    /\ cin = g_R G l) /\
  (forall l, (S l < L)%nat ->
     exists cv cin, conv m "a" l = Ok cv /\ conv_for cv (g_fmt G) cin (g_S G (S l))
                    /\ cin = 2 * g_S G l).

(** The top-down loop on a fitting state, before the turn of layer
    [n - 1]. *)
Definition top_down_fits (m : Model) (G : geometry) (n : nat)
    (vars : list tensor * list tensor * option tensor) : Prop :=
  let L := nb_layers (net m) in
  let '(c, r, r_up) := vars in
  List.length r = (L - n)%nat /\ List.length c = (L - n)%nat /\
  (forall l, (n <= l < L)%nat ->
     exists R_l C_l,
       nth_error r (l - n) = Some R_l /\ nth_error c (l - n) = Some C_l /\
       tshape R_l = unit_shape G (g_R G l) l /\
       tshape C_l = unit_shape G (g_R G l) l) /\
  ((0 < n < L)%nat ->
     exists u, r_up = Some u /\
               tshape u = pos4 (g_fmt G) (g_samples G) (g_R G n)
                               (2 * g_rows G n) (2 * g_cols G n)).

(** the channels of the unit a layer mode selects *)
Definition selected_channels (self : PredNet) (G : geometry) (l : nat) : Z :=
  if type_is self "A" then g_S G l
  else if type_is self "Ahat" then g_S G l
  else if type_is self "R" then g_R G l
  else 2 * g_S G l.

(** a layer mode names one of the four units and a layer of the network *)
Definition selector_fits (self : PredNet) : Prop :=
  forall ty, output_layer_type self = Some ty ->
    In ty ["A"; "Ahat"; "R"; "E"] /\
    exists l, output_layer_num self = Some l /\ (l < nb_layers self)%nat.

(** The bottom-up loop on fitting tensors, before the turn of layer [k]. *)
Definition bottom_up_fits (m : Model) (G : geometry) (k : nat) (ff : feedforward)
    : Prop :=
  let self := net m in
  let L := nb_layers self in
  List.length (ff_e ff) = k /\
  (forall l, (l < k)%nat ->
     exists E_l, nth_error (ff_e ff) l = Some E_l /\
                 tshape E_l = unit_shape G (2 * g_S G l) l) /\
  ((k < L)%nat -> tshape (ff_a ff) = unit_shape G (g_S G k) k) /\
  ((0 < k)%nat ->
   exists fp, ff_frame_prediction ff = Some fp /\
              tshape fp = unit_shape G (g_S G 0) 0) /\
  (forall n, output_layer_num self = Some n -> (n < k)%nat ->
     output_layer_type self <> None ->
     exists x, ff_output ff = Some x /\
               tshape x = unit_shape G (selected_channels self G n) n).

(** the shape of the output of a step, by mode *)
Definition output_shape (self : PredNet) (G : geometry) : shape :=
  match output_layer_type self with
  | None =>
      if (output_mode self =? "prediction")%string then unit_shape G (g_S G 0) 0
      else if (output_mode self =? "error")%string
           then [g_samples G; Z.of_nat (nb_layers self)]
           else [g_samples G;
                 prod (tl (unit_shape G (g_S G 0) 0)) + Z.of_nat (nb_layers self)]
  | Some _ =>
      match output_layer_num self with
      | Some l => unit_shape G (selected_channels self G l) l
      | None => []
      end
  end.

(** when the network extrapolates, the state ends with a frame prediction of
    the shape of a frame and the time step *)
Definition carried_fits (self : PredNet) (G : geometry) (states : list item) : Prop :=
  match extrap_start_time self with
  | Some _ =>
      exists t prev,
        index states (-1) = Ok (Int t) /\ index states (-2) = Ok (Tensor prev) /\
        tshape prev = unit_shape G (g_S G 0) 0
  | None => True
  end.

(** The geometry of a network on [samples] clips of images of [rows] x
    [cols] pixels: the channels of its lists, and at layer [l] the sides
    divided by [2 ** l]. *)
Definition geometry_of (self : PredNet) (samples rows cols : Z) : geometry :=
  {| g_fmt := data_format self;
     g_samples := samples;
     g_R := fun l => nth l (R_stack_sizes self) 0;
     g_S := fun l => nth l (stack_sizes self) 0;
     g_rows := fun l => rows / 2 ^ Z.of_nat l;
     g_cols := fun l => cols / 2 ^ Z.of_nat l |}.

(** an entry of a state that is zero: a tensor of zeros, or the time step 0 *)
Definition zero_item (v : item) : Prop :=
  match v with
  | Tensor x => Forall (eq zero) (tdata x)
  | Int t => t = 0
  end.

(** the tensor of shape [s] whose entries are all [v] *)
Definition constant (s : shape) (v : T) : tensor := tabulate s (fun _ => v).

(** a convolution whose kernel and bias hold zeros *)
Definition zero_conv (cv : Conv2D) : Prop :=
  Forall (eq zero) (kernel cv) /\ Forall (eq zero) (bias cv).

(** every entry of the tensor is zero *)
Definition all_zero (x : tensor) : Prop := Forall (eq zero) (tdata x).

End Network.


(* ================================================================== *)
(** ** A backend of exact rationals, to run the definitions *)

Module QcBackend.

Definition qmin (x y : Qc) : Qc := match (x ?= y)%Qc with Gt => y | _ => x end.
Definition qmax (x y : Qc) : Qc := match (x ?= y)%Qc with Lt => y | _ => x end.

(** [hard_sigmoid(x) = max(0, min(1, 0.2 x + 0.5))] *)
Definition hard_sigmoid (x : Qc) : Qc :=
  qmax 0%Qc (qmin 1%Qc (Q2Qc (1 # 5) * x + Q2Qc (1 # 2))%Qc).

(** [softsign(x) = x / (1 + |x|)] *)
Definition softsign (x : Qc) : Qc :=
  (x / (1 + qmax x (- x)))%Qc.

Definition mean (l : list Qc) : Qc :=
  (fold_right Qcplus 0 l / Q2Qc (Z.of_nat (List.length l) # 1))%Qc.

#[global] Instance backend : Backend Qc := {
  zero := 0%Qc;
  add := Qcplus;
  sub := Qcminus;
  mul := Qcmult;
  minimum := qmin;
  maximum := qmax;
  le := Qcle;
  mean_of := mean;
  elementwise := fun name =>
    if (name =? "hard_sigmoid")%string then Some hard_sigmoid
    else if (name =? "softsign")%string then Some softsign
    else None
}.

End QcBackend.

(* ================================================================== *)
(** ** Concrete configurations *)

Module Examples.

Import QcBackend.

Definition hard_sigmoid_act : Activation (T := Qc) :=
  {| act_name := "hard_sigmoid"; act_fn := hard_sigmoid |}.


(** The defaults of the constructor's keywords, on the four-layer sizes of
    the comments in the source; the cell activation is [softsign], which
    exact rationals can compute. *)
Definition kitti : Config (T := Qc) :=
  {| kw_stack_sizes := [3; 48; 96; 192];
     kw_R_stack_sizes := [3; 48; 96; 192];
     kw_A_filt_sizes := [3; 3; 3];
     kw_Ahat_filt_sizes := [3; 3; 3; 3];
     kw_R_filt_sizes := [3; 3; 3; 3];
     kw_pixel_max := 1%Qc;
     kw_error_activation := "relu";
     kw_A_activation := "relu";
     kw_LSTM_activation := "softsign";
     kw_LSTM_inner_activation := "hard_sigmoid";
     kw_output_mode := "error";
     kw_extrap_start_time := None;
     kw_data_format := "channels_first";
     kw_return_sequences := false |}.

(** the instance the constructor builds from these keywords *)
Definition kitti_net (kw : Config (T := Qc)) : PredNet (T := Qc) :=
  instance_of kw relu relu
    {| act_name := "softsign"; act_fn := softsign |}
    hard_sigmoid_act
    (None, None).

(** four layers, and a caller's [R_filt_sizes] of length two *)
Definition short_R_filt : Config (T := Qc) :=
  with_sizes kitti [3; 48; 96; 192] [3; 48; 96; 192] [3; 3; 3] [3; 3; 3; 3] [3; 3].

(** the two-layer scenario of the specification *)
Definition two_layers : Config (T := Qc) :=
  with_sizes kitti [1; 2] [1; 2] [3] [3; 3] [3; 3].

(** four layers of one channel each, in mode 'prediction', extrapolating
    from time step 1 *)
Definition small : Config (T := Qc) :=
  {| kw_stack_sizes := [1; 1; 1; 1];
     kw_R_stack_sizes := [1; 1; 1; 1];
     kw_A_filt_sizes := [3; 3; 3];
     kw_Ahat_filt_sizes := [3; 3; 3; 3];
     kw_R_filt_sizes := [3; 3; 3; 3];
     kw_pixel_max := 1%Qc;
     kw_error_activation := "relu";
     kw_A_activation := "relu";
     kw_LSTM_activation := "relu";
     kw_LSTM_inner_activation := "hard_sigmoid";
     kw_output_mode := "prediction";
     kw_extrap_start_time := Some 1;
     kw_data_format := "channels_first";
     kw_return_sequences := false |}.

Definition small_net : PredNet (T := Qc) :=
  instance_of small relu relu relu hard_sigmoid_act (None, None).

(** zero kernels and biases for the three gates, which are then 1/2
    everywhere; kernels of entries -1, 0, 1 and biases 1/4 for the other
    convolutions *)
Definition small_weights (c : string) (l : nat) : list Qc * list Qc :=
  if str_in c ["i"; "f"; "o"] then (repeat 0%Qc 36, [0%Qc])
  else (map (fun n => Q2Qc (Z.of_nat (n mod 3) - 1 # 1)) (seq 0 36), [Q2Qc (1 # 4)]).

Definition no_model : Model (T := Qc) :=
  {| net := small_net; input_spec := []; conv_layers := [] |}.

Definition small_model : Model (T := Qc) :=
  match build small_net [1; 2; 1; 8; 8] small_weights with
  | Ok m => m
  | Raise _ => no_model
  end.

(** a clip of two frames of 8 x 8 pixels, and its first frame *)
Definition small_clip : tensor (T := Qc) :=
  tabulate [1; 2; 1; 8; 8]
           (fun idx => Q2Qc ((flat_index [1; 2; 1; 8; 8] idx) mod 3 # 2)).

Definition small_frame : tensor (T := Qc) :=
  tabulate [1; 1; 8; 8] (fun idx => tget small_clip (0 :: 0 :: tl idx)).

Definition small_states : list (item (T := Qc)) :=
  match get_initial_state small_model small_clip with
  | Ok st => st
  | Raise _ => []
  end.

Definition small_step : res (tensor (T := Qc) * list (item (T := Qc))) :=
  Eval vm_compute in step small_model small_frame small_states.

Definition small_output : tensor (T := Qc) :=
  match small_step with Ok (o, _) => o | Raise _ => zeros [] end.

Definition small_next : list (item (T := Qc)) :=
  match small_step with Ok (_, st) => st | Raise _ => [] end.

(** all learnable parameters zero *)
Definition zero_weights (c : string) (l : nat) : list Qc * list Qc :=
  (repeat 0%Qc 54, repeat 0%Qc 3).

(** four layers whose representation at layer 0 has two channels for one
    channel of the image *)
Definition mixed : Config (T := Qc) :=
  with_sizes small [1; 1; 1; 1] [2; 1; 1; 1] [3; 3; 3] [3; 3; 3; 3] [3; 3; 3; 3].

Definition mixed_net : PredNet (T := Qc) :=
  instance_of mixed relu relu relu hard_sigmoid_act (None, None).

Definition mixed_model : Model (T := Qc) :=
  built_model mixed_net [1; 2; 1; 8; 8] zero_weights.

Definition mixed_states : list (item (T := Qc)) :=
  match get_initial_state mixed_model small_clip with
  | Ok st => st
  | Raise _ => []
  end.

(** an activation name the framework does not know *)
Definition unknown_activation : Config (T := Qc) :=
  {| kw_stack_sizes := [3; 48; 96; 192];
     kw_R_stack_sizes := [3; 48; 96; 192];
     kw_A_filt_sizes := [3; 3; 3];
     kw_Ahat_filt_sizes := [3; 3; 3; 3];
     kw_R_filt_sizes := [3; 3; 3; 3];
     kw_pixel_max := 1%Qc;
     kw_error_activation := "relu";
     kw_A_activation := "no_such_activation";
     kw_LSTM_activation := "softsign";
     kw_LSTM_inner_activation := "hard_sigmoid";
     kw_output_mode := "error";
     kw_extrap_start_time := None;
     kw_data_format := "channels_first";
     kw_return_sequences := false |}.

(** four layers of one channel each that do not extrapolate, in a given
    mode, with all parameters zero *)
Definition plain (mode : string) : Config (T := Qc) :=
  {| kw_stack_sizes := [1; 1; 1; 1];
     kw_R_stack_sizes := [1; 1; 1; 1];
     kw_A_filt_sizes := [3; 3; 3];
     kw_Ahat_filt_sizes := [3; 3; 3; 3];
     kw_R_filt_sizes := [3; 3; 3; 3];
     kw_pixel_max := 1%Qc;
     kw_error_activation := "relu";
     kw_A_activation := "relu";
     kw_LSTM_activation := "relu";
     kw_LSTM_inner_activation := "hard_sigmoid";
     kw_output_mode := mode;
     kw_extrap_start_time := None;
     kw_data_format := "channels_first";
     kw_return_sequences := false |}.

Definition plain_net (mode : string) (layer : option string * option nat)
    : PredNet (T := Qc) :=
  instance_of (plain mode) relu relu relu hard_sigmoid_act layer.

Definition plain_model (mode : string) (layer : option string * option nat)
    : Model (T := Qc) :=
  built_model (plain_net mode layer) [1; 2; 1; 8; 8] zero_weights.

Definition plain_states : list (item (T := Qc)) :=
  match get_initial_state (plain_model "A0" (Some "A", Some 0%nat)) small_clip with
  | Ok st => st
  | Raise _ => []
  end.

Definition plain_R1_step : res (tensor (T := Qc) * list (item (T := Qc))) :=
  Eval vm_compute in
    step (plain_model "R1" (Some "R", Some 1%nat)) small_frame plain_states.

Definition plain_R1_output : tensor (T := Qc) :=
  match plain_R1_step with Ok (o, _) => o | Raise _ => zeros [] end.

Definition plain_R1_next : list (item (T := Qc)) :=
  match plain_R1_step with Ok (_, st) => st | Raise _ => [] end.

Definition plain_A0_step : res (tensor (T := Qc) * list (item (T := Qc))) :=
  Eval vm_compute in
    step (plain_model "A0" (Some "A", Some 0%nat)) small_frame plain_states.

Definition plain_A0_output : tensor (T := Qc) :=
  match plain_A0_step with Ok (o, _) => o | Raise _ => zeros [] end.

Definition plain_A0_next : list (item (T := Qc)) :=
  match plain_A0_step with Ok (_, st) => st | Raise _ => [] end.

(** the second frame of the clip, and the step on it from the state the
    first step returned: the time step is then 1, the start of the
    extrapolation *)
Definition small_frame2 : tensor (T := Qc) :=
  tabulate [1; 1; 8; 8] (fun idx => tget small_clip (0 :: 1 :: tl idx)).

Definition small_step2 : res (tensor (T := Qc) * list (item (T := Qc))) :=
  Eval vm_compute in step small_model small_frame2 small_next.

Definition small_output2 : tensor (T := Qc) :=
  match small_step2 with Ok (o, _) => o | Raise _ => zeros [] end.

Definition small_next2 : list (item (T := Qc)) :=
  match small_step2 with Ok (_, st) => st | Raise _ => [] end.

(** the same network with [pixel_max] 1/8, below the biases 1/4 of its
    prediction convolutions *)
Definition tight : Config (T := Qc) :=
  {| kw_stack_sizes := [1; 1; 1; 1];
     kw_R_stack_sizes := [1; 1; 1; 1];
     kw_A_filt_sizes := [3; 3; 3];
     kw_Ahat_filt_sizes := [3; 3; 3; 3];
     kw_R_filt_sizes := [3; 3; 3; 3];
     kw_pixel_max := Q2Qc (1 # 8);
     kw_error_activation := "relu";
     kw_A_activation := "relu";
     kw_LSTM_activation := "relu";
     kw_LSTM_inner_activation := "hard_sigmoid";
     kw_output_mode := "prediction";
     kw_extrap_start_time := Some 1;
     kw_data_format := "channels_first";
     kw_return_sequences := false |}.

Definition tight_net : PredNet (T := Qc) :=
  instance_of tight relu relu relu hard_sigmoid_act (None, None).

Definition tight_model : Model (T := Qc) :=
  built_model tight_net [1; 2; 1; 8; 8] small_weights.

Definition tight_states : list (item (T := Qc)) :=
  match get_initial_state tight_model small_clip with
  | Ok st => st
  | Raise _ => []
  end.

Definition tight_step : res (tensor (T := Qc) * list (item (T := Qc))) :=
  Eval vm_compute in step tight_model small_frame tight_states.

Definition tight_output : tensor (T := Qc) :=
  match tight_step with Ok (o, _) => o | Raise _ => zeros [] end.

Definition tight_next : list (item (T := Qc)) :=
  match tight_step with Ok (_, st) => st | Raise _ => [] end.

(** the new representation of layer 0 in that step, and the prediction
    convolution of layer 0 *)
Definition tight_R0 : tensor (T := Qc) :=
  match tight_next with Tensor r :: _ => r | _ => zeros [] end.

Definition tight_ahat0 : Conv2D (T := Qc) :=
  match conv tight_model "ahat" 0 with Ok cv => cv | Raise _ => Conv2D_new 0 0 relu "" end.











(** a network whose frames have three channels (stack_sizes[0] = 3), in mode
    'prediction', built for and run on clips of one channel; all parameters
    zero *)
Definition wide : Config (T := Qc) :=
  {| kw_stack_sizes := [3; 1; 1; 1];
     kw_R_stack_sizes := [3; 1; 1; 1];
     kw_A_filt_sizes := [3; 3; 3];
     kw_Ahat_filt_sizes := [3; 3; 3; 3];
     kw_R_filt_sizes := [3; 3; 3; 3];
     kw_pixel_max := 1%Qc;
     kw_error_activation := "relu";
     kw_A_activation := "relu";
     kw_LSTM_activation := "relu";
     kw_LSTM_inner_activation := "hard_sigmoid";
     kw_output_mode := "prediction";
     kw_extrap_start_time := None;
     kw_data_format := "channels_first";
     kw_return_sequences := false |}.

Definition wide_net : PredNet (T := Qc) :=
  instance_of wide relu relu relu hard_sigmoid_act (None, None).

Definition wide_weights (c : string) (l : nat) : list Qc * list Qc :=
  (repeat 0%Qc 270, repeat 0%Qc 3).

Definition wide_model : Model (T := Qc) :=
  built_model wide_net [1; 2; 1; 8; 8] wide_weights.

Definition wide_states : list (item (T := Qc)) :=
  match get_initial_state wide_model small_clip with
  | Ok st => st
  | Raise _ => []
  end.

Definition wide_step : res (tensor (T := Qc) * list (item (T := Qc))) :=
  Eval vm_compute in step wide_model small_frame wide_states.

Definition wide_output : tensor (T := Qc) :=
  match wide_step with Ok (o, _) => o | Raise _ => zeros [] end.

Definition wide_next : list (item (T := Qc)) :=
  match wide_step with Ok (_, st) => st | Raise _ => [] end.

End Examples.

(* ================================================================== *)
(** * Properties *)

Unset Implicit Arguments.

(** ** Reasoning about results *)

Lemma bind_Ok {A B : Type} (m : res A) (k : A -> res B) (b : B) :
  Py.bind m k = Ok b -> exists a, m = Ok a /\ k a = Ok b.
Proof. destruct m as [a|e]; simpl; intros E; [eauto | discriminate]. Qed.

Lemma assert_Ok (c : bool) (msg : string) (u : unit) : assert c msg = Ok u -> c = true.
Proof. destruct c; simpl; [reflexivity | discriminate]. Qed.

Lemma assert_true (c : bool) (msg : string) : c = true -> assert c msg = Ok tt.
Proof. intros ->; reflexivity. Qed.

Lemma assert_false (c : bool) (msg : string) :
  c = false -> assert c msg = Raise (AssertionError msg).
Proof. intros ->; reflexivity. Qed.

(** [inv_bind E as x Ex]: from [E : (x <- m ;; k) = Ok b], the value [x] of
    [m], [Ex : m = Ok x] and [E : k x = Ok b]. *)
Tactic Notation "inv_bind" hyp(E) "as" ident(x) ident(Ex) :=
  apply bind_Ok in E; destruct E as (x & Ex & E).

Tactic Notation "inv_assert" hyp(E) "as" ident(Ex) :=
  let u := fresh "u" in
  apply bind_Ok in E; destruct E as (u & Ex & E); apply assert_Ok in Ex.

Section Construction.
Context {T : Type} `{Backend T}.

Lemma activations_get_name (identifier : string) (act : Activation) :
  activations_get identifier = Ok act -> activations_get (act_name act) = Ok act.
Proof.
  unfold activations_get.
  destruct (identifier =? "linear")%string eqn:E1.
  - intros E; inversion E; subst; reflexivity.
  - destruct (identifier =? "relu")%string eqn:E2.
    + intros E; inversion E; subst; reflexivity.
    + destruct (elementwise identifier) as [f|] eqn:E3; [|discriminate].
      intros E; inversion E; subst; simpl. rewrite E1, E2, E3. reflexivity.
Qed.

(** What a successful construction has checked, and the instance it built. *)
Lemma init_inv (kw : Config) (self : PredNet) :
  __init__ kw = Ok self ->
  exists ea aa la ia layer,
    List.length (kw_stack_sizes kw) = 4%nat /\
    List.length (kw_R_stack_sizes kw) = 4%nat /\
    List.length (kw_A_filt_sizes kw) = 3%nat /\
    List.length (kw_Ahat_filt_sizes kw) = 4%nat /\
    activations_get (kw_error_activation kw) = Ok ea /\
    activations_get (kw_A_activation kw) = Ok aa /\
    activations_get (kw_LSTM_activation kw) = Ok la /\
    activations_get (kw_LSTM_inner_activation kw) = Ok ia /\
    str_in (kw_output_mode kw) (default_output_modes ++ layer_output_modes 4) = true /\
    output_layer 4 (kw_output_mode kw) = Ok layer /\
    str_in (kw_data_format kw) ["channels_last"; "channels_first"] = true /\
    self = instance_of kw ea aa la ia layer.
Proof.
  unfold __init__. intros E.
  inv_assert E as HR. inv_assert E as HA. inv_assert E as HAhat. inv_assert E as HRf.
  inv_bind E as ea Eea. inv_bind E as aa Eaa. inv_bind E as la Ela. inv_bind E as ia Eia.
  inv_assert E as Hmode. inv_bind E as layer Elayer. inv_assert E as Hfmt.
  apply Nat.eqb_eq in HRf. simpl in HRf.
  rewrite <- HRf in *.
  apply Nat.eqb_eq in HR, HAhat. apply Z.eqb_eq in HA.
  exists ea, aa, la, ia, layer.
  inversion E; subst self; clear E. unfold instance_of. rewrite <- HRf.
  repeat split; try assumption; try reflexivity; lia.
Qed.

Lemma init_complete (kw : Config) (ea aa la ia : Activation)
    (layer : option string * option nat) :
  List.length (kw_stack_sizes kw) = 4%nat ->
  List.length (kw_R_stack_sizes kw) = 4%nat ->
  List.length (kw_A_filt_sizes kw) = 3%nat ->
  List.length (kw_Ahat_filt_sizes kw) = 4%nat ->
  activations_get (kw_error_activation kw) = Ok ea ->
  activations_get (kw_A_activation kw) = Ok aa ->
  activations_get (kw_LSTM_activation kw) = Ok la ->
  activations_get (kw_LSTM_inner_activation kw) = Ok ia ->
  str_in (kw_output_mode kw) (default_output_modes ++ layer_output_modes 4) = true ->
  output_layer 4 (kw_output_mode kw) = Ok layer ->
  str_in (kw_data_format kw) ["channels_last"; "channels_first"] = true ->
  __init__ kw = Ok (instance_of kw ea aa la ia layer).
Proof.
  intros H1 H2 H3 H4 H5 H6 H7 H8 H9 H10 H11.
  unfold __init__, instance_of. cbv zeta.
  rewrite H1, H2, H3, H4, H5, H6, H7, H8, H9, H10, H11. reflexivity.
Qed.

(** The three length checks on the caller's lists. *)
Lemma init_rejects_R_stack_sizes (kw : Config) :
  List.length (kw_R_stack_sizes kw) <> List.length (kw_stack_sizes kw) ->
  __init__ kw = Raise (AssertionError "len(R_stack_sizes) must equal len(stack_sizes)").
Proof.
  intros Hne. unfold __init__. cbv zeta.
  rewrite assert_false by (apply Nat.eqb_neq; exact Hne). reflexivity.
Qed.

Lemma init_rejects_A_filt_sizes (kw : Config) :
  List.length (kw_R_stack_sizes kw) = List.length (kw_stack_sizes kw) ->
  Z.of_nat (List.length (kw_A_filt_sizes kw))
    <> Z.of_nat (List.length (kw_stack_sizes kw)) - 1 ->
  __init__ kw = Raise (AssertionError "len(A_filt_sizes) must equal len(stack_sizes) - 1").
Proof.
  intros He Hne. unfold __init__. cbv zeta.
  rewrite assert_true by (apply Nat.eqb_eq; exact He).
  rewrite assert_false by (apply Z.eqb_neq; exact Hne). reflexivity.
Qed.

Lemma init_rejects_Ahat_filt_sizes (kw : Config) :
  List.length (kw_R_stack_sizes kw) = List.length (kw_stack_sizes kw) ->
  Z.of_nat (List.length (kw_A_filt_sizes kw))
    = Z.of_nat (List.length (kw_stack_sizes kw)) - 1 ->
  List.length (kw_Ahat_filt_sizes kw) <> List.length (kw_stack_sizes kw) ->
  __init__ kw = Raise (AssertionError "len(Ahat_filt_sizes) must equal len(stack_sizes)").
Proof.
  intros He1 He2 Hne. unfold __init__. cbv zeta.
  rewrite assert_true by (apply Nat.eqb_eq; exact He1).
  rewrite assert_true by (apply Z.eqb_eq; exact He2).
  rewrite assert_false by (apply Nat.eqb_neq; exact Hne). reflexivity.
Qed.

(** The fourth check compares the depth with the length of the constant
    (3, 3, 3, 3): lists that agree with each other are rejected at any depth
    but four, whatever the caller's [R_filt_sizes]. *)
Lemma init_rejects_depth (kw : Config) :
  List.length (kw_R_stack_sizes kw) = List.length (kw_stack_sizes kw) ->
  Z.of_nat (List.length (kw_A_filt_sizes kw))
    = Z.of_nat (List.length (kw_stack_sizes kw)) - 1 ->
  List.length (kw_Ahat_filt_sizes kw) = List.length (kw_stack_sizes kw) ->
  List.length (kw_stack_sizes kw) <> 4%nat ->
  __init__ kw = Raise (AssertionError "len(R_filt_sizes) must equal len(stack_sizes)").
Proof.
  intros He1 He2 He3 Hne. unfold __init__. cbv zeta.
  rewrite assert_true by (apply Nat.eqb_eq; exact He1).
  rewrite assert_true by (apply Z.eqb_eq; exact He2).
  rewrite assert_true by (apply Nat.eqb_eq; exact He3).
  rewrite assert_false; [reflexivity|].
  apply Nat.eqb_neq. simpl. congruence.
Qed.

(** ** C9 *)

(** C9. For every instance a construction returns, constructing again from
    the mapping [get_config] serializes succeeds, and the instance it yields
    (the same attributes) has the same [compute_output_shape] on every input
    shape. *)
Theorem config_round_trip (kw : Config) (self : PredNet) :
  __init__ kw = Ok self ->
  exists self',
    from_config (get_config self) = Ok self' /\
    forall input_shape : shape,
      compute_output_shape self' input_shape = compute_output_shape self input_shape.
Proof.
  intros E.
  destruct (init_inv _ _ E)
    as (ea & aa & la & ia & layer & H1 & H2 & H3 & H4 & H5 & H6 & H7 & H8 & H9 & H10 & H11 & ->).
  exists (instance_of kw ea aa la ia layer). split; [|reflexivity].
  unfold from_config.
  rewrite (@init_complete (get_config (instance_of kw ea aa la ia layer)) ea aa la ia layer);
    simpl; try assumption; try reflexivity; try (eapply activations_get_name; eassumption).
Qed.

End Construction.

(** ** Shapes of the backend's operations *)

Section Shapes.
Context {T : Type} `{Backend T}.

Lemma layout_of_check (fmt : string) :
  str_in fmt ["channels_last"; "channels_first"] = true -> layout fmt.
Proof.
  unfold str_in, layout; simpl. rewrite !orb_true_iff, !String.eqb_eq.
  intros [E | [E | E]]; auto; discriminate.
Qed.

Lemma dims4_pos4 (fmt : string) (N C Hh W : Z) :
  dims4 fmt (pos4 fmt N C Hh W) = Ok (N, C, Hh, W).
Proof. unfold dims4, pos4. destruct (fmt =? "channels_first")%string; reflexivity. Qed.

Lemma dims4'_pos4 (fmt : string) (N C Hh W : Z) :
  dims4' fmt (pos4 fmt N C Hh W) = (N, C, Hh, W).
Proof. unfold dims4'. rewrite dims4_pos4. reflexivity. Qed.

Lemma shape_eqb_refl (s : shape) : shape_eqb s s = true.
Proof. unfold shape_eqb. destruct (list_eq_dec Z.eq_dec s s); congruence. Qed.

Lemma shape_eqb_eq (s1 s2 : shape) : shape_eqb s1 s2 = true -> s1 = s2.
Proof. unfold shape_eqb. destruct (list_eq_dec Z.eq_dec s1 s2); congruence. Qed.

Lemma broadcast_shape_refl (s : shape) : broadcast_shape s s = Some s.
Proof.
  induction s as [|d s IH]; simpl; [reflexivity|].
  rewrite IH, Z.eqb_refl. reflexivity.
Qed.

Lemma elementwise2_same (f : T -> T -> T) (x y : tensor) :
  tshape x = tshape y ->
  elementwise2 f x y = Ok (ew2 f x y) /\ tshape (ew2 f x y) = tshape x.
Proof.
  intros E. unfold elementwise2, ew2. rewrite <- E, broadcast_shape_refl, shape_eqb_refl.
  split; reflexivity.
Qed.

Lemma Conv2D_call_shape (layer : Conv2D) (x : tensor) (fmt : string) (cin N C Hh W : Z) :
  input_dim layer = Some cin ->
  conv_data_format layer = fmt ->
  tshape x = pos4 fmt N C Hh W ->
  C = cin ->
  Conv2D_call layer x = Ok (convolve layer x) /\
  tshape (convolve layer x) = pos4 fmt N (filters layer) Hh W.
Proof.
  intros Hin Hfmt Hx ->. unfold Conv2D_call, convolve.
  rewrite Hin, Hfmt, Hx, dims4_pos4, dims4'_pos4. simpl. rewrite Z.eqb_refl.
  split; reflexivity.
Qed.

Lemma UpSampling2D_call_shape (fmt : string) (x : tensor) (N C Hh W : Z) :
  tshape x = pos4 fmt N C Hh W ->
  UpSampling2D_call fmt x = Ok (upsample fmt x) /\
  tshape (upsample fmt x) = pos4 fmt N C (2 * Hh) (2 * W).
Proof.
  intros Hx. unfold UpSampling2D_call, upsample.
  rewrite Hx, dims4_pos4, dims4'_pos4. split; reflexivity.
Qed.

Lemma MaxPooling2D_call_shape (fmt : string) (x : tensor) (N C Hh W : Z) :
  tshape x = pos4 fmt N C Hh W ->
  MaxPooling2D_call fmt x = Ok (maxpool fmt x) /\
  tshape (maxpool fmt x) = pos4 fmt N C (Hh / 2) (W / 2).
Proof.
  intros Hx. unfold MaxPooling2D_call, maxpool.
  rewrite Hx, dims4_pos4, dims4'_pos4. split; reflexivity.
Qed.

Lemma K_concatenate_ok (x : @tensor T) (xs : list (@tensor T)) (k : nat) (axis : Z) :
  norm_axis (List.length (tshape x)) axis = Z.of_nat k ->
  (k < List.length (tshape x))%nat ->
  forallb (fun y => shape_eqb (set_axis (tshape y) k 0) (set_axis (tshape x) k 0))
          (x :: xs) = true ->
  K_concatenate (x :: xs) axis = Ok (concatenate (x :: xs) axis).
Proof.
  intros Hax Hk Hall. unfold K_concatenate. cbv zeta.
  rewrite Hax, Nat2Z.id, Hall.
  replace ((0 <=? Z.of_nat k) && (Z.of_nat k <? Z.of_nat (List.length (tshape x))))
    with true; [reflexivity|].
  symmetry. apply andb_true_iff. split; [apply Z.leb_le | apply Z.ltb_lt]; lia.
Qed.

Lemma K_concatenate_channels (fmt : string) (xs : list (@tensor T)) (cs : list Z)
    (N Hh W : Z) :
  layout fmt ->
  xs <> [] ->
  Forall2 (fun x c => tshape x = pos4 fmt N c Hh W) xs cs ->
  K_concatenate xs (channel_axis_of fmt) = Ok (concatenate xs (channel_axis_of fmt)) /\
  tshape (concatenate xs (channel_axis_of fmt)) = pos4 fmt N (fold_right Z.add 0 cs) Hh W.
Proof.
  intros Hfmt Hne HF.
  assert (Hall : forallb (fun y => shape_eqb (set_axis (tshape y) (channel_pos fmt) 0)
                                             (pos4 fmt N 0 Hh W)) xs = true).
  { clear Hne. induction HF as [|x c xs cs Hx HF IH]; simpl; [reflexivity|].
    rewrite IH, andb_true_r, Hx.
    destruct Hfmt as [-> | ->]; apply shape_eqb_refl. }
  assert (Hsum : fold_right Z.add 0 (map (fun y => nth (channel_pos fmt) (tshape y) 0) xs)
                 = fold_right Z.add 0 cs).
  { clear Hne Hall. induction HF as [|x c xs cs Hx HF IH]; simpl; [reflexivity|].
    rewrite IH, Hx. destruct Hfmt as [-> | ->]; reflexivity. }
  destruct HF as [|x c xs cs Hx HF]; [congruence|].
  assert (Hset : set_axis (tshape x) (channel_pos fmt) 0 = pos4 fmt N 0 Hh W).
  { rewrite Hx. destruct Hfmt as [-> | ->]; reflexivity. }
  split.
  - apply K_concatenate_ok with (k := channel_pos fmt).
    + rewrite Hx. destruct Hfmt as [-> | ->]; reflexivity.
    + rewrite Hx. destruct Hfmt as [-> | ->]; cbv; lia.
    + rewrite Hset. exact Hall.
  - unfold concatenate. cbv zeta. rewrite Hx.
    replace (Z.to_nat (norm_axis (List.length (pos4 fmt N c Hh W)) (channel_axis_of fmt)))
      with (channel_pos fmt) by (destruct Hfmt as [-> | ->]; reflexivity).
    rewrite Hsum. destruct Hfmt as [-> | ->]; reflexivity.
Qed.

End Shapes.


(** ** What a step that returns has computed *)

Section Inversion.
Context {T : Type} `{Backend T}.

Local Abbreviation tensor := (@tensor T).
Local Abbreviation item := (@item T).
Local Abbreviation Model := (@Model T).
Local Abbreviation Conv2D := (@Conv2D T).

Lemma unbound_Ok {A : Type} (name : string) (v : option A) (x : A) :
  unbound name v = Ok x -> v = Some x.
Proof. destruct v; simpl; congruence. Qed.

Lemma getitem_Ok {A : Type} (l : list A) (i : nat) (x : A) :
  getitem l i = Ok x <-> nth_error l i = Some x.
Proof. unfold getitem. destruct (nth_error l i); split; congruence. Qed.

Lemma getitem_slice {A : Type} (l : list A) (a b i : nat) (x : A) :
  getitem (slice l a b) i = Ok x -> nth_error l (a + i) = Some x.
Proof.
  rewrite getitem_Ok. unfold slice. intros E.
  destruct (Nat.lt_ge_cases i (b - a)) as [Hlt | Hge].
  - rewrite nth_error_firstn in E.
    destruct (i <? b - a)%nat eqn:Eb; [|discriminate].
    rewrite nth_error_skipn in E. exact E.
  - assert (Hn : nth_error (firstn (b - a) (skipn a l)) i = None).
    { apply nth_error_None. rewrite length_firstn. lia. }
    congruence.
Qed.

Lemma as_tensor_Ok (v : item) (x : tensor) : as_tensor v = Ok x -> v = Tensor x.
Proof. destruct v; simpl; congruence. Qed.

Lemma as_int_Ok (v : item) (t : Z) : as_int v = Ok t -> v = Int t.
Proof. destruct v; simpl; congruence. Qed.

Lemma Conv2D_call_Ok (layer : Conv2D) (x y : tensor) :
  Conv2D_call layer x = Ok y -> y = convolve layer x.
Proof.
  unfold Conv2D_call. destruct (input_dim layer) as [cin|]; [|discriminate].
  destruct (dims4 (conv_data_format layer) (tshape x)) as [[[[N C] Hh] W]|]; simpl;
    [|discriminate].
  destruct (C =? cin); congruence.
Qed.

Lemma elementwise2_Ok (f : T -> T -> T) (x y z : tensor) :
  elementwise2 f x y = Ok z -> z = ew2 f x y.
Proof.
  unfold elementwise2. destruct (broadcast_shape (tshape x) (tshape y)); congruence.
Qed.

Lemma K_concatenate_Ok (xs : list tensor) (axis : Z) (y : tensor) :
  K_concatenate xs axis = Ok y -> y = concatenate xs axis.
Proof.
  unfold K_concatenate. destruct xs as [|x xs]; [discriminate|]. cbv zeta.
  destruct (_ && _); [|discriminate].
  destruct (forallb _ _); congruence.
Qed.

Lemma UpSampling2D_call_Ok (fmt : string) (x y : tensor) :
  UpSampling2D_call fmt x = Ok y -> y = upsample fmt x.
Proof.
  unfold UpSampling2D_call. destruct (dims4 fmt (tshape x)); simpl; congruence.
Qed.

Lemma MaxPooling2D_call_Ok (fmt : string) (x y : tensor) :
  MaxPooling2D_call fmt x = Ok y -> y = maxpool fmt x.
Proof.
  unfold MaxPooling2D_call. destruct (dims4 fmt (tshape x)); simpl; congruence.
Qed.

Lemma below_top (l L : nat) :
  (Z.of_nat l <? Z.of_nat L - 1) = (S l <? L)%nat.
Proof.
  destruct (S l <? L)%nat eqn:E.
  - apply Nat.ltb_lt in E. apply Z.ltb_lt. lia.
  - apply Nat.ltb_ge in E. apply Z.ltb_ge. lia.
Qed.

(** One turn of the top-down loop. *)
Lemma update_R_Ok (m : Model) (states : list item) (l : nat)
    (c r : list tensor) (r_up : option tensor)
    (vars' : list tensor * list tensor * option tensor) (R_above : option tensor) :
  let L := nb_layers (net m) in
  update_R m (slice states 0 L) (slice states L (2 * L)) (slice states (2 * L) (3 * L))
           l (c, r, r_up) = Ok vars' ->
  ((S l <? L)%nat = true ->
   exists above, R_above = Some above
                 /\ r_up = Some (upsample (data_format (net m)) above)) ->
  exists R_l C_l,
    representation_update m states l R_above R_l C_l /\
    vars' = (C_l :: c, R_l :: r,
             if (0 <? l)%nat then Some (upsample (data_format (net m)) R_l) else r_up).
Proof.
  intros L E Hup. unfold update_R in E. cbv zeta in E.
  inv_bind E as r_prev Er. inv_bind Er as v Ev. apply as_tensor_Ok in Er; subst v.
  inv_bind E as e_prev Ee. inv_bind Ee as v Ev'. apply as_tensor_Ok in Ee; subst v.
  inv_bind E as inputs0 Ein.
  inv_bind E as inputs Ecat. apply K_concatenate_Ok in Ecat.
  inv_bind E as i Ei. inv_bind Ei as cvi Ecvi. apply Conv2D_call_Ok in Ei.
  inv_bind E as f Ef. inv_bind Ef as cvf Ecvf. apply Conv2D_call_Ok in Ef.
  inv_bind E as o Eo. inv_bind Eo as cvo Ecvo. apply Conv2D_call_Ok in Eo.
  inv_bind E as c_prev Ec. inv_bind Ec as v Ev''. apply as_tensor_Ok in Ec; subst v.
  inv_bind E as fc Efc. apply elementwise2_Ok in Efc.
  inv_bind E as cand Ecand. inv_bind Ecand as cvc Ecvc. apply Conv2D_call_Ok in Ecand.
  inv_bind E as ic Eic. apply elementwise2_Ok in Eic.
  inv_bind E as _c E_c. apply elementwise2_Ok in E_c.
  inv_bind E as _r E_r. apply elementwise2_Ok in E_r.
  inv_bind E as up' Eup'.
  inversion E; subst vars'; clear E.
  apply getitem_slice in Ev, Ev', Ev''. simpl in Ev.
  fold L in Ev', Ev'', Ein.
  exists _r, _c. split.
  - unfold representation_update. cbv zeta. fold L.
    rewrite below_top in Ein.
    exists r_prev, c_prev, e_prev, cvi, cvf, cvo, cvc.
    exists (match inputs0 with [_; _; u] => [u] | _ => [] end).
    repeat split; try assumption.
    + destruct (S l <? L)%nat eqn:Etop.
      * destruct (Hup eq_refl) as (above & -> & ->). simpl in Ein.
        inversion Ein; subst inputs0. exists above. split; reflexivity.
      * inversion Ein; subst inputs0. reflexivity.
    + subst. destruct (S l <? L)%nat eqn:Etop.
      * destruct (Hup eq_refl) as (above & -> & ->). simpl in Ein.
        inversion Ein; subst inputs0. reflexivity.
      * inversion Ein; subst inputs0. reflexivity.
    + subst. destruct (S l <? L)%nat eqn:Etop.
      * destruct (Hup eq_refl) as (above & -> & ->). simpl in Ein.
        inversion Ein; subst inputs0. reflexivity.
      * inversion Ein; subst inputs0. reflexivity.
  - destruct (0 <? l)%nat.
    + inv_bind Eup' as u Eu. apply UpSampling2D_call_Ok in Eu.
      inversion Eup'; subst. reflexivity.
    + inversion Eup'; subst. reflexivity.
Qed.


Lemma foldM_app {A S : Type} (body : A -> S -> res S) (l1 l2 : list A) (acc : S) :
  foldM body (l1 ++ l2) acc = (acc' <- foldM body l1 acc ;; foldM body l2 acc').
Proof.
  revert acc. induction l1 as [|x l1 IH]; intros acc; simpl; [reflexivity|].
  destruct (body x acc); simpl; [apply IH | reflexivity].
Qed.

Lemma rev_range_S (n : nat) : rev (range (S n)) = n :: rev (range n).
Proof. unfold range. rewrite seq_S, rev_app_distr. reflexivity. Qed.

Lemma top_down_loop (m : Model) (states : list item) (n : nat) :
  let L := nb_layers (net m) in
  forall vars vars',
    (n <= L)%nat ->
    top_down_from m states n vars ->
    foldM (update_R m (slice states 0 L) (slice states L (2 * L))
                    (slice states (2 * L) (3 * L)))
          (rev (range n)) vars = Ok vars' ->
    top_down_from m states 0 vars'.
Proof.
  intros L. induction n as [|n IH]; intros vars vars' Hn Hinv E.
  - simpl in E. inversion E; subst. exact Hinv.
  - rewrite rev_range_S in E. simpl in E.
    destruct (update_R _ _ _ _ n vars) as [vars1|] eqn:E1; [|discriminate].
    apply (IH vars1 vars'); [lia | | exact E].
    destruct vars as [[c r] r_up]. destruct Hinv as (Hr & Hc & Hl & Hup).
    fold L in Hr, Hc, Hl, Hup.
    apply update_R_Ok with (R_above := nth_error r 0) in E1.
    + destruct E1 as (R_n & C_n & Hspec & ->).
      unfold top_down_from. fold L. cbn [List.length]. repeat split; try lia.
      * intros l Hl'. destruct (Nat.eq_dec l n) as [-> | Hne].
        -- exists R_n, C_n. rewrite Nat.sub_diag.
           replace (S n - n)%nat with 1%nat by lia. cbn [nth_error].
           repeat split. exact Hspec.
        -- destruct (Hl l ltac:(lia)) as (R_l & C_l & HR & HC & Hs).
           exists R_l, C_l.
           replace (l - n)%nat with (S (l - S n)) by lia.
           replace (S l - n)%nat with (S (S l - S n)) by lia. cbn [nth_error].
           repeat split; assumption.
      * intros Hn'. exists R_n. split; [reflexivity|].
        destruct (0 <? n)%nat eqn:E0; [reflexivity|].
        apply Nat.ltb_ge in E0. lia.
    + fold L. intros Htop. apply Nat.ltb_lt in Htop. apply Hup. lia.
Qed.

Lemma top_down_Ok (m : Model) (states : list item)
    (c r : list tensor) (r_up : option tensor) :
  let L := nb_layers (net m) in
  foldM (update_R m (slice states 0 L) (slice states L (2 * L))
                  (slice states (2 * L) (3 * L)))
        (rev (range L)) ([], [], None) = Ok (c, r, r_up) ->
  top_down m states r c.
Proof.
  intros L E. apply top_down_loop in E; [| lia |].
  - destruct E as (Hr & Hc & Hl & _). fold L in Hr, Hc, Hl.
    unfold top_down. fold L. rewrite Nat.sub_0_r in Hr, Hc. repeat split; try assumption.
    intros l Hlt. destruct (Hl l ltac:(lia)) as (R_l & C_l & HR & HC & Hs).
    rewrite Nat.sub_0_r in HR, HC, Hs. exists R_l, C_l. repeat split; assumption.
  - unfold top_down_from. fold L. rewrite Nat.sub_diag. repeat split; try reflexivity.
    + intros l Hl'. lia.
    + intros Hl'. lia.
Qed.


Lemma type_is_Some (self : @PredNet T) (ty : string) :
  type_is self ty = true -> output_layer_type self = Some ty.
Proof.
  unfold type_is. destruct (output_layer_type self) as [t|]; [|discriminate].
  intros E. apply String.eqb_eq in E. congruence.
Qed.

Lemma layer_is_Some (self : @PredNet T) (l : nat) :
  layer_is self l = true -> output_layer_num self = Some l.
Proof.
  unfold layer_is. destruct (output_layer_num self) as [n|]; [|discriminate].
  intros E. apply Nat.eqb_eq in E. congruence.
Qed.

(** One turn of the bottom-up loop. *)
Lemma update_E_Ok (m : Model) (r : list tensor) (l : nat) (ff ff' : feedforward) :
  let self := net m in
  let L := nb_layers self in
  List.length (ff_e ff) = l ->
  update_E m r l ff = Ok ff' ->
  exists R_l Ahat_l E_l,
    nth_error r l = Some R_l /\
    error_update m l R_l (ff_a ff) Ahat_l E_l /\
    ff_e ff' = (ff_e ff ++ [E_l])%list /\
    ff_frame_prediction ff'
      = (if Nat.eqb l 0 then Some Ahat_l else ff_frame_prediction ff) /\
    (ff_output ff' = ff_output ff
     \/ output_of_layer self l R_l (ff_a ff) Ahat_l E_l (ff_output ff')) /\
    (if (S l <? L)%nat then next_target m l E_l (ff_a ff') else ff_a ff' = ff_a ff).
Proof.
  intros self L Hlen E. unfold update_E in E. cbv zeta in E. fold self in E.
  inv_bind E as R_l ER. apply getitem_Ok in ER.
  inv_bind E as ahat Eahat. inv_bind Eahat as cv Ecv. apply Conv2D_call_Ok in Eahat.
  inv_bind E as e_up Eup. inv_bind Eup as d1 Ed1. apply elementwise2_Ok in Ed1.
  inversion Eup; subst e_up; clear Eup.
  inv_bind E as e_down Edown. inv_bind Edown as d2 Ed2. apply elementwise2_Ok in Ed2.
  inversion Edown; subst e_down; clear Edown.
  inv_bind E as E_l Ecat. apply K_concatenate_Ok in Ecat.
  inv_bind E as output Eout.
  inv_bind E as a' Ea.
  inversion E; subst ff'; clear E. cbn [ff_e ff_a ff_frame_prediction ff_output].
  assert (HEl : forall x, getitem (ff_e ff ++ [E_l]) l = Ok x -> x = E_l).
  { intros x Hx. apply getitem_Ok in Hx.
    rewrite nth_error_app2 in Hx by lia. rewrite Hlen, Nat.sub_diag in Hx.
    simpl in Hx. congruence. }
  set (Ahat_l := if Nat.eqb l 0 then K_minimum ahat (pixel_max self) else ahat) in *.
  exists R_l, Ahat_l, E_l.
  split; [exact ER|].
  split; [exists cv; subst ahat d1 d2; repeat split; assumption|].
  split; [reflexivity|].
  split; [destruct (Nat.eqb l 0); reflexivity|].
  split.
  - destruct (layer_is self l) eqn:Elayer; [|left; congruence].
    apply layer_is_Some in Elayer.
    destruct (type_is self "A") eqn:EA.
    { right. exists "A". apply type_is_Some in EA. inversion Eout. tauto. }
    destruct (type_is self "Ahat") eqn:EAhat.
    { right. exists "Ahat". apply type_is_Some in EAhat. inversion Eout. tauto. }
    destruct (type_is self "R") eqn:ER'.
    { right. exists "R". apply type_is_Some in ER'.
      inv_bind Eout as x Ex. apply getitem_Ok in Ex. inversion Eout.
      assert (x = R_l) by congruence. subst. tauto. }
    destruct (type_is self "E") eqn:EE.
    { right. exists "E". apply type_is_Some in EE.
      inv_bind Eout as x Ex. apply HEl in Ex. inversion Eout. subst. tauto. }
    left. congruence.
  - rewrite below_top in Ea. fold L in Ea. destruct (S l <? L)%nat.
    + inv_bind Ea as e_top Etop. apply HEl in Etop. subst e_top.
      inv_bind Ea as x Ex. inv_bind Ex as cva Ecva. apply Conv2D_call_Ok in Ex.
      apply MaxPooling2D_call_Ok in Ea. exists cva. subst. split; [assumption|reflexivity].
    + congruence.
Qed.


Lemma nth_error_app_Some {A : Type} (l1 l2 : list A) (n : nat) (x : A) :
  nth_error l1 n = Some x -> nth_error (l1 ++ l2) n = Some x.
Proof.
  intros E. rewrite nth_error_app1; [exact E|].
  apply nth_error_Some. congruence.
Qed.

Lemma nth_error_snoc {A : Type} (l : list A) (x : A) :
  nth_error (l ++ [x]) (List.length l) = Some x.
Proof. rewrite nth_error_app2 by lia. rewrite Nat.sub_diag. reflexivity. Qed.

Lemma bottom_up_turn (m : Model) (a : tensor) (r : list tensor) (k : nat)
    (A Ahat : list tensor) (ff ff' : feedforward) :
  bottom_up_upto m a r k A Ahat ff ->
  update_E m r k ff = Ok ff' ->
  exists Ahat_k, bottom_up_upto m a r (S k) (A ++ [ff_a ff]) (Ahat ++ [Ahat_k]) ff'.
Proof.
  intros (HA & HAhat & He & H0 & Hl & Hfp & Hout) E.
  apply update_E_Ok in E; [|exact He].
  destruct E as (R_k & Ahat_k & E_k & HR & Herr & He' & Hfp' & Hout' & Ha').
  exists Ahat_k. unfold bottom_up_upto. cbv zeta.
  split; [rewrite length_app; simpl; lia|].
  split; [rewrite length_app; simpl; lia|].
  split; [rewrite He', length_app; simpl; lia|].
  split; [apply nth_error_app_Some; exact H0|].
  split; [|split].
  - intros l Hlt. destruct (Nat.eq_dec l k) as [-> | Hne].
    + exists R_k, (ff_a ff), Ahat_k, E_k.
      split; [exact HR|].
      split; [rewrite <- HA; apply nth_error_snoc|].
      split; [rewrite <- HAhat; apply nth_error_snoc|].
      split; [rewrite He', <- He; apply nth_error_snoc|].
      split; [exact Herr|].
      intros Htop A_next HAn.
      replace (S k) with (List.length (A ++ [ff_a ff])) in HAn
        by (rewrite length_app; simpl; lia).
      rewrite nth_error_snoc in HAn. inversion HAn; subst A_next.
      apply Nat.ltb_lt in Htop. rewrite Htop in Ha'. exact Ha'.
    + destruct (Hl l ltac:(lia)) as (R_l & A_l & Ahat_l & E_l & H1 & H2 & H3 & H4 & H5 & H6).
      exists R_l, A_l, Ahat_l, E_l.
      split; [exact H1|].
      split; [apply nth_error_app_Some; exact H2|].
      split; [apply nth_error_app_Some; exact H3|].
      split; [rewrite He'; apply nth_error_app_Some; exact H4|].
      split; [exact H5|].
      intros Htop A_next HAn. apply H6; [exact Htop|].
      rewrite nth_error_app1 in HAn; [exact HAn|].
      rewrite length_app; simpl; lia.
  - rewrite Hfp'. destruct k as [|k].
    + destruct Ahat; [reflexivity | discriminate].
    + simpl Nat.eqb. cbv iota. rewrite Hfp.
      destruct Ahat as [|x Ahat]; [discriminate | reflexivity].
  - intros x Hx. destruct Hout' as [Hsame | (ty & Hnum & Hty & Hcase)].
    + rewrite Hsame in Hx. destruct (Hout x Hx) as (ty & l & Hty & Hnum & Hcase).
      exists ty, l. split; [exact Hty|]. split; [exact Hnum|].
      destruct Hcase as [[-> Hc] | [[-> Hc] | [[-> Hc] | [-> Hc]]]].
      * left. split; [reflexivity | apply nth_error_app_Some; exact Hc].
      * right; left. split; [reflexivity | apply nth_error_app_Some; exact Hc].
      * right; right; left. split; [reflexivity | exact Hc].
      * right; right; right. split; [reflexivity|].
        rewrite He'. apply nth_error_app_Some; exact Hc.
    + exists ty, k. split; [exact Hty|]. split; [exact Hnum|].
      rewrite Hx in Hcase.
      destruct Hcase as [[-> Hc] | [[-> Hc] | [[-> Hc] | [-> Hc]]]];
        injection Hc as ->.
      * left. split; [reflexivity | rewrite <- HA; apply nth_error_snoc].
      * right; left. split; [reflexivity | rewrite <- HAhat; apply nth_error_snoc].
      * right; right; left. split; [reflexivity | exact HR].
      * right; right; right. split; [reflexivity|].
        rewrite He', <- He. apply nth_error_snoc.
Qed.

Lemma bottom_up_loop (m : Model) (a : tensor) (r : list tensor) (n : nat) :
  forall (k : nat) (A Ahat : list tensor) (ff ff' : feedforward),
    bottom_up_upto m a r k A Ahat ff ->
    foldM (update_E m r) (seq k n) ff = Ok ff' ->
    exists A' Ahat', bottom_up_upto m a r (k + n) A' Ahat' ff'.
Proof.
  induction n as [|n IH]; intros k A Ahat ff ff' Hinv E.
  - simpl in E. inversion E; subst. rewrite Nat.add_0_r. eauto.
  - simpl in E. destruct (update_E m r k ff) as [ff1|] eqn:E1; [|discriminate].
    destruct (bottom_up_turn _ _ _ _ _ _ _ _ Hinv E1) as (Ahat_k & Hinv1).
    replace (k + S n)%nat with (S k + n)%nat by lia.
    eapply IH; eassumption.
Qed.

Lemma bottom_up_Ok (m : Model) (a : tensor) (r : list tensor) (ff : feedforward) :
  foldM (update_E m r) (range (nb_layers (net m)))
        {| ff_a := a; ff_e := []; ff_frame_prediction := None; ff_output := None |}
    = Ok ff ->
  exists A Ahat,
    bottom_up m a r A Ahat (ff_e ff) /\
    bottom_up_upto m a r (nb_layers (net m)) A Ahat ff.
Proof.
  intros E. unfold range in E.
  apply bottom_up_loop with (a := a) (A := []) (Ahat := []) in E.
  - destruct E as (A & Ahat & Hinv). exists A, Ahat. split; [|exact Hinv].
    destruct Hinv as (HA & HAhat & He & H0 & Hl & _).
    unfold bottom_up. cbv zeta. simpl in HA, HAhat, He.
    split; [exact HA|]. split; [exact HAhat|]. split; [exact He|].
    split.
    + intros a0 Ha0. apply nth_error_app_Some with (l2 := [ff_a ff]) in Ha0. congruence.
    + intros l Hlt.
      destruct (Hl l Hlt) as (R_l & A_l & Ahat_l & E_l & H1 & H2 & H3 & H4 & H5 & H6).
      exists R_l, A_l, Ahat_l, E_l. repeat (split; [assumption|]).
      intros A_next HAn. apply H6.
      * rewrite <- HA. apply nth_error_Some. congruence.
      * apply nth_error_app_Some. exact HAn.
  - unfold bottom_up_upto. cbv zeta. simpl.
    repeat (split; [reflexivity|]). split; [intros l Hl; lia|].
    split; [reflexivity|]. intros x Hx. discriminate.
Qed.

(** The body of a step that returns, against the specification's
    recurrence: the new state is the lists [R], [C] and [E] of the top-down
    and bottom-up passes, then the frame prediction and the next time step
    when the state carries them; the output is the tensor the mode selects. *)
Lemma recurrence_Ok (m : Model) (a : tensor) (t : option Z) (states : list item)
    (output : tensor) (states' : list item) :
  recurrence m a t states = Ok (output, states') ->
  exists R C A Ahat E,
    top_down m states R C /\
    bottom_up m a R A Ahat E /\
    selected_output (net m) R A Ahat E output /\
    exists carried,
      states' = (map Tensor R ++ map Tensor C ++ map Tensor E ++ carried)%list /\
      match t with
      | Some t => exists frame_prediction,
                    nth_error Ahat 0 = Some frame_prediction /\
                    carried = [Tensor frame_prediction; Int (t + 1)]
      | None => carried = []
      end.
Proof.
  unfold recurrence. cbv zeta. intros E.
  inv_bind E as top Etop. destruct top as [[c r] r_up].
  apply top_down_Ok in Etop.
  inv_bind E as ff Eff. apply bottom_up_Ok in Eff.
  destruct Eff as (A & Ahat & Hbu & Hinv).
  destruct Hinv as (_ & _ & _ & _ & _ & Hfp & Hout).
  inv_bind E as out Eout.
  exists r, c, A, Ahat, (ff_e ff).
  split; [exact Etop|]. split; [exact Hbu|]. split.
  - unfold selected_output. destruct (output_layer_type (net m)) as [ty|] eqn:Ety.
    + apply unbound_Ok in Eout. destruct (Hout _ Eout) as (ty' & l & Hty & Hnum & Hcase).
      assert (ty' = ty) by congruence. subst ty'.
      assert (out = output) by (destruct t; [inv_bind E as fp Efp|]; congruence).
      subst out. exists l. split; [exact Hnum | exact Hcase].
    + assert (out = output) by (destruct t; [inv_bind E as fp Efp|]; congruence).
      subst out.
      destruct (output_mode (net m) =? "prediction")%string.
      * apply unbound_Ok in Eout. congruence.
      * inv_bind Eout as all_error Eall.
        destruct (output_mode (net m) =? "error")%string.
        -- apply unbound_Ok in Eout. subst all_error. exists output. split; [assumption|reflexivity].
        -- inv_bind Eout as fp Efp. apply unbound_Ok in Efp.
           inv_bind Eout as flat Eflat. inv_bind Eout as ae Eae. apply unbound_Ok in Eae.
           apply K_concatenate_Ok in Eout. subst all_error.
           exists ae. split; [assumption|]. exists fp, flat.
           split; [congruence|]. split; assumption.
  - destruct t as [t|].
    + inv_bind E as fp Efp. apply unbound_Ok in Efp. inversion E; subst.
      exists [Tensor fp; Int (t + 1)]. split.
      * rewrite <- !app_assoc. reflexivity.
      * exists fp. split; [congruence | reflexivity].
    + inversion E; subst. exists []. split; [|reflexivity].
      rewrite app_nil_r. reflexivity.
Qed.

End Inversion.

(** ** The step *)

Section Step.
Context {T : Type} `{Backend T}.

Local Abbreviation tensor := (@tensor T).
Local Abbreviation item := (@item T).
Local Abbreviation Model := (@Model T).

Lemma step_Ok (m : Model) (a : tensor) (states : list item)
    (output : tensor) (states' : list item) :
  step m a states = Ok (output, states') ->
  exists a' t,
    step_input (net m) a states = Ok (a', t) /\
    recurrence m a' t states = Ok (output, states').
Proof.
  unfold step. intros E. inv_bind E as at_ Eat. destruct at_ as [a' t].
  exists a', t. split; assumption.
Qed.

Lemma step_input_Ok (self : @PredNet T) (a : tensor) (states : list item)
    (a' : tensor) (t : option Z) :
  step_input self a states = Ok (a', t) ->
  match extrap_start_time self with
  | Some t_extrap =>
      exists tt prev,
        t = Some tt /\ index states (-1) = Ok (Int tt) /\
        index states (-2) = Ok (Tensor prev) /\
        a' = (if t_extrap <=? tt then prev else a)
  | None => a' = a /\ t = None
  end.
Proof.
  unfold step_input. destruct (extrap_start_time self) as [t_extrap|].
  - intros E. inv_bind E as tt Et. inv_bind Et as v Ev. apply as_int_Ok in Et; subst v.
    inv_bind E as prev Ep. inv_bind Ep as v Ev'. apply as_tensor_Ok in Ep; subst v.
    inversion E; subst. exists tt, prev. repeat split; assumption.
  - intros E. inversion E. split; reflexivity.
Qed.

Lemma index_last {A : Type} (l : list A) (x y : A) :
  index (l ++ [x; y]) (-1) = Ok y /\ index (l ++ [x; y]) (-2) = Ok x.
Proof.
  unfold index. rewrite length_app. cbn [List.length].
  replace (0 <=? -1) with false by reflexivity.
  replace (0 <=? -2) with false by reflexivity. cbn [andb].
  replace (-1 <? 0) with true by reflexivity.
  replace (-2 <? 0) with true by reflexivity. cbn [andb].
  replace (0 <=? Z.of_nat (List.length l + 2) + -1) with true
    by (symmetry; apply Z.leb_le; lia).
  replace (0 <=? Z.of_nat (List.length l + 2) + -2) with true
    by (symmetry; apply Z.leb_le; lia).
  replace (Z.to_nat (Z.of_nat (List.length l + 2) + -1)) with (S (List.length l)) by lia.
  replace (Z.to_nat (Z.of_nat (List.length l + 2) + -2)) with (List.length l) by lia.
  unfold getitem. split.
  - rewrite nth_error_app2 by lia.
    replace (S (List.length l) - List.length l)%nat with 1%nat by lia. reflexivity.
  - rewrite nth_error_app2 by lia. rewrite Nat.sub_diag. reflexivity.
Qed.

(** C7. Every step that returns has updated the representation units as the
    specification's step 2 says (each layer from the concatenation of its
    previous R and E and, below the top, the upsampled new R of the layer
    above; C = f * C_prev + i * candidate; R = o * activation(C)), and its
    next state is the lists R, C, E of the step, followed by the frame
    prediction and t + 1 exactly when the network extrapolates. *)
Theorem step_follows_recurrence (m : Model) (a : tensor) (states : list item)
    (output : tensor) (states' : list item) :
  step m a states = Ok (output, states') ->
  exists a' R C A Ahat E carried,
    top_down m states R C /\
    bottom_up m a' R A Ahat E /\
    states' = (map Tensor R ++ map Tensor C ++ map Tensor E ++ carried)%list /\
    match extrap_start_time (net m) with
    | Some _ =>
        exists frame_prediction t,
          index states (-1) = Ok (Int t) /\
          nth_error Ahat 0 = Some frame_prediction /\
          carried = [Tensor frame_prediction; Int (t + 1)]
    | None => carried = []
    end.
Proof.
  intros E. apply step_Ok in E. destruct E as (a' & t & Ein & E).
  apply recurrence_Ok in E.
  destruct E as (R & C & A & Ahat & E & Htd & Hbu & _ & carried & Hst & Hc).
  exists a', R, C, A, Ahat, E, carried.
  split; [exact Htd|]. split; [exact Hbu|]. split; [exact Hst|].
  apply step_input_Ok in Ein.
  destruct (extrap_start_time (net m)) as [t_extrap|].
  - destruct Ein as (tt & prev & -> & Ht & _ & _).
    destruct Hc as (fp & Hfp & ->). exists fp, tt. repeat split; assumption.
  - destruct Ein as (_ & ->). exact Hc.
Qed.

(** C5. With [extrap_start_time = T] and a state that carries the previous
    frame prediction [prev] and the time step [t], a step that returns has
    consumed [prev] when [t >= T] and the supplied frame [a] when [t < T]:
    the bottom-up pass ran on the consumed frame as the target of layer 0,
    and the error of layer 0 in the returned state is the error activation
    of the frame prediction minus the consumed frame beside that of the
    consumed frame minus the frame prediction.  When [t >= T] the supplied
    frame has no part in the result: every frame gives the same output and
    state.  The returned state carries the frame prediction and [t + 1]. *)
Theorem extrapolation_switch (m : Model) (a : tensor) (states : list item)
    (t_extrap t : Z) (prev : tensor) (output : tensor) (states' : list item) :
  extrap_start_time (net m) = Some t_extrap ->
  index states (-1) = Ok (Int t) ->
  index states (-2) = Ok (Tensor prev) ->
  step m a states = Ok (output, states') ->
  let consumed := if t_extrap <=? t then prev else a in
  (t_extrap <= t -> consumed = prev /\
                    forall a2, step m a2 states = Ok (output, states')) /\
  (t < t_extrap -> consumed = a) /\
  exists R C A Ahat E frame_prediction E_0,
    top_down m states R C /\
    bottom_up m consumed R A Ahat E /\
    selected_output (net m) R A Ahat E output /\
    nth_error A 0 = Some consumed /\
    nth_error Ahat 0 = Some frame_prediction /\
    nth_error E 0 = Some E_0 /\
    E_0 = concatenate
            [apply (error_activation (net m)) (minus frame_prediction consumed);
             apply (error_activation (net m)) (minus consumed frame_prediction)]
            (channel_axis (net m)) /\
    states' = (map Tensor R ++ map Tensor C ++ map Tensor E
               ++ [Tensor frame_prediction; Int (t + 1)])%list /\
    nth_error states' (2 * nb_layers (net m)) = Some (Tensor E_0).
Proof.
  intros HT Ht Hprev Estep consumed.
  assert (Hin : forall a2, step_input (net m) a2 states
                           = Ok (if t_extrap <=? t then prev else a2, Some t)).
  { intros a2. unfold step_input. rewrite HT, Ht, Hprev. reflexivity. }
  split; [|split].
  - intros Hle. apply Z.leb_le in Hle. unfold consumed. rewrite Hle.
    split; [reflexivity|]. intros a2.
    unfold step in *. rewrite Hin in *. rewrite Hle in *. exact Estep.
  - intros Hlt. apply Z.leb_gt in Hlt. unfold consumed. rewrite Hlt. reflexivity.
  - apply step_Ok in Estep. destruct Estep as (a' & t' & Ein & E).
    rewrite Hin in Ein. injection Ein as <- <-. fold consumed in E.
    apply recurrence_Ok in E.
    destruct E as (R & C & A & Ahat & Es & Htd & Hbu & Hsel & carried & Hst & Hc).
    destruct Hc as (fp & Hfp & ->).
    pose proof Htd as (HlenR & HlenC & _).
    pose proof Hbu as (HlenA & HlenAhat & HlenE & HA0 & Hlayers).
    assert (Hpos : (0 < nb_layers (net m))%nat).
    { rewrite <- HlenAhat. apply nth_error_Some. congruence. }
    destruct (Hlayers 0%nat Hpos)
      as (R0 & A0 & Ahat0 & E0 & _ & NA & NAh & NE & Herr & _).
    rewrite Hfp in NAh. injection NAh as <-.
    pose proof (HA0 A0 NA) as ->.
    destruct Herr as (cv & _ & _ & HE0).
    exists R, C, A, Ahat, Es, fp, E0.
    split; [exact Htd|]. split; [exact Hbu|]. split; [exact Hsel|].
    split; [exact NA|]. split; [exact Hfp|]. split; [exact NE|].
    split; [exact HE0|]. split; [exact Hst|].
    rewrite Hst.
    rewrite nth_error_app2 by (rewrite length_map; lia). rewrite length_map, HlenR.
    rewrite nth_error_app2 by (rewrite length_map; lia). rewrite length_map, HlenC.
    replace (2 * nb_layers (net m) - nb_layers (net m) - nb_layers (net m))%nat
      with 0%nat by lia.
    rewrite nth_error_app1 by (rewrite length_map; lia).
    rewrite nth_error_map, NE. reflexivity.
Qed.


(** A step that returns has recorded a frame prediction: the network has a
    layer 0. *)
Lemma recorded_prediction (self : @PredNet T) (R A Ahat E : list tensor)
    (output : tensor) :
  List.length A = nb_layers self -> List.length Ahat = nb_layers self ->
  List.length R = nb_layers self -> List.length E = nb_layers self ->
  selected_output self R A Ahat E output ->
  exists frame_prediction, nth_error Ahat 0 = Some frame_prediction.
Proof.
  intros HA HAhat HR HE Hsel.
  destruct Ahat as [|fp Ahat]; [|exists fp; reflexivity].
  exfalso. simpl in HAhat. rewrite <- HAhat in *.
  destruct A; [|discriminate]. destruct R; [|discriminate]. destruct E; [|discriminate].
  unfold selected_output in Hsel.
  destruct (output_layer_type self) as [ty|].
  - destruct Hsel as (l & _ & [[_ Hc] | [[_ Hc] | [[_ Hc] | [_ Hc]]]]);
      destruct l; discriminate.
  - destruct (output_mode self =? "prediction")%string; [discriminate|].
    destruct Hsel as (all_error & Hall & _).
    unfold all_errors in Hall. rewrite <- HAhat in Hall. discriminate.
Qed.

Lemma K_minimum_le {Law : @MinimumLaw T _} (x : tensor) (bound : T) :
  Forall (fun v => le v bound) (tdata (K_minimum x bound)).
Proof.
  unfold K_minimum, tmap. cbn [tdata]. apply Forall_map.
  apply Forall_forall. intros v _. apply minimum_le.
Qed.

(** C6. The frame prediction a step records does not exceed [pixel_max] in
    any entry; it is the output in mode 'prediction' and the tensor the next
    state carries when the network extrapolates.  It is the clipping of the
    output of the prediction convolution of layer 0 on the new
    representation of layer 0, whatever that output is. *)
Theorem frame_prediction_clipped {Law : @MinimumLaw T _} (m : Model) (a : tensor)
    (states : list item) (output : tensor) (states' : list item) :
  step m a states = Ok (output, states') ->
  exists frame_prediction,
    frame_prediction_of m a states frame_prediction /\
    Forall (fun v => le v (pixel_max (net m))) (tdata frame_prediction) /\
    (output_layer_type (net m) = None -> output_mode (net m) = "prediction" ->
     output = frame_prediction) /\
    (extrap_start_time (net m) <> None ->
     index states' (-2) = Ok (Tensor frame_prediction)) /\
    exists cv R_0,
      conv m "ahat" 0 = Ok cv /\
      nth_error states' 0 = Some (Tensor R_0) /\
      frame_prediction = K_minimum (convolve cv R_0) (pixel_max (net m)).
Proof.
  intros E. apply step_Ok in E. destruct E as (a' & t & Ein & E).
  apply recurrence_Ok in E.
  destruct E as (R & C & A & Ahat & E & Htd & Hbu & Hsel & carried & Hst & Hc).
  assert (Hfp : exists fp, nth_error Ahat 0 = Some fp).
  { destruct Htd as (HR & _). destruct Hbu as (HA & HAhat & HE & _).
    exact (@recorded_prediction (net m) R A Ahat E output HA HAhat HR HE Hsel). }
  destruct Hfp as (fp & Hfp). exists fp.
  split.
  { exists a', t, R, C, A, Ahat, E.
    split; [exact Ein|]. split; [exact Htd|]. split; [exact Hbu | exact Hfp]. }
  assert (Hraw : exists cv R_0,
            conv m "ahat" 0 = Ok cv /\ nth_error R 0 = Some R_0 /\
            fp = K_minimum (convolve cv R_0) (pixel_max (net m))).
  { destruct Hbu as (_ & HAhat & _ & _ & Hl).
    assert (Hpos : (0 < nb_layers (net m))%nat).
    { rewrite <- HAhat. apply nth_error_Some. congruence. }
    destruct (Hl 0%nat Hpos) as (R0 & A0 & Ahat0 & E0 & HR0 & _ & HAh & _ & Herr & _).
    destruct Herr as (cv & Ecv & -> & _). cbn [Nat.eqb] in HAh.
    exists cv, R0. split; [exact Ecv|]. split; [exact HR0 | congruence]. }
  split; [|split; [|split]].
  - destruct Hraw as (cv & R_0 & _ & _ & ->). apply K_minimum_le.
  - intros Hty Hmode. unfold selected_output in Hsel. rewrite Hty, Hmode in Hsel.
    rewrite String.eqb_refl in Hsel. congruence.
  - intros Hex. apply step_input_Ok in Ein.
    destruct (extrap_start_time (net m)) as [t_extrap|]; [|congruence].
    destruct Ein as (tt & prev & -> & _). destruct Hc as (fp' & Hfp' & ->).
    assert (fp' = fp) by congruence. subst fp' states'. rewrite !app_assoc.
    apply index_last.
  - destruct Hraw as (cv & R_0 & Ecv & HR0 & Hfp0). exists cv, R_0.
    split; [exact Ecv|]. split; [|exact Hfp0].
    rewrite Hst. rewrite nth_error_app1.
    + rewrite nth_error_map, HR0. reflexivity.
    + rewrite length_map. apply nth_error_Some. congruence.
Qed.

End Step.

(** ** The model [build] returns *)

Section BuildFacts.
Context {T : Type} `{Backend T}.

Local Abbreviation tensor := (@tensor T).
Local Abbreviation item := (@item T).
Local Abbreviation Model := (@Model T).
Local Abbreviation Conv2D := (@Conv2D T).
Local Abbreviation PredNet := (@PredNet T).
Local Abbreviation Activation := (@Activation T).

Lemma build_Ok (self : PredNet) (wt : string -> nat -> list T * list T)
    (s0 s1 s2 s3 r0 r1 r2 r3 ka0 ka1 ka2 kh0 kh1 kh2 kh3 d0 d1 d2 d3 d4 : Z) :
  stack_sizes self = [s0; s1; s2; s3] ->
  R_stack_sizes self = [r0; r1; r2; r3] ->
  A_filt_sizes self = [ka0; ka1; ka2] ->
  Ahat_filt_sizes self = [kh0; kh1; kh2; kh3] ->
  R_filt_sizes self = [3; 3; 3; 3] ->
  nb_layers self = 4%nat ->
  layout (data_format self) ->
  build self [d0; d1; d2; d3; d4] wt = Ok (built_model self [d0; d1; d2; d3; d4] wt).
Proof.
  intros HS HR HA HAh HRf HL Hlay.
  unfold build, built_model, build_nb_channels, Conv2D_build, Conv2D_new, built.
  rewrite HS, HR, HA, HAh, HRf, HL.
  destruct Hlay as [-> | ->]; reflexivity.
Qed.
End BuildFacts.

(** ** Steps on well-shaped states return *)

Section Totality.
Context {T : Type} `{Backend T}.

Local Abbreviation tensor := (@tensor T).
Local Abbreviation item := (@item T).
Local Abbreviation Model := (@Model T).
Local Abbreviation Conv2D := (@Conv2D T).
Local Abbreviation PredNet := (@PredNet T).

Lemma getitem_slice_Ok {A : Type} (l : list A) (a b i : nat) (x : A) :
  nth_error l (a + i) = Some x -> (i < b - a)%nat -> getitem (slice l a b) i = Ok x.
Proof.
  intros E Hlt. apply getitem_Ok. unfold slice.
  rewrite nth_error_firstn. apply Nat.ltb_lt in Hlt. rewrite Hlt.
  rewrite nth_error_skipn. exact E.
Qed.

Lemma Conv2D_call_for (cv : Conv2D) (x : tensor) (fmt : string) (cin filt N C Hh W : Z) :
  conv_for cv fmt cin filt ->
  tshape x = pos4 fmt N C Hh W ->
  C = cin ->
  Conv2D_call cv x = Ok (convolve cv x) /\
  tshape (convolve cv x) = pos4 fmt N filt Hh W.
Proof.
  intros (Hin & Hfmt & Hfilt) Hx HC. rewrite <- Hfilt.
  apply (Conv2D_call_shape cv x fmt cin N C Hh W); assumption.
Qed.

(** One turn of the top-down loop on tensors of the expected shapes. *)
Lemma update_R_total (m : Model) (states : list item) (l : nat)
    (c r : list tensor) (r_up : option tensor)
    (fmt : string) (N Rl El cin Hl Wl : Z)
    (r_prev c_prev e_prev : tensor) (cvi cvf cvo cvc : Conv2D) (up : list tensor)
    (ups : list Z) :
  let self := net m in
  let L := nb_layers self in
  layout fmt -> data_format self = fmt -> channel_axis self = channel_axis_of fmt ->
  (l < L)%nat ->
  nth_error states l = Some (Tensor r_prev) ->
  nth_error states (L + l) = Some (Tensor c_prev) ->
  nth_error states (2 * L + l) = Some (Tensor e_prev) ->
  tshape r_prev = pos4 fmt N Rl Hl Wl ->
  tshape c_prev = pos4 fmt N Rl Hl Wl ->
  tshape e_prev = pos4 fmt N El Hl Wl ->
  conv m "i" l = Ok cvi -> conv m "f" l = Ok cvf ->
  conv m "o" l = Ok cvo -> conv m "c" l = Ok cvc ->
  conv_for cvi fmt cin Rl -> conv_for cvf fmt cin Rl ->
  conv_for cvo fmt cin Rl -> conv_for cvc fmt cin Rl ->
  (if (S l <? L)%nat then exists u, r_up = Some u /\ up = [u] else up = []) ->
  Forall2 (fun x ch => tshape x = pos4 fmt N ch Hl Wl) up ups ->
  cin = Rl + (El + fold_right Z.add 0 ups) ->
  exists R_l C_l,
    update_R m (slice states 0 L) (slice states L (2 * L)) (slice states (2 * L) (3 * L))
             l (c, r, r_up)
    = Ok (C_l :: c, R_l :: r,
          if (0 <? l)%nat then Some (upsample fmt R_l) else r_up) /\
    tshape R_l = pos4 fmt N Rl Hl Wl /\
    tshape C_l = pos4 fmt N Rl Hl Wl /\
    tshape (upsample fmt R_l) = pos4 fmt N Rl (2 * Hl) (2 * Wl).
Proof.
  intros self L Hlay Hfmt Hax HlL Hr Hc He Sr Sc Se Ei Ef Eo Ec Ci Cf Co Cc Hup Sup Hcin.
  unfold update_R. cbv zeta. fold self. fold L.
  rewrite (getitem_slice_Ok states 0 L l _ Hr) by lia.
  rewrite (getitem_slice_Ok states (2 * L) (3 * L) l _ He) by lia.
  cbn [Py.bind as_tensor].
  rewrite below_top. fold L.
  assert (Hin : (if (S l <? L)%nat
                 then u <- unbound "r_up" r_up ;; Ok [r_prev; e_prev; u]
                 else Ok [r_prev; e_prev]) = Ok ([r_prev; e_prev] ++ up)%list).
  { destruct (S l <? L)%nat.
    - destruct Hup as (u & -> & ->). reflexivity.
    - subst up. reflexivity. }
  rewrite Hin. cbn [Py.bind].
  destruct (K_concatenate_channels fmt ([r_prev; e_prev] ++ up)%list
              (Rl :: El :: ups) N Hl Wl Hlay) as (Ecat & Scat).
  { discriminate. }
  { constructor; [exact Sr|]. constructor; [exact Se|]. exact Sup. }
  rewrite Hax, Ecat. cbn [Py.bind].
  set (inputs := concatenate ([r_prev; e_prev] ++ up) (channel_axis_of fmt)) in *.
  cbn [fold_right] in Scat.
  rewrite Ei, Ef, Eo, Ec. cbn [Py.bind].
  destruct (Conv2D_call_for cvi inputs fmt cin Rl N _ Hl Wl Ci Scat (eq_sym Hcin)) as (-> & Si).
  destruct (Conv2D_call_for cvf inputs fmt cin Rl N _ Hl Wl Cf Scat (eq_sym Hcin)) as (-> & Sf).
  destruct (Conv2D_call_for cvo inputs fmt cin Rl N _ Hl Wl Co Scat (eq_sym Hcin)) as (-> & So).
  destruct (Conv2D_call_for cvc inputs fmt cin Rl N _ Hl Wl Cc Scat (eq_sym Hcin)) as (-> & Scand).
  cbn [Py.bind].
  rewrite (getitem_slice_Ok states L (2 * L) l _ Hc) by lia.
  cbn [Py.bind as_tensor].
  unfold tmul, tadd.
  destruct (elementwise2_same mul (convolve cvf inputs) c_prev) as (-> & Sfc);
    [congruence|]. cbn [Py.bind].
  destruct (elementwise2_same mul (convolve cvi inputs) (convolve cvc inputs))
    as (-> & Sic); [congruence|]. cbn [Py.bind].
  destruct (elementwise2_same add (ew2 mul (convolve cvf inputs) c_prev)
              (ew2 mul (convolve cvi inputs) (convolve cvc inputs)))
    as (-> & SC); [congruence|]. cbn [Py.bind].
  set (C_l := ew2 add (ew2 mul (convolve cvf inputs) c_prev)
                      (ew2 mul (convolve cvi inputs) (convolve cvc inputs))) in *.
  destruct (elementwise2_same mul (convolve cvo inputs)
              (apply (LSTM_activation self) C_l)) as (-> & SR).
  { unfold apply, tmap. cbn [tshape]. congruence. }
  cbn [Py.bind].
  set (R_l := ew2 mul (convolve cvo inputs) (apply (LSTM_activation self) C_l)) in *.
  assert (SRl : tshape R_l = pos4 fmt N Rl Hl Wl) by congruence.
  destruct (UpSampling2D_call_shape fmt R_l _ _ _ _ SRl) as (Eup & Sup').
  exists R_l, C_l. split; [|split; [exact SRl | split; [congruence | exact Sup']]].
  rewrite Hfmt. destruct (0 <? l)%nat.
  - rewrite Eup. reflexivity.
  - reflexivity.
Qed.


(** One turn of the bottom-up loop on tensors of the expected shapes. *)
Lemma update_E_total (m : Model) (r : list tensor) (l : nat) (ff : feedforward)
    (fmt : string) (N Sl Rl Snext Hl Wl : Z) (R_l : tensor) (cv cva : Conv2D) :
  let self := net m in
  let L := nb_layers self in
  layout fmt -> data_format self = fmt -> channel_axis self = channel_axis_of fmt ->
  List.length (ff_e ff) = l ->
  nth_error r l = Some R_l ->
  tshape R_l = pos4 fmt N Rl Hl Wl ->
  tshape (ff_a ff) = pos4 fmt N Sl Hl Wl ->
  conv m "ahat" l = Ok cv -> conv_for cv fmt Rl Sl ->
  ((S l <? L)%nat = true ->
   conv m "a" l = Ok cva /\ conv_for cva fmt (Sl + (Sl + 0)) Snext) ->
  exists Ahat_l E_l ff',
    update_E m r l ff = Ok ff' /\
    tshape Ahat_l = pos4 fmt N Sl Hl Wl /\
    tshape E_l = pos4 fmt N (Sl + (Sl + 0)) Hl Wl /\
    ff_e ff' = (ff_e ff ++ [E_l])%list /\
    ff_frame_prediction ff'
      = (if Nat.eqb l 0 then Some Ahat_l else ff_frame_prediction ff) /\
    ff_output ff' = pick_output self l (ff_a ff) Ahat_l R_l E_l (ff_output ff) /\
    (if (S l <? L)%nat
     then tshape (ff_a ff') = pos4 fmt N Snext (Hl / 2) (Wl / 2)
     else ff_a ff' = ff_a ff).
Proof.
  intros self L Hlay Hfmt Hax Hlen Hr SR Sa Ecv Ccv Hnext.
  unfold update_E. cbv zeta. fold self. fold L.
  rewrite (proj2 (getitem_Ok r l R_l) Hr). cbn [Py.bind].
  rewrite Ecv. cbn [Py.bind].
  destruct (Conv2D_call_for cv R_l fmt Rl Sl N _ Hl Wl Ccv SR eq_refl) as (-> & Sahat0).
  cbn [Py.bind].
  set (Ahat_l := if Nat.eqb l 0 then K_minimum (convolve cv R_l) (pixel_max self)
                 else convolve cv R_l).
  assert (Sahat : tshape Ahat_l = pos4 fmt N Sl Hl Wl).
  { subst Ahat_l. destruct (Nat.eqb l 0); [|exact Sahat0]. exact Sahat0. }
  unfold tsub.
  destruct (elementwise2_same sub Ahat_l (ff_a ff)) as (-> & Sup); [congruence|].
  destruct (elementwise2_same sub (ff_a ff) Ahat_l) as (-> & Sdown); [congruence|].
  cbn [Py.bind].
  destruct (K_concatenate_channels fmt
              [apply (error_activation self) (ew2 sub Ahat_l (ff_a ff));
               apply (error_activation self) (ew2 sub (ff_a ff) Ahat_l)]
              [Sl; Sl] N Hl Wl Hlay) as (Ecat & Scat).
  { discriminate. }
  { constructor; [unfold apply, tmap; cbn [tshape]; congruence|].
    constructor; [unfold apply, tmap; cbn [tshape]; congruence|]. constructor. }
  rewrite Hax, Ecat. cbn [Py.bind].
  set (E_l := concatenate
                [apply (error_activation self) (ew2 sub Ahat_l (ff_a ff));
                 apply (error_activation self) (ew2 sub (ff_a ff) Ahat_l)]
                (channel_axis_of fmt)) in *.
  cbn [fold_right] in Scat.
  assert (HEl : getitem (ff_e ff ++ [E_l]) l = Ok E_l).
  { apply getitem_Ok. rewrite <- Hlen. apply nth_error_snoc. }
  rewrite HEl. cbn [Py.bind].
  assert (Hout : (if layer_is self l
                  then if type_is self "A" then Ok (Some (ff_a ff))
                       else if type_is self "Ahat" then Ok (Some Ahat_l)
                       else if type_is self "R" then Ok (Some R_l)
                       else if type_is self "E" then Ok (Some E_l)
                       else Ok (ff_output ff)
                  else Ok (ff_output ff))
                 = Ok (pick_output self l (ff_a ff) Ahat_l R_l E_l (ff_output ff))).
  { unfold pick_output. destruct (layer_is self l); [|reflexivity].
    destruct (type_is self "A"); [reflexivity|].
    destruct (type_is self "Ahat"); [reflexivity|].
    destruct (type_is self "R"); [reflexivity|].
    destruct (type_is self "E"); reflexivity. }
  rewrite Hout. cbn [Py.bind].
  rewrite below_top. fold L.
  destruct (S l <? L)%nat eqn:Etop.
  - destruct (Hnext eq_refl) as (Ecva & Ccva). rewrite Ecva. cbn [Py.bind].
    destruct (Conv2D_call_for cva E_l fmt _ Snext N _ Hl Wl Ccva Scat eq_refl)
      as (-> & Sconv).
    cbn [Py.bind].
    destruct (MaxPooling2D_call_shape fmt (convolve cva E_l) _ _ _ _ Sconv) as (Epool & Spool).
    rewrite Hfmt, Epool. cbn [Py.bind].
    eexists Ahat_l, E_l, _. split; [reflexivity|].
    cbn [ff_e ff_a ff_frame_prediction ff_output].
    repeat (split; [first [assumption | reflexivity | (destruct (Nat.eqb l 0); reflexivity)]|]).
    exact Spool.
  - eexists Ahat_l, E_l, _. split; [reflexivity|].
    cbn [ff_e ff_a ff_frame_prediction ff_output].
    repeat (split; [first [assumption | reflexivity | (destruct (Nat.eqb l 0); reflexivity)]|]).
    reflexivity.
Qed.

End Totality.

(** ** The A convolutions and the selector of the top target *)

Section Selectors.
Context {T : Type} `{Backend T}.

Local Abbreviation tensor := (@tensor T).
Local Abbreviation item := (@item T).
Local Abbreviation Model := (@Model T).
Local Abbreviation Conv2D := (@Conv2D T).
Local Abbreviation PredNet := (@PredNet T).
Local Abbreviation Config := (@Config T).

(** [build] gives the A convolution of layer [l] twice the channels of the
    representation of layer [l] as input channels, the channels of the
    target of layer [l+1] as filters, and the kernel size [A_filt_sizes[l]]. *)
Lemma A_convolution_built (self : PredNet) (wt : string -> nat -> list T * list T)
    (input_shape : shape) (l : nat) :
  nb_layers self = 4%nat ->
  (l < 3)%nat ->
  conv (built_model self input_shape wt) "a" l
  = Ok (built (nth (l + 1) (stack_sizes self) 0) (nth l (A_filt_sizes self) 0)
              (A_activation self) (data_format self)
              (2 * nth l (R_stack_sizes self) 0) (wt "a" l)).
Proof.
  intros HL Hl. unfold conv, built_model. rewrite HL.
  destruct l as [|[|[|l]]]; try lia; reflexivity.
Qed.

(** In a network of four layers the selector of the top target is among the
    modes the constructor accepts, and is read as unit type 'A', layer 3. *)
Lemma top_target_mode_accepted :
  str_in "A3" (default_output_modes ++ layer_output_modes 4) = true /\
  output_layer 4 "A3" = Ok (Some "A", Some 3%nat).
Proof. split; reflexivity. Qed.

(** A step in that mode returns the target of the top layer: the pooled
    output of the A convolution of layer 2 on the error of layer 2. *)
Lemma top_target_output (m : Model) (a : tensor) (states : list item)
    (output : tensor) (states' : list item) :
  nb_layers (net m) = 4%nat ->
  output_layer_type (net m) = Some "A" ->
  output_layer_num (net m) = Some 3%nat ->
  step m a states = Ok (output, states') ->
  exists a' R A Ahat E E_2 cv,
    bottom_up m a' R A Ahat E /\
    nth_error E 2 = Some E_2 /\
    conv m "a" 2 = Ok cv /\
    output = maxpool (data_format (net m)) (convolve cv E_2).
Proof.
  intros HL Hty Hnum E. apply step_Ok in E. destruct E as (a' & t & _ & E).
  apply recurrence_Ok in E.
  destruct E as (R & C & A & Ahat & Es & _ & Hbu & Hsel & _).
  unfold selected_output in Hsel. rewrite Hty in Hsel.
  destruct Hsel as (l & Hl & Hcase). rewrite Hnum in Hl. injection Hl as <-.
  destruct Hcase as [[_ HA] | [[Hc _] | [[Hc _] | [Hc _]]]]; try discriminate.
  exists a', R, A, Ahat, Es.
  pose proof Hbu as (_ & _ & _ & _ & Hlayers).
  destruct (Hlayers 2%nat ltac:(lia)) as (R2 & A2 & Ahat2 & E2 & _ & _ & _ & HE2 & _ & Hnext).
  destruct (Hnext output HA) as (cv & Ecv & ->).
  exists E2, cv. split; [exact Hbu|]. split; [exact HE2|]. split; [exact Ecv | reflexivity].
Qed.

End Selectors.

(** ** Steps on fitting states *)

Section Geometry.
Context {T : Type} `{Backend T}.

Local Abbreviation tensor := (@tensor T).
Local Abbreviation item := (@item T).
Local Abbreviation Model := (@Model T).
Local Abbreviation Conv2D := (@Conv2D T).
Local Abbreviation PredNet := (@PredNet T).
Local Abbreviation feedforward := (@feedforward T).


Lemma pos4_eq (fmt : string) (N C C' Hh Hh' W W' : Z) :
  C = C' -> Hh = Hh' -> W = W' -> pos4 fmt N C Hh W = pos4 fmt N C' Hh' W'.
Proof. intros -> -> ->. reflexivity. Qed.

Lemma top_down_fits_loop (m : Model) (G : geometry) (states : list item) (n : nat) :
  let L := nb_layers (net m) in
  net_fits (net m) G -> convs_fit m G -> states_fit G L states ->
  forall vars,
    (n <= L)%nat ->
    top_down_fits m G n vars ->
    exists vars',
      foldM (update_R m (slice states 0 L) (slice states L (2 * L))
                      (slice states (2 * L) (3 * L)))
            (rev (range n)) vars = Ok vars' /\
      top_down_fits m G 0 vars'.
Proof.
  intros L (Hlay & Hfmt & Hax & Hhalf) (Hgates & _ & _) Hst.
  induction n as [|n IH]; intros vars Hn Hinv.
  - exists vars. split; [reflexivity | exact Hinv].
  - rewrite rev_range_S. cbn [foldM].
    destruct vars as [[c r] r_up]. destruct Hinv as (Hr & Hc & Hl & Hup).
    fold L in Hr, Hc, Hl, Hup.
    destruct (Hst n ltac:(lia)) as (r_prev & c_prev & e_prev & N1 & N2 & N3 & S1 & S2 & S3).
    destruct (Hgates n "i" ltac:(lia) ltac:(simpl; tauto)) as (cvi & cin_i & Ei & Ci & Hi).
    destruct (Hgates n "f" ltac:(lia) ltac:(simpl; tauto)) as (cvf & cin_f & Ef & Cf & Hf).
    destruct (Hgates n "o" ltac:(lia) ltac:(simpl; tauto)) as (cvo & cin_o & Eo & Co & Ho).
    destruct (Hgates n "c" ltac:(lia) ltac:(simpl; tauto)) as (cvc & cin_c & Ec & Cc & Hcc).
    fold L in Hi, Hf, Ho, Hcc. subst cin_i cin_f cin_o cin_c.
    assert (Hups : exists up ups,
               (if (S n <? L)%nat then exists u, r_up = Some u /\ up = [u] else up = []) /\
               Forall2 (fun x ch => tshape x = unit_shape G ch n) up ups /\
               gate_channels G L n = g_R G n + (2 * g_S G n + fold_right Z.add 0 ups)).
    { unfold gate_channels. destruct (S n <? L)%nat eqn:Etop.
      - apply Nat.ltb_lt in Etop.
        destruct (Hup ltac:(lia)) as (u & -> & Su).
        exists [u], [g_R G (S n)]. split; [eauto|]. split.
        + constructor; [|constructor]. rewrite Su. unfold unit_shape.
          destruct (Hhalf n Etop) as (E1 & _ & E2 & _).
          apply pos4_eq; [reflexivity | exact E1 | exact E2].
        + cbn [fold_right]. lia.
      - exists [], []. split; [reflexivity|]. split; [constructor|].
        cbn [fold_right]. lia. }
    destruct Hups as (up & ups & Hup' & Sup & Hcin).
    destruct (update_R_total m states n c r r_up (g_fmt G) (g_samples G)
                (g_R G n) (2 * g_S G n) (gate_channels G L n) (g_rows G n) (g_cols G n)
                r_prev c_prev e_prev cvi cvf cvo cvc up ups
                Hlay Hfmt Hax ltac:(fold L; lia) N1 N2 N3 S1 S2 S3 Ei Ef Eo Ec Ci Cf Co Cc
                Hup' Sup Hcin) as (R_n & C_n & E & SR & SC & SU).
    fold L in E. rewrite E.
    apply IH; [lia|].
    unfold top_down_fits. fold L. cbn [List.length].
    split; [lia|]. split; [lia|]. split.
    + intros l Hl'. destruct (Nat.eq_dec l n) as [-> | Hne].
      * exists R_n, C_n. rewrite Nat.sub_diag. cbn [nth_error].
        repeat split; assumption.
      * destruct (Hl l ltac:(lia)) as (R_l & C_l & HR & HC & SRl & SCl).
        exists R_l, C_l.
        replace (l - n)%nat with (S (l - S n)) by lia. cbn [nth_error].
        repeat split; assumption.
    + intros Hn'. exists (upsample (g_fmt G) R_n). split; [|exact SU].
      destruct (0 <? n)%nat eqn:E0; [reflexivity|].
      apply Nat.ltb_ge in E0. lia.
Qed.


Lemma type_is_cases (self : PredNet) (ty : string) :
  output_layer_type self = Some ty -> In ty ["A"; "Ahat"; "R"; "E"] ->
  (type_is self "A" = true) \/
  (type_is self "A" = false /\ type_is self "Ahat" = true) \/
  (type_is self "A" = false /\ type_is self "Ahat" = false /\ type_is self "R" = true) \/
  (type_is self "A" = false /\ type_is self "Ahat" = false /\ type_is self "R" = false
   /\ type_is self "E" = true).
Proof.
  intros Hty Hin. unfold type_is. rewrite Hty.
  destruct Hin as [<- | [<- | [<- | [<- | []]]]]; cbn; tauto.
Qed.

Lemma bottom_up_fits_loop (m : Model) (G : geometry) (r : list tensor) (n : nat) :
  let L := nb_layers (net m) in
  net_fits (net m) G -> convs_fit m G -> selector_fits (net m) ->
  (forall l, (l < L)%nat ->
     exists R_l, nth_error r l = Some R_l /\ tshape R_l = unit_shape G (g_R G l) l) ->
  forall k ff,
    (k + n <= L)%nat ->
    bottom_up_fits m G k ff ->
    exists ff',
      foldM (update_E m r) (seq k n) ff = Ok ff' /\
      bottom_up_fits m G (k + n) ff'.
Proof.
  intros L (Hlay & Hfmt & Hax & Hhalf) (_ & Hahat & Ha) Hsel HR.
  induction n as [|n IH]; intros k ff Hk Hinv.
  - exists ff. rewrite Nat.add_0_r. split; [reflexivity | exact Hinv].
  - cbn [seq foldM].
    destruct Hinv as (Hlen & HE & Hta & Hfp & Hout). fold L in Hta.
    destruct (HR k ltac:(lia)) as (R_k & NR & SR).
    destruct (Hahat k ltac:(fold L; lia)) as (cv & cin & Ecv & Ccv & ->).
    assert (Hnext : exists cva,
               (S k <? L)%nat = true ->
               conv m "a" k = Ok cva /\
               conv_for cva (g_fmt G) (g_S G k + (g_S G k + 0)) (g_S G (S k))).
    { destruct (S k <? L)%nat eqn:Etop.
      - apply Nat.ltb_lt in Etop.
        destruct (Ha k Etop) as (cva & cin & Ecva & (C1 & C2 & C3) & ->).
        exists cva. intros _. split; [exact Ecva|].
        split; [|split; assumption].
        rewrite C1. f_equal. lia.
      - exists cv. discriminate. }
    destruct Hnext as (cva & Hnext).
    destruct (update_E_total m r k ff (g_fmt G) (g_samples G) (g_S G k) (g_R G k)
                (g_S G (S k)) (g_rows G k) (g_cols G k) R_k cv cva
                Hlay Hfmt Hax Hlen NR SR (Hta ltac:(lia)) Ecv Ccv Hnext)
      as (Ahat_k & E_k & ff1 & E & SAhat & SE & He & Hfp1 & Hout1 & Ha1).
    rewrite E.
    replace (k + S n)%nat with (S k + n)%nat by lia.
    apply IH; [lia|].
    unfold bottom_up_fits. cbv zeta. fold L.
    assert (SE' : tshape E_k = unit_shape G (2 * g_S G k) k).
    { rewrite SE. apply pos4_eq; [lia | reflexivity | reflexivity]. }
    split; [rewrite He, length_app; cbn [List.length]; lia|].
    split; [|split; [|split]].
    + intros l Hl. rewrite He. destruct (Nat.eq_dec l k) as [-> | Hne].
      * exists E_k. split; [rewrite <- Hlen; apply nth_error_snoc | exact SE'].
      * destruct (HE l ltac:(lia)) as (E_l & NE & SEl).
        exists E_l. split; [apply nth_error_app_Some; exact NE | exact SEl].
    + intros Hk'. fold L in Ha1.
      assert (Etop : (S k <? L)%nat = true) by (apply Nat.ltb_lt; exact Hk').
      rewrite Etop in Ha1. rewrite Ha1.
      destruct (Hhalf k Hk') as (_ & E1 & _ & E2).
      apply pos4_eq; [reflexivity | exact E1 | exact E2].
    + intros _. rewrite Hfp1. destruct k as [|k].
      * exists Ahat_k. split; [reflexivity | exact SAhat].
      * cbn [Nat.eqb]. apply Hfp. lia.
    + intros j Hnum Hj Hty. rewrite Hout1. unfold pick_output.
      unfold layer_is. rewrite Hnum.
      destruct (Nat.eqb j k) eqn:Ejk.
      * apply Nat.eqb_eq in Ejk. subst j.
        destruct (output_layer_type (net m)) as [ty|] eqn:Ety; [|congruence].
        destruct (Hsel ty Ety) as (Hin & _).
        unfold selected_channels.
        destruct (type_is_cases (net m) ty Ety Hin)
          as [E1 | [(E1 & E2) | [(E1 & E2 & E3) | (E1 & E2 & E3 & E4)]]].
        -- rewrite E1. exists (ff_a ff). split; [reflexivity | apply Hta; lia].
        -- rewrite E1, E2. exists Ahat_k. split; [reflexivity | exact SAhat].
        -- rewrite E1, E2, E3. exists R_k. split; [reflexivity | exact SR].
        -- rewrite E1, E2, E3, E4. exists E_k. split; [reflexivity | exact SE'].
      * apply Nat.eqb_neq in Ejk. apply Hout; [exact Hnum | lia | exact Hty].
Qed.


Lemma K_batch_flatten_shape (x : tensor) (n : Z) (rest : shape) :
  tshape x = n :: rest ->
  exists flat, K_batch_flatten x = Ok flat /\ tshape flat = [n; prod rest].
Proof.
  intros E. unfold K_batch_flatten. rewrite E. eexists. split; reflexivity.
Qed.

Lemma K_mean_rows_shape (x : tensor) (n d : Z) :
  tshape x = [n; d] ->
  exists y, K_mean_rows x = Ok y /\ tshape y = [n; 1].
Proof.
  intros E. unfold K_mean_rows. rewrite E. eexists. split; reflexivity.
Qed.

Lemma K_concatenate_columns (x y : tensor) (n d1 d2 : Z) :
  tshape x = [n; d1] -> tshape y = [n; d2] ->
  K_concatenate [x; y] (-1) = Ok (concatenate [x; y] (-1)) /\
  tshape (concatenate [x; y] (-1)) = [n; d1 + (d2 + 0)].
Proof.
  intros Ex Ey. split.
  - apply K_concatenate_ok with (k := 1%nat).
    + rewrite Ex. reflexivity.
    + rewrite Ex. cbn. lia.
    + cbn [forallb]. rewrite Ex, Ey. cbn. rewrite !shape_eqb_refl. reflexivity.
  - unfold concatenate. cbv zeta. rewrite Ex. cbn. rewrite Ex, Ey. reflexivity.
Qed.

Lemma unit_shape_head (G : geometry) (chan : Z) (l : nat) :
  layout (g_fmt G) ->
  exists rest, unit_shape G chan l = g_samples G :: rest.
Proof.
  intros [E | E]; unfold unit_shape; rewrite E; eexists; reflexivity.
Qed.

Lemma all_errors_loop (self : PredNet) (N : Z) (e : list tensor) (n : nat) :
  (forall l, (l < nb_layers self)%nat ->
     exists E_l rest, nth_error e l = Some E_l /\ tshape E_l = N :: rest) ->
  forall k acc,
    (k + n <= nb_layers self)%nat ->
    ((0 < k)%nat -> exists ae d, acc = Some ae /\ tshape ae = [N; d] /\ d = Z.of_nat k) ->
    exists acc',
      foldM (fun l all_error =>
               e_l <- getitem e l ;;
               flat <- K_batch_flatten e_l ;;
               layer_error <- K_mean_rows flat ;;
               if Nat.eqb l 0 then Ok (Some layer_error)
               else prev <- unbound "all_error" all_error ;;
                    x <- K_concatenate [prev; layer_error] (-1) ;;
                    Ok (Some x))
            (seq k n) acc = Ok acc' /\
      ((0 < k + n)%nat ->
       exists ae d, acc' = Some ae /\ tshape ae = [N; d] /\ d = Z.of_nat (k + n)).
Proof.
  intros He. induction n as [|n IH]; intros k acc Hk Hacc.
  - exists acc. rewrite Nat.add_0_r. split; [reflexivity | exact Hacc].
  - cbn [seq foldM].
    destruct (He k ltac:(lia)) as (E_k & rest & NE & SE).
    rewrite (proj2 (getitem_Ok e k E_k) NE). cbn [Py.bind].
    destruct (K_batch_flatten_shape E_k N rest SE) as (flat & -> & Sflat). cbn [Py.bind].
    destruct (K_mean_rows_shape flat N (prod rest) Sflat) as (le & -> & Sle). cbn [Py.bind].
    replace (k + S n)%nat with (S k + n)%nat by lia.
    destruct k as [|k].
    + cbn [Nat.eqb]. apply IH; [lia|].
      intros _. exists le, 1. split; [reflexivity|]. split; [exact Sle | reflexivity].
    + cbn [Nat.eqb].
      destruct (Hacc ltac:(lia)) as (ae & d & -> & Sae & Hd). cbn [unbound Py.bind].
      destruct (K_concatenate_columns ae le N d 1 Sae Sle) as (-> & Scat). cbn [Py.bind].
      apply IH; [lia|].
      intros _. exists (concatenate [ae; le] (-1)), (d + (1 + 0)).
      split; [reflexivity|]. split; [exact Scat | lia].
Qed.

Lemma all_errors_total (self : PredNet) (N : Z) (e : list tensor) :
  (0 < nb_layers self)%nat ->
  (forall l, (l < nb_layers self)%nat ->
     exists E_l rest, nth_error e l = Some E_l /\ tshape E_l = N :: rest) ->
  exists ae, all_errors self e = Ok (Some ae)
             /\ tshape ae = [N; Z.of_nat (nb_layers self)].
Proof.
  intros HL He. unfold all_errors, range.
  destruct (all_errors_loop self N e (nb_layers self) He 0%nat None ltac:(lia))
    as (acc' & E & Hacc).
  { intros Hk. lia. }
  destruct (Hacc HL) as (ae & d & -> & Sae & ->).
  exists ae. split; [exact E | exact Sae].
Qed.


Lemma nth_error_units (R C E : list tensor) (carried : list item) (L l : nat) :
  List.length R = L -> List.length C = L -> List.length E = L -> (l < L)%nat ->
  let st := (map Tensor R ++ map Tensor C ++ map Tensor E ++ carried)%list in
  nth_error st l = option_map Tensor (nth_error R l) /\
  nth_error st (L + l) = option_map Tensor (nth_error C l) /\
  nth_error st (2 * L + l) = option_map Tensor (nth_error E l).
Proof.
  intros HR HC HE Hl st. subst st. repeat split.
  - rewrite nth_error_app1 by (rewrite length_map; lia). apply nth_error_map.
  - rewrite nth_error_app2 by (rewrite length_map; lia).
    rewrite length_map, HR. replace (L + l - L)%nat with l by lia.
    rewrite nth_error_app1 by (rewrite length_map; lia). apply nth_error_map.
  - rewrite nth_error_app2 by (rewrite length_map; lia).
    rewrite length_map, HR. replace (2 * L + l - L)%nat with (L + l)%nat by lia.
    rewrite nth_error_app2 by (rewrite length_map; lia).
    rewrite length_map, HC. replace (L + l - L)%nat with l by lia.
    rewrite nth_error_app1 by (rewrite length_map; lia). apply nth_error_map.
Qed.

(** The body of a step on a fitting state and input returns, with an output
    of the shape of the mode and a fitting next state. *)
Lemma recurrence_total (m : Model) (G : geometry) (a : tensor) (t : option Z)
    (states : list item) :
  let self := net m in
  let L := nb_layers self in
  net_fits self G -> convs_fit m G -> selector_fits self ->
  states_fit G L states -> (0 < L)%nat ->
  tshape a = unit_shape G (g_S G 0) 0 ->
  exists output units fp,
    recurrence m a t states
    = Ok (output, (units ++ match t with
                            | Some t => [Tensor fp; Int (t + 1)]
                            | None => []
                            end)%list) /\
    tshape output = output_shape self G /\
    tshape fp = unit_shape G (g_S G 0) 0 /\
    List.length units = (3 * L)%nat /\
    forall carried, states_fit G L (units ++ carried).
Proof.
  intros self L Hnet Hconvs Hsel Hst HL Sa.
  unfold recurrence. cbv zeta. fold self. fold L.
  destruct (top_down_fits_loop m G states L Hnet Hconvs Hst ([], [], None))
    as (vars' & Etd & Htd).
  { apply le_n. }
  { unfold top_down_fits. fold self. fold L. rewrite Nat.sub_diag.
    split; [reflexivity|]. split; [reflexivity|]. split; intros; lia. }
  fold self in Etd. fold L in Etd. rewrite Etd. cbn [Py.bind].
  destruct vars' as [[c r] r_up].
  destruct Htd as (Hr & Hc & Hl & _). fold self in Hr, Hc, Hl. fold L in Hr, Hc, Hl.
  rewrite Nat.sub_0_r in Hr, Hc.
  assert (HR : forall l, (l < L)%nat ->
             exists R_l, nth_error r l = Some R_l /\ tshape R_l = unit_shape G (g_R G l) l).
  { intros l Hlt. destruct (Hl l ltac:(lia)) as (R_l & C_l & N1 & _ & S1 & _).
    rewrite Nat.sub_0_r in N1. eauto. }
  destruct (bottom_up_fits_loop m G r L Hnet Hconvs Hsel HR 0%nat
              {| ff_a := a; ff_e := []; ff_frame_prediction := None; ff_output := None |})
    as (ff & Ebu & Hbu).
  { apply le_n. }
  { unfold bottom_up_fits. cbv zeta. cbn [ff_e ff_a ff_frame_prediction ff_output].
    split; [reflexivity|]. split; [intros; lia|]. split; [intros _; exact Sa|].
    split; intros; lia. }
  cbn [Nat.add] in Hbu. unfold range. fold self in Ebu. fold L in Ebu.
  rewrite Ebu. cbn [Py.bind].
  destruct Hbu as (He & HE & _ & Hfp & Hout). fold self in HE, Hfp, Hout.
  destruct (Hfp HL) as (fp & Efp & Sfp).
  destruct Hnet as (Hlay & Hnet').
  assert (Hout_total : exists output,
             match output_layer_type self with
             | None =>
                 if (output_mode self =? "prediction")%string
                 then unbound "frame_prediction" (ff_frame_prediction ff)
                 else
                   all_error <- all_errors self (ff_e ff) ;;
                   if (output_mode self =? "error")%string
                   then unbound "all_error" all_error
                   else
                     frame_prediction <- unbound "frame_prediction"
                                           (ff_frame_prediction ff) ;;
                     flat <- K_batch_flatten frame_prediction ;;
                     all_error <- unbound "all_error" all_error ;;
                     K_concatenate [flat; all_error] (-1)
             | Some _ => unbound "output" (ff_output ff)
             end = Ok output /\ tshape output = output_shape self G).
  { unfold output_shape. destruct (output_layer_type self) as [ty|] eqn:Ety.
    - destruct (Hsel ty Ety) as (_ & l & Hnum & Hlt). rewrite Hnum.
      destruct (Hout l Hnum Hlt) as (x & -> & Sx).
      { fold self. congruence. }
      exists x. split; [reflexivity | exact Sx].
    - destruct (output_mode self =? "prediction")%string.
      + rewrite Efp. exists fp. split; [reflexivity | exact Sfp].
      + destruct (all_errors_total self (g_samples G) (ff_e ff) HL) as (ae & -> & Sae).
        { intros l Hlt. destruct (HE l Hlt) as (E_l & NE & SE).
          destruct (unit_shape_head G (2 * g_S G l) l Hlay) as (rest & Hrest).
          exists E_l, rest. split; [exact NE | congruence]. }
        cbn [Py.bind].
        destruct (output_mode self =? "error")%string.
        * exists ae. split; [reflexivity | exact Sae].
        * rewrite Efp. cbn [unbound Py.bind].
          destruct (unit_shape_head G (g_S G 0) 0 Hlay) as (rest & Hrest).
          destruct (K_batch_flatten_shape fp (g_samples G) rest ltac:(congruence))
            as (flat & -> & Sflat).
          cbn [Py.bind].
          destruct (K_concatenate_columns flat ae _ _ _ Sflat Sae) as (-> & Scat).
          eexists. split; [reflexivity|]. rewrite Scat, Hrest. cbn [tl].
          f_equal. f_equal. lia. }
  destruct Hout_total as (output & -> & Sout). cbn [Py.bind].
  exists output, (map Tensor r ++ map Tensor c ++ map Tensor (ff_e ff))%list, fp.
  split; [|split; [exact Sout | split; [exact Sfp | split]]].
  - destruct t as [t|].
    + rewrite Efp. cbn [unbound Py.bind]. rewrite <- !app_assoc. reflexivity.
    + rewrite app_nil_r. reflexivity.
  - rewrite !length_app, !length_map. fold L in He. lia.
  - intros carried. rewrite <- !app_assoc. intros l Hlt. fold L in He.
    destruct (nth_error_units r c (ff_e ff) carried L l Hr Hc He Hlt) as (N1 & N2 & N3).
    destruct (Hl l ltac:(lia)) as (R_l & C_l & NR & NC & SR & SC).
    rewrite Nat.sub_0_r in NR, NC.
    destruct (HE l Hlt) as (E_l & NE & SE).
    exists R_l, C_l, E_l. rewrite N1, N2, N3, NR, NC, NE.
    repeat split; assumption.
Qed.


(** A step on a fitting state and frame returns, with an output of the shape
    of the mode and a fitting next state. *)
Lemma step_total (m : Model) (G : geometry) (a : tensor) (states : list item) :
  let self := net m in
  let L := nb_layers self in
  net_fits self G -> convs_fit m G -> selector_fits self ->
  states_fit G L states -> carried_fits self G states -> (0 < L)%nat ->
  tshape a = unit_shape G (g_S G 0) 0 ->
  exists output states',
    step m a states = Ok (output, states') /\
    tshape output = output_shape self G /\
    states_fit G L states' /\ carried_fits self G states'.
Proof.
  intros self L Hnet Hconvs Hsel Hst Hcar HL Sa.
  unfold step, step_input. fold self. unfold carried_fits in *. fold self in Hcar.
  destruct (extrap_start_time self) as [t_extrap|] eqn:Eex.
  - destruct Hcar as (t & prev & -> & -> & Sprev). cbn [Py.bind as_int as_tensor fst snd].
    destruct (recurrence_total m G (K_switch (t_extrap <=? t) prev a) (Some t) states
                Hnet Hconvs Hsel Hst HL) as (output & units & fp & E & Sout & Sfp & Hlen & Hfit).
    { unfold K_switch. destruct (t_extrap <=? t); assumption. }
    rewrite E. eexists _, _. split; [reflexivity|]. split; [exact Sout|].
    split; [apply Hfit|].
    exists (t + 1), fp.
    destruct (index_last units (Tensor fp) (Int (t + 1))) as (I1 & I2).
    repeat split; assumption.
  - cbn [Py.bind fst snd].
    destruct (recurrence_total m G a None states Hnet Hconvs Hsel Hst HL Sa)
      as (output & units & fp & E & Sout & Sfp & Hlen & Hfit).
    rewrite E. eexists _, _. split; [reflexivity|]. split; [exact Sout|].
    split; [apply Hfit | exact I].
Qed.

End Geometry.

(** ** Constructed networks fit their geometry *)

Section Agreement.
Context {T : Type} `{Backend T}.

Local Abbreviation tensor := (@tensor T).
Local Abbreviation item := (@item T).
Local Abbreviation Model := (@Model T).
Local Abbreviation Conv2D := (@Conv2D T).
Local Abbreviation PredNet := (@PredNet T).
Local Abbreviation Config := (@Config T).
Local Abbreviation Activation := (@Activation T).


Lemma eighths (h : Z) :
  8 * h / 2 ^ Z.of_nat 0 = 8 * h /\ 8 * h / 2 ^ Z.of_nat 1 = 4 * h /\
  8 * h / 2 ^ Z.of_nat 2 = 2 * h /\ 8 * h / 2 ^ Z.of_nat 3 = h.
Proof.
  change (2 ^ Z.of_nat 0) with 1. change (2 ^ Z.of_nat 1) with 2.
  change (2 ^ Z.of_nat 2) with 4. change (2 ^ Z.of_nat 3) with 8.
  repeat split.
  - apply Z.div_1_r.
  - replace (8 * h) with (4 * h * 2) by lia. apply Z.div_mul. lia.
  - replace (8 * h) with (2 * h * 4) by lia. apply Z.div_mul. lia.
  - replace (8 * h) with (h * 8) by lia. apply Z.div_mul. lia.
Qed.

Lemma halving_eighths (self : PredNet) (N h w : Z) :
  halving (geometry_of self N (8 * h) (8 * w)) 4.
Proof.
  intros l Hl. unfold geometry_of. cbn [g_rows g_cols].
  destruct (eighths h) as (h0 & h1 & h2 & h3).
  destruct (eighths w) as (w0 & w1 & w2 & w3).
  assert (D4 : forall z, 4 * z / 2 = 2 * z).
  { intros z. replace (4 * z) with (2 * z * 2) by lia. apply Z.div_mul. lia. }
  assert (D2 : forall z, 2 * z / 2 = z).
  { intros z. replace (2 * z) with (z * 2) by lia. apply Z.div_mul. lia. }
  assert (D8 : forall z, 8 * z / 2 = 4 * z).
  { intros z. replace (8 * z) with (4 * z * 2) by lia. apply Z.div_mul. lia. }
  destruct l as [|[|[|l]]]; [| | |lia].
  - rewrite h0, h1, w0, w1, !D8. lia.
  - rewrite h1, h2, w1, w2, !D4. lia.
  - rewrite h2, h3, w2, w3, !D2. lia.
Qed.

(** What [__init__] leaves in [self], in the form the proofs use. *)
Lemma init_facts (kw : Config) (self : PredNet) :
  __init__ kw = Ok self ->
  exists s0 s1 s2 s3 r0 r1 r2 r3 ka0 ka1 ka2 kh0 kh1 kh2 kh3 layer,
    stack_sizes self = [s0; s1; s2; s3] /\
    R_stack_sizes self = [r0; r1; r2; r3] /\
    A_filt_sizes self = [ka0; ka1; ka2] /\
    Ahat_filt_sizes self = [kh0; kh1; kh2; kh3] /\
    R_filt_sizes self = [3; 3; 3; 3] /\
    nb_layers self = 4%nat /\
    layout (data_format self) /\
    channel_axis self = channel_axis_of (data_format self) /\
    row_axis self = (if (data_format self =? "channels_first")%string then -2 else -3) /\
    column_axis self = (if (data_format self =? "channels_first")%string then -1 else -2) /\
    str_in (output_mode self) (default_output_modes ++ layer_output_modes 4) = true /\
    output_layer 4 (output_mode self) = Ok layer /\
    output_layer_type self = fst layer /\
    output_layer_num self = snd layer.
Proof.
  intros E.
  destruct (init_inv _ _ E)
    as (ea & aa & la & ia & layer & H1 & H2 & H3 & H4 & _ & _ & _ & _ & H9 & H10 & H11 & ->).
  unfold instance_of. cbn.
  destruct (kw_stack_sizes kw) as [|s0 [|s1 [|s2 [|s3 [|? ?]]]]]; try discriminate H1.
  destruct (kw_R_stack_sizes kw) as [|r0 [|r1 [|r2 [|r3 [|? ?]]]]]; try discriminate H2.
  destruct (kw_A_filt_sizes kw) as [|ka0 [|ka1 [|ka2 [|? ?]]]]; try discriminate H3.
  destruct (kw_Ahat_filt_sizes kw) as [|kh0 [|kh1 [|kh2 [|kh3 [|? ?]]]]]; try discriminate H4.
  exists s0, s1, s2, s3, r0, r1, r2, r3, ka0, ka1, ka2, kh0, kh1, kh2, kh3, layer.
  repeat (split; [first [reflexivity | assumption | (apply layout_of_check; assumption)]|]).
  reflexivity.
Qed.


(** the modes the constructor accepts at four layers, and how it reads each *)
Lemma mode_cases (mode : string) (layer : option string * option nat) :
  str_in mode (default_output_modes ++ layer_output_modes 4) = true ->
  output_layer 4 mode = Ok layer ->
  (In mode ["prediction"; "error"; "all"] /\ layer = (None, None)) \/
  exists ty l,
    In ty ["R"; "E"; "A"; "Ahat"] /\ (l < 4)%nat /\
    mode = (ty ++ str l)%string /\ layer = (Some ty, Some l).
Proof.
  intros Hin Hl. unfold str_in in Hin. apply existsb_exists in Hin.
  destruct Hin as (x & Hx & Heq). apply String.eqb_eq in Heq. subst x.
  vm_compute in Hx.
  repeat (destruct Hx as [Hx | Hx];
          [subst mode; vm_compute in Hl; injection Hl as <- |]); try contradiction.
  1-3: left; split; [cbn; tauto | reflexivity].
  all: right.
  1: exists "R", 0%nat. 2: exists "E", 0%nat. 3: exists "A", 0%nat. 4: exists "Ahat", 0%nat.
  5: exists "R", 1%nat. 6: exists "E", 1%nat. 7: exists "A", 1%nat. 8: exists "Ahat", 1%nat.
  9: exists "R", 2%nat. 10: exists "E", 2%nat. 11: exists "A", 2%nat. 12: exists "Ahat", 2%nat.
  13: exists "R", 3%nat. 14: exists "E", 3%nat. 15: exists "A", 3%nat. 16: exists "Ahat", 3%nat.
  all: split; [cbn; tauto | split; [lia | split; reflexivity]].
Qed.


Lemma selector_fits_init (kw : Config) (self : PredNet) :
  __init__ kw = Ok self -> selector_fits self.
Proof.
  intros E.
  destruct (init_facts _ _ E)
    as (s0 & s1 & s2 & s3 & r0 & r1 & r2 & r3 & ka0 & ka1 & ka2 & kh0 & kh1 & kh2 & kh3
        & layer & _ & _ & _ & _ & _ & HL & _ & _ & _ & _ & Hmode & Hlayer & Hty & Hnum).
  intros ty Ety. rewrite Hty in Ety. rewrite Hnum, HL.
  destruct (mode_cases _ _ Hmode Hlayer) as [(_ & ->) | (ty' & l & Hin & Hl & _ & ->)].
  - discriminate.
  - cbn [fst snd] in *. injection Ety as ->. split.
    + cbn [In] in *. tauto.
    + exists l. split; [reflexivity | exact Hl].
Qed.

Lemma net_fits_init (kw : Config) (self : PredNet) (N h w : Z) :
  __init__ kw = Ok self -> net_fits self (geometry_of self N (8 * h) (8 * w)).
Proof.
  intros E.
  destruct (init_facts _ _ E)
    as (s0 & s1 & s2 & s3 & r0 & r1 & r2 & r3 & ka0 & ka1 & ka2 & kh0 & kh1 & kh2 & kh3
        & layer & _ & _ & _ & _ & _ & HL & Hlay & Hax & _).
  split; [exact Hlay|]. split; [reflexivity|]. split; [exact Hax|].
  rewrite HL. apply halving_eighths.
Qed.

(** The convolutions of a built model fit the geometry when the
    representations of the layers below the top have the channels of their
    targets: the A convolutions are built for twice R_stack_sizes[l]
    channels. *)
Lemma convs_fit_built (kw : Config) (self : PredNet)
    (wt : string -> nat -> list T * list T) (input_shape : shape) (N rows cols : Z) :
  __init__ kw = Ok self ->
  firstn 3 (R_stack_sizes self) = firstn 3 (stack_sizes self) ->
  convs_fit (built_model self input_shape wt) (geometry_of self N rows cols).
Proof.
  intros E Heq.
  destruct (init_facts _ _ E)
    as (s0 & s1 & s2 & s3 & r0 & r1 & r2 & r3 & ka0 & ka1 & ka2 & kh0 & kh1 & kh2 & kh3
        & layer & HS & HR & _ & _ & _ & HL & _).
  rewrite HS, HR in Heq. cbn [firstn] in Heq. injection Heq as -> -> ->.
  unfold convs_fit. cbn [net built_model]. rewrite HL.
  split; [|split].
  - intros l c Hl Hin. unfold conv, built_model, gate_channels, geometry_of, conv_for.
    rewrite HL, HS, HR. cbn [g_R g_S g_fmt].
    destruct l as [|[|[|[|l]]]]; [| | | |lia];
      cbn [In] in Hin; destruct Hin as [<- | [<- | [<- | [<- | []]]]];
      (eexists _, _; split; [reflexivity|]; split; [repeat split|];
       cbn [nth Nat.ltb Nat.leb Nat.add];
       repeat match goal with
              | |- context [Z.ltb ?a ?b] =>
                  let v := eval vm_compute in (Z.ltb a b) in change (Z.ltb a b) with v
              end;
       cbv iota; lia).
  - intros l Hl. unfold conv, built_model, geometry_of, conv_for.
    rewrite HL, HS, HR. cbn [g_R g_S g_fmt].
    destruct l as [|[|[|[|l]]]]; [| | | |lia];
      (eexists _, _; split; [reflexivity|]; split; [repeat split|]; reflexivity).
  - intros l Hl. unfold conv, built_model, geometry_of, conv_for.
    rewrite HL, HS, HR. cbn [g_R g_S g_fmt].
    destruct l as [|[|[|l]]]; [| | |lia];
      (eexists _, _; split; [reflexivity|]; split; [repeat split|]; reflexivity).
Qed.

Lemma map_item_shape_cons (states : list item) (o : option shape)
    (rest : list (option shape)) :
  map item_shape states = o :: rest ->
  exists v states', states = v :: states' /\ item_shape v = o
                    /\ map item_shape states' = rest.
Proof.
  destruct states as [|v states']; [discriminate|]. cbn [map].
  intros E. injection E as E1 E2. exists v, states'. repeat split; assumption.
Qed.

Lemma item_shape_Some (v : item) (s : shape) :
  item_shape v = Some s -> exists x, v = Tensor x /\ tshape x = s.
Proof.
  destruct v as [x|t]; [|discriminate]. cbn. intros E. injection E as E.
  exists x. split; [reflexivity | exact E].
Qed.

Lemma item_shape_None (v : item) : item_shape v = None -> exists t, v = Int t.
Proof. destruct v as [x|t]; [discriminate|]. intros _. exists t. reflexivity. Qed.

(** a state of the shapes of [state_shapes] fits the geometry *)
Lemma states_fit_shapes (self : PredNet) (N rows cols : Z) (states : list item) :
  nb_layers self = 4%nat ->
  map item_shape states = state_shapes self N rows cols ->
  states_fit (geometry_of self N rows cols) 4 states /\
  carried_fits self (geometry_of self N rows cols) states.
Proof.
  intros HL Hs. unfold state_shapes in Hs. rewrite HL in Hs.
  cbn [range seq map app] in Hs.
  do 12 (apply map_item_shape_cons in Hs;
         let v := fresh "v" in let E := fresh "E" in
         destruct Hs as (v & ? & -> & E & Hs);
         apply item_shape_Some in E; destruct E as (? & -> & E)).
  unfold carried_fits, extrapolating in *.
  destruct (extrap_start_time self) as [T0|].
  - apply map_item_shape_cons in Hs. destruct Hs as (vp & ? & -> & Ep & Hs).
    apply map_item_shape_cons in Hs. destruct Hs as (vt & ? & -> & Et & Hs).
    apply map_eq_nil in Hs. subst.
    apply item_shape_Some in Ep. destruct Ep as (prev & -> & Sprev).
    apply item_shape_None in Et. destruct Et as (t & ->).
    split.
    + intros l Hl. unfold unit_shape, geometry_of. cbn [g_R g_S g_fmt g_samples g_rows g_cols].
      destruct l as [|[|[|[|l]]]]; [| | | |lia];
        (eexists _, _, _; cbn [nth_error Nat.add Nat.mul];
         repeat split; assumption).
    + exists t, prev. split; [reflexivity|]. split; [reflexivity|].
      unfold unit_shape, geometry_of. cbn [g_R g_S g_fmt g_samples g_rows g_cols].
      change (2 ^ Z.of_nat 0) with 1. rewrite !Z.div_1_r. exact Sprev.
  - apply map_eq_nil in Hs. subst. split; [|exact I].
    intros l Hl. unfold unit_shape, geometry_of. cbn [g_R g_S g_fmt g_samples g_rows g_cols].
    destruct l as [|[|[|[|l]]]]; [| | | |lia];
      (eexists _, _, _; cbn [nth_error Nat.add Nat.mul];
       repeat split; assumption).
Qed.

End Agreement.

(** ** Further properties of the constructor and of [step] *)

Section ConstructionFacts.
Context {T : Type} `{Backend T}.

Local Abbreviation PredNet := (@PredNet T).
Local Abbreviation Config := (@Config T).
Local Abbreviation Activation := (@Activation T).

(** the [__name__] of the function [activations.get] returns for a name is
    that name *)
Lemma activations_get_act_name (identifier : string) (act : Activation) :
  activations_get identifier = Ok act -> act_name act = identifier.
Proof.
  unfold activations_get.
  destruct (identifier =? "linear")%string eqn:E1.
  - apply String.eqb_eq in E1. intros E; injection E as <-. symmetry. exact E1.
  - destruct (identifier =? "relu")%string eqn:E2.
    + apply String.eqb_eq in E2. intros E; injection E as <-. symmetry. exact E2.
    + destruct (elementwise identifier) as [f|]; [|discriminate].
      intros E; injection E as <-. reflexivity.
Qed.

Lemma activations_get_unknown (identifier : string) (e : exn) :
  activations_get identifier = Raise e ->
  e = ValueError ("Unknown activation function:" ++ identifier).
Proof.
  unfold activations_get.
  destruct (identifier =? "linear")%string; [discriminate|].
  destruct (identifier =? "relu")%string; [discriminate|].
  destruct (elementwise identifier); [discriminate|].
  intros E; injection E as <-. reflexivity.
Qed.

(** X1. The constructor returns an instance exactly when the network has
    four layers (the lists of sizes have lengths 4, 4, 3 and 4), the four
    activation names resolve, the output mode is one of the accepted modes
    of four layers and the layout is one of the two layouts; the instance
    then holds the caller's lists, the constant (3, 3, 3, 3) as
    R_filt_sizes, and the axes of the layout. *)
Theorem construction_succeeds_iff (kw : Config) (self : PredNet) :
  __init__ kw = Ok self <->
  exists ea aa la ia layer,
    List.length (kw_stack_sizes kw) = 4%nat /\
    List.length (kw_R_stack_sizes kw) = 4%nat /\
    List.length (kw_A_filt_sizes kw) = 3%nat /\
    List.length (kw_Ahat_filt_sizes kw) = 4%nat /\
    activations_get (kw_error_activation kw) = Ok ea /\
    activations_get (kw_A_activation kw) = Ok aa /\
    activations_get (kw_LSTM_activation kw) = Ok la /\
    activations_get (kw_LSTM_inner_activation kw) = Ok ia /\
    str_in (kw_output_mode kw) (default_output_modes ++ layer_output_modes 4) = true /\
    output_layer 4 (kw_output_mode kw) = Ok layer /\
    str_in (kw_data_format kw) ["channels_last"; "channels_first"] = true /\
    self = instance_of kw ea aa la ia layer.
Proof.
  split.
  - apply init_inv.
  - intros (ea & aa & la & ia & layer & H1 & H2 & H3 & H4 & H5 & H6 & H7 & H8 & H9
            & H10 & H11 & ->).
    apply init_complete; assumption.
Qed.

(** X2. A list of sizes of the wrong length, or a number of layers other
    than four, makes the constructor raise an AssertionError. *)
Theorem mismatched_lengths_rejected (kw : Config) :
  List.length (kw_R_stack_sizes kw) <> List.length (kw_stack_sizes kw) \/
  Z.of_nat (List.length (kw_A_filt_sizes kw))
    <> Z.of_nat (List.length (kw_stack_sizes kw)) - 1 \/
  List.length (kw_Ahat_filt_sizes kw) <> List.length (kw_stack_sizes kw) \/
  List.length (kw_stack_sizes kw) <> 4%nat ->
  exists msg, __init__ kw = Raise (AssertionError msg).
Proof.
  intros Hbad.
  destruct (Nat.eq_dec (List.length (kw_R_stack_sizes kw)) (List.length (kw_stack_sizes kw)))
    as [E1 | N1].
  2: { eexists. apply init_rejects_R_stack_sizes. exact N1. }
  destruct (Z.eq_dec (Z.of_nat (List.length (kw_A_filt_sizes kw)))
                     (Z.of_nat (List.length (kw_stack_sizes kw)) - 1)) as [E2 | N2].
  2: { eexists. apply init_rejects_A_filt_sizes; assumption. }
  destruct (Nat.eq_dec (List.length (kw_Ahat_filt_sizes kw))
                       (List.length (kw_stack_sizes kw))) as [E3 | N3].
  2: { eexists. apply init_rejects_Ahat_filt_sizes; assumption. }
  destruct Hbad as [Hb | [Hb | [Hb | Hb]]]; try contradiction.
  eexists. apply init_rejects_depth; assumption.
Qed.

(** X3. With four layers and lists of the right lengths, an activation name
    the framework does not know makes the constructor raise a ValueError
    that names an unknown activation. *)
Theorem unknown_activation_rejected (kw : Config) :
  List.length (kw_stack_sizes kw) = 4%nat ->
  List.length (kw_R_stack_sizes kw) = 4%nat ->
  List.length (kw_A_filt_sizes kw) = 3%nat ->
  List.length (kw_Ahat_filt_sizes kw) = 4%nat ->
  is_ok (activations_get (kw_error_activation kw))
  && is_ok (activations_get (kw_A_activation kw))
  && is_ok (activations_get (kw_LSTM_activation kw))
  && is_ok (activations_get (kw_LSTM_inner_activation kw)) = false ->
  exists name,
    In name [kw_error_activation kw; kw_A_activation kw; kw_LSTM_activation kw;
             kw_LSTM_inner_activation kw] /\
    __init__ kw = Raise (ValueError ("Unknown activation function:" ++ name)).
Proof.
  intros H1 H2 H3 H4 Hbad. unfold __init__. cbv zeta. rewrite H1, H2, H3, H4.
  cbn [List.length Nat.eqb Z.of_nat Z.eqb assert Py.bind].
  change (Z.of_nat 3 =? Z.of_nat 4 - 1) with true. cbn [assert Py.bind].
  destruct (activations_get (kw_error_activation kw)) as [ea|e] eqn:E1.
  2: { apply activations_get_unknown in E1. subst e. eexists. split; [|reflexivity].
       cbn; tauto. }
  destruct (activations_get (kw_A_activation kw)) as [aa|e] eqn:E2.
  2: { apply activations_get_unknown in E2. subst e. eexists. split; [|reflexivity].
       cbn; tauto. }
  destruct (activations_get (kw_LSTM_activation kw)) as [la|e] eqn:E3.
  2: { apply activations_get_unknown in E3. subst e. eexists. split; [|reflexivity].
       cbn; tauto. }
  destruct (activations_get (kw_LSTM_inner_activation kw)) as [ia|e] eqn:E4.
  2: { apply activations_get_unknown in E4. subst e. eexists. split; [|reflexivity].
       cbn; tauto. }
  discriminate Hbad.
Qed.

(** X4. With four layers, lists of the right lengths and known activations,
    an output mode outside the accepted ones (the three default modes and
    the unit types R, E, A, Ahat followed by a layer number below four)
    makes the constructor raise the AssertionError that quotes the mode;
    with an accepted mode, a layout other than the two known ones raises
    the AssertionError of the layout check. *)
Theorem invalid_mode_or_layout_rejected (kw : Config) :
  List.length (kw_stack_sizes kw) = 4%nat ->
  List.length (kw_R_stack_sizes kw) = 4%nat ->
  List.length (kw_A_filt_sizes kw) = 3%nat ->
  List.length (kw_Ahat_filt_sizes kw) = 4%nat ->
  is_ok (activations_get (kw_error_activation kw))
  && is_ok (activations_get (kw_A_activation kw))
  && is_ok (activations_get (kw_LSTM_activation kw))
  && is_ok (activations_get (kw_LSTM_inner_activation kw)) = true ->
  (str_in (kw_output_mode kw) (default_output_modes ++ layer_output_modes 4) = false ->
   __init__ kw = Raise (AssertionError ("Invalid output_mode: " ++ kw_output_mode kw))) /\
  (str_in (kw_output_mode kw) (default_output_modes ++ layer_output_modes 4) = true ->
   str_in (kw_data_format kw) ["channels_last"; "channels_first"] = false ->
   __init__ kw = Raise (AssertionError
                          "data_format must be in {channels_last, channels_first}")).
Proof.
  intros H1 H2 H3 H4 Hacts. unfold __init__. cbv zeta. rewrite H1, H2, H3, H4.
  cbn [List.length Nat.eqb Z.of_nat Z.eqb assert Py.bind].
  change (Z.of_nat 3 =? Z.of_nat 4 - 1) with true. cbn [assert Py.bind].
  destruct (activations_get (kw_error_activation kw)) as [ea|e]; [|discriminate Hacts].
  destruct (activations_get (kw_A_activation kw)) as [aa|e]; [|discriminate Hacts].
  destruct (activations_get (kw_LSTM_activation kw)) as [la|e]; [|discriminate Hacts].
  destruct (activations_get (kw_LSTM_inner_activation kw)) as [ia|e]; [|discriminate Hacts].
  cbn [Py.bind]. split.
  - intros ->. reflexivity.
  - intros Hmode Hfmt. rewrite Hmode. cbn [assert Py.bind].
    destruct (output_layer 4 (kw_output_mode kw)) as [layer|e] eqn:El.
    + cbn [Py.bind]. rewrite Hfmt. reflexivity.
    + exfalso. unfold output_layer in El.
      destruct (str_in (kw_output_mode kw) (layer_output_modes 4)) eqn:Ein; [|discriminate].
      unfold str_in in Ein. apply existsb_exists in Ein.
      destruct Ein as (x & Hx & Heq). apply String.eqb_eq in Heq. subst x.
      set (mode := kw_output_mode kw) in *. clearbody mode.
      vm_compute in Hx.
      repeat (destruct Hx as [Hx | Hx]; [rewrite <- Hx in El; vm_compute in El; discriminate El|]).
      contradiction.
Qed.

(** X5. [get_config] of a constructed instance is the mapping of the
    caller's keywords, with the constant (3, 3, 3, 3) in the place of the
    caller's R_filt_sizes: the sizes, the names of the activations, the
    mode, the extrapolation start and the layout are read back unchanged. *)
Theorem get_config_reads_back (kw : Config) (self : PredNet) :
  __init__ kw = Ok self ->
  get_config self
  = with_sizes kw (kw_stack_sizes kw) (kw_R_stack_sizes kw) (kw_A_filt_sizes kw)
               (kw_Ahat_filt_sizes kw) [3; 3; 3; 3].
Proof.
  intros E.
  destruct (init_inv _ _ E)
    as (ea & aa & la & ia & layer & _ & _ & _ & _ & H5 & H6 & H7 & H8 & _ & _ & _ & ->).
  unfold get_config, with_sizes, instance_of. cbn.
  rewrite (activations_get_act_name _ _ H5), (activations_get_act_name _ _ H6),
          (activations_get_act_name _ _ H7), (activations_get_act_name _ _ H8).
  reflexivity.
Qed.

(** X6. Constructing again from the mapping [get_config] returns yields an
    instance with exactly the same attributes. *)
Theorem from_config_restores (kw : Config) (self : PredNet) :
  __init__ kw = Ok self -> from_config (get_config self) = Ok self.
Proof.
  intros E.
  destruct (init_inv _ _ E)
    as (ea & aa & la & ia & layer & H1 & H2 & H3 & H4 & H5 & H6 & H7 & H8 & H9 & H10
        & H11 & ->).
  unfold from_config.
  rewrite (init_complete (get_config (instance_of kw ea aa la ia layer)) ea aa la ia layer);
    cbn; try assumption; try reflexivity; try (eapply activations_get_name; eassumption).
Qed.

End ConstructionFacts.

Section ModeFacts.
Context {T : Type} `{Backend T}.

Local Abbreviation PredNet := (@PredNet T).
Local Abbreviation Config := (@Config T).

(** X7. A constructed instance is in one of the three default modes, with
    no unit type and no layer number, or its mode is a unit type among R, E,
    A, Ahat followed by the decimal of a layer number below [nb_layers], and
    these are the unit type and layer number it holds. *)
Theorem output_mode_parsed (kw : Config) (self : PredNet) :
  __init__ kw = Ok self ->
  (In (output_mode self) ["prediction"; "error"; "all"] /\
   output_layer_type self = None /\ output_layer_num self = None) \/
  exists ty l,
    In ty ["R"; "E"; "A"; "Ahat"] /\ (l < nb_layers self)%nat /\
    output_mode self = (ty ++ str l)%string /\
    output_layer_type self = Some ty /\ output_layer_num self = Some l.
Proof.
  intros E.
  destruct (init_facts _ _ E)
    as (s0 & s1 & s2 & s3 & r0 & r1 & r2 & r3 & ka0 & ka1 & ka2 & kh0 & kh1 & kh2 & kh3
        & layer & _ & _ & _ & _ & _ & HL & _ & _ & _ & _ & Hmode & Hlayer & Hty & Hnum).
  rewrite Hty, Hnum, HL.
  destruct (mode_cases _ _ Hmode Hlayer) as [(Hin & ->) | (ty & l & Hin & Hl & Hm & ->)].
  - left. split; [exact Hin | split; reflexivity].
  - right. exists ty, l. repeat split; assumption.
Qed.

End ModeFacts.

Section StepFacts.
Context {T : Type} `{Backend T}.

Local Abbreviation tensor := (@tensor T).
Local Abbreviation item := (@item T).
Local Abbreviation Model := (@Model T).
Local Abbreviation PredNet := (@PredNet T).

(** what a returned step says of the state it was given and of the state it
    returns *)
Lemma step_states (m : Model) (a : tensor) (states : list item)
    (output : tensor) (states' : list item) :
  let L := nb_layers (net m) in
  step m a states = Ok (output, states') ->
  exists a' R C A Ahat E carried,
    List.length R = L /\ List.length C = L /\ List.length E = L /\
    states' = (map Tensor R ++ map Tensor C ++ map Tensor E ++ carried)%list /\
    List.length carried = (if extrapolating (net m) then 2 else 0)%nat /\
    (forall l, (l < L)%nat ->
       exists r c e, nth_error states l = Some (Tensor r) /\
                     nth_error states (L + l) = Some (Tensor c) /\
                     nth_error states (2 * L + l) = Some (Tensor e)) /\
    (extrap_start_time (net m) = None -> a' = a) /\
    bottom_up m a' R A Ahat E /\
    selected_output (net m) R A Ahat E output.
Proof.
  intros L E. apply step_Ok in E. destruct E as (a' & t & Ein & E).
  apply recurrence_Ok in E.
  destruct E as (R & C & A & Ahat & Es & Htd & Hbu & Hsel & carried & Hst & Hc).
  exists a', R, C, A, Ahat, Es, carried.
  pose proof Htd as (HR & HC & Hlayers).
  pose proof Hbu as (_ & _ & HE & _).
  apply step_input_Ok in Ein. unfold extrapolating.
  split; [exact HR|]. split; [exact HC|]. split; [exact HE|]. split; [exact Hst|].
  split; [|split; [|split; [|split; [exact Hbu | exact Hsel]]]].
  - destruct (extrap_start_time (net m)) as [t_extrap|].
    + destruct Ein as (tt & prev & -> & _). destruct Hc as (fp & _ & ->). reflexivity.
    + destruct Ein as (_ & ->). subst carried. reflexivity.
  - intros l Hl. destruct (Hlayers l Hl) as (R_l & C_l & _ & _ & Hru).
    unfold representation_update in Hru. cbv zeta in Hru.
    destruct Hru as (r & c & e & cvi & cvf & cvo & cvc & up & N1 & N2 & N3 & _).
    exists r, c, e. repeat split; assumption.
  - intros Hnone. rewrite Hnone in Ein. destruct Ein as (-> & _). reflexivity.
Qed.

(** X8. A step on a state of fewer than [3 * nb_layers] entries raises. *)
Theorem step_short_state (m : Model) (a : tensor) (states : list item) :
  (List.length states < 3 * nb_layers (net m))%nat ->
  exists e, step m a states = Raise e.
Proof.
  intros Hlen. destruct (step m a states) as [[output states']|e] eqn:E; [|eauto].
  exfalso. apply step_states in E.
  destruct E as (a' & R & C & A & Ahat & Es & carried & _ & _ & _ & _ & _ & Hst & _).
  destruct (nb_layers (net m)) as [|n] eqn:HL; [cbn in Hlen; lia|].
  destruct (Hst n ltac:(lia)) as (r & c & e & _ & _ & N3).
  assert (Hsome : nth_error states (2 * S n + n) <> None) by congruence.
  apply nth_error_Some in Hsome. lia.
Qed.

(** X9. The state a step returns has [3 * nb_layers] entries, and two more
    (the frame prediction and the time step) exactly when the network
    extrapolates; the state it was given holds a tensor at each of its first
    [3 * nb_layers] positions. *)
Theorem step_state_length (m : Model) (a : tensor) (states : list item)
    (output : tensor) (states' : list item) :
  step m a states = Ok (output, states') ->
  List.length states'
  = (3 * nb_layers (net m) + (if extrapolating (net m) then 2 else 0))%nat /\
  forall j, (j < 3 * nb_layers (net m))%nat ->
    exists x, nth_error states j = Some (Tensor x).
Proof.
  intros E. apply step_states in E.
  destruct E as (a' & R & C & A & Ahat & Es & carried & HR & HC & HE & -> & Hcar & Hst & _).
  split.
  - rewrite !length_app, !length_map, HR, HC, HE, Hcar. lia.
  - intros j Hj. set (L := nb_layers (net m)) in *.
    destruct (Nat.lt_ge_cases j L) as [H1 | H1].
    + destruct (Hst j H1) as (r & _ & _ & N1 & _). exists r. exact N1.
    + destruct (Nat.lt_ge_cases j (2 * L)) as [H2 | H2].
      * destruct (Hst (j - L)%nat ltac:(lia)) as (_ & c & _ & _ & N2 & _).
        exists c. replace (L + (j - L))%nat with j in N2 by lia. exact N2.
      * destruct (Hst (j - 2 * L)%nat ltac:(lia)) as (_ & _ & e & _ & _ & N3).
        exists e. replace (2 * L + (j - 2 * L))%nat with j in N3 by lia. exact N3.
Qed.

(** X10. In a layer mode of type R the output of a step is the new
    representation of that layer, the entry [l] of the returned state; in a
    layer mode of type E it is the new error of that layer, the entry
    [2 * nb_layers + l]. *)
Theorem unit_mode_output_in_state (m : Model) (a : tensor) (states : list item)
    (output : tensor) (states' : list item) (ty : string) (l : nat) :
  step m a states = Ok (output, states') ->
  output_layer_type (net m) = Some ty ->
  output_layer_num (net m) = Some l ->
  (ty = "R" -> nth_error states' l = Some (Tensor output)) /\
  (ty = "E" -> nth_error states' (2 * nb_layers (net m) + l) = Some (Tensor output)).
Proof.
  intros E Hty Hnum. apply step_states in E.
  destruct E as (a' & R & C & A & Ahat & Es & carried & HR & HC & HE & -> & _ & _ & _
                 & _ & Hsel).
  unfold selected_output in Hsel. rewrite Hty in Hsel.
  destruct Hsel as (l' & Hl' & Hcase). rewrite Hnum in Hl'. injection Hl' as <-.
  split; intros ->.
  - destruct Hcase as [[Hc _] | [[Hc _] | [[_ Hn] | [Hc _]]]]; try discriminate.
    assert (Hl : (l < List.length R)%nat).
    { apply nth_error_Some. congruence. }
    rewrite nth_error_app1 by (rewrite length_map; exact Hl).
    rewrite nth_error_map, Hn. reflexivity.
  - destruct Hcase as [[Hc _] | [[Hc _] | [[Hc _] | [_ Hn]]]]; try discriminate.
    assert (Hl : (l < List.length Es)%nat).
    { apply nth_error_Some. congruence. }
    rewrite nth_error_app2 by (rewrite length_map; lia).
    rewrite length_map, HR.
    rewrite nth_error_app2 by (rewrite length_map; lia).
    rewrite length_map, HC.
    replace (2 * nb_layers (net m) + l - nb_layers (net m) - nb_layers (net m))%nat
      with l by lia.
    rewrite nth_error_app1 by (rewrite length_map; exact Hl).
    rewrite nth_error_map, Hn. reflexivity.
Qed.

(** X11. In mode 'A0' of a network that does not extrapolate, the output of
    a step is the frame it was given. *)
Theorem bottom_target_is_input (m : Model) (a : tensor) (states : list item)
    (output : tensor) (states' : list item) :
  step m a states = Ok (output, states') ->
  output_layer_type (net m) = Some "A" ->
  output_layer_num (net m) = Some 0%nat ->
  extrap_start_time (net m) = None ->
  output = a.
Proof.
  intros E Hty Hnum Hex. apply step_states in E.
  destruct E as (a' & R & C & A & Ahat & Es & carried & _ & _ & _ & _ & _ & _ & Ha
                 & Hbu & Hsel).
  unfold selected_output in Hsel. rewrite Hty in Hsel.
  destruct Hsel as (l' & Hl' & Hcase). rewrite Hnum in Hl'. injection Hl' as <-.
  destruct Hcase as [[_ Hn] | [[Hc _] | [[Hc _] | [Hc _]]]]; try discriminate.
  destruct Hbu as (_ & _ & _ & H0 & _).
  rewrite (H0 output Hn). apply Ha. exact Hex.
Qed.

End StepFacts.

(** ** The shape interface and the shapes of a step *)

Section ShapeInterface.
Context {T : Type} `{Backend T}.

Local Abbreviation tensor := (@tensor T).
Local Abbreviation item := (@item T).
Local Abbreviation Model := (@Model T).
Local Abbreviation Conv2D := (@Conv2D T).
Local Abbreviation PredNet := (@PredNet T).
Local Abbreviation Config := (@Config T).

(** On the shape of a clip whose frames have stack_sizes[0] channels,
    [compute_output_shape] returns the samples (and time steps) followed by
    the shape of the mode in the geometry of the clip, without its
    samples. *)
Lemma compute_output_shape_geometry (kw : Config) (self : PredNet) (b t N rows cols : Z) :
  __init__ kw = Ok self ->
  compute_output_shape self
    (image5 (data_format self) b t (nth 0 (stack_sizes self) 0) rows cols)
  = Ok ((if return_sequences self then [b; t] else [b])
        ++ tl (output_shape self (geometry_of self N rows cols)))%list.
Proof.
  intros E.
  destruct (init_facts _ _ E)
    as (s0 & s1 & s2 & s3 & r0 & r1 & r2 & r3 & ka0 & ka1 & ka2 & kh0 & kh1 & kh2 & kh3
        & layer & HS & HR & _ & _ & _ & HL & Hlay & Hax & Hrow & Hcol & Hmode & Hlayer
        & Hty & Hnum).
  unfold compute_output_shape, output_shape, selected_channels, type_is, unit_shape,
    geometry_of.
  cbn [g_fmt g_samples g_R g_S g_rows g_cols].
  rewrite Hrow, Hcol, Hty, Hnum, HS, HR, HL.
  set (q := fun (z : Z) (n : nat) => z / 2 ^ Z.of_nat n).
  change (rows / 2 ^ Z.of_nat 0) with (q rows 0%nat).
  change (cols / 2 ^ Z.of_nat 0) with (q cols 0%nat).
  assert (Hq0 : forall z, q z 0%nat = z).
  { intros z. unfold q. change (2 ^ Z.of_nat 0) with 1. apply Z.div_1_r. }
  destruct (mode_cases _ _ Hmode Hlayer) as [(Hin & ->) | (ty & l & Hin & Hl & Hm & ->)].
  - cbn [fst snd In] in *.
    destruct Hin as [Hm | [Hm | [Hm | []]]]; rewrite <- Hm;
      destruct Hlay as [Ef | Ef]; rewrite Ef;
      destruct (return_sequences self); cbn; rewrite ?Hq0; reflexivity.
  - cbn [fst snd In] in *. rewrite Hm. clear Hm Hmode Hlayer Hty Hnum.
    destruct Hin as [<- | [<- | [<- | [<- | []]]]];
      (destruct l as [|[|[|[|l]]]]; [| | | |lia]);
      destruct Hlay as [Ef | Ef]; rewrite Ef;
      destruct (return_sequences self);
      cbn -[Z.mul Z.div Z.pow]; unfold q; cbn -[Z.mul Z.div Z.pow];
      rewrite ?Z.mul_1_l; reflexivity.
Qed.


(** a fitting state of the right length has the shapes of [state_shapes] *)
Lemma shapes_of_fit (self : PredNet) (N rows cols : Z) (states : list item) :
  nb_layers self = 4%nat ->
  List.length states = (12 + (if extrapolating self then 2 else 0))%nat ->
  states_fit (geometry_of self N rows cols) 4 states ->
  carried_fits self (geometry_of self N rows cols) states ->
  map item_shape states = state_shapes self N rows cols.
Proof.
  intros HL Hlen Hfit Hcar.
  destruct (Hfit 0%nat ltac:(lia)) as (x0 & y0 & z0 & A0 & B0 & C0 & SA0 & SB0 & SC0).
  destruct (Hfit 1%nat ltac:(lia)) as (x1 & y1 & z1 & A1 & B1 & C1 & SA1 & SB1 & SC1).
  destruct (Hfit 2%nat ltac:(lia)) as (x2 & y2 & z2 & A2 & B2 & C2 & SA2 & SB2 & SC2).
  destruct (Hfit 3%nat ltac:(lia)) as (x3 & y3 & z3 & A3 & B3 & C3 & SA3 & SB3 & SC3).
  clear Hfit. cbn [Nat.add Nat.mul] in *.
  unfold unit_shape, geometry_of in *. cbn [g_fmt g_samples g_R g_S g_rows g_cols] in *.
  do 12 (destruct states as [|? states]; [discriminate|]).
  cbn [nth_error] in *.
  injection A0 as ->. injection A1 as ->. injection A2 as ->. injection A3 as ->.
  injection B0 as ->. injection B1 as ->. injection B2 as ->. injection B3 as ->.
  injection C0 as ->. injection C1 as ->. injection C2 as ->. injection C3 as ->.
  unfold state_shapes. rewrite HL. cbn [range seq map app item_shape].
  rewrite SA0, SA1, SA2, SA3, SB0, SB1, SB2, SB3, SC0, SC1, SC2, SC3.
  do 12 f_equal.
  unfold carried_fits, extrapolating in *.
  destruct (extrap_start_time self) as [T0|].
  - destruct states as [|p [|q [|? ?]]]; try discriminate Hlen.
    destruct Hcar as (t & prev & I1 & I2 & Sprev).
    injection I1 as ->. injection I2 as ->. cbn [map item_shape].
    unfold unit_shape in Sprev. cbn [g_fmt g_samples g_R g_S g_rows g_cols] in Sprev.
    rewrite Sprev. change (2 ^ Z.of_nat 0) with 1. rewrite !Z.div_1_r. reflexivity.
  - destruct states; [reflexivity | discriminate Hlen].
Qed.


Lemma build_constructed_model (kw : Config) (self : PredNet)
    (wt : string -> nat -> list T * list T) (input_shape : shape) :
  __init__ kw = Ok self ->
  List.length input_shape = 5%nat ->
  build self input_shape wt = Ok (built_model self input_shape wt).
Proof.
  intros E Hlen.
  destruct (init_facts _ _ E)
    as (s0 & s1 & s2 & s3 & r0 & r1 & r2 & r3 & ka0 & ka1 & ka2 & kh0 & kh1 & kh2 & kh3
        & layer & HS & HR & HA & HAh & HRf & HL & Hlay & _).
  destruct input_shape as [|d0 [|d1 [|d2 [|d3 [|d4 [|? ?]]]]]]; try discriminate Hlen.
  eapply build_Ok; eassumption.
Qed.

(** A step of a constructed and built network, on a frame of
    stack_sizes[0] channels whose sides are multiples of 8 and a state of
    the shapes of [state_shapes]. *)
Lemma step_constructed (kw : Config) (self : PredNet)
    (wt : string -> nat -> list T * list T) (input_shape : shape) (m : Model)
    (N h w : Z) (a : tensor) (states : list item) :
  __init__ kw = Ok self ->
  firstn 3 (R_stack_sizes self) = firstn 3 (stack_sizes self) ->
  List.length input_shape = 5%nat ->
  build self input_shape wt = Ok m ->
  tshape a = pos4 (data_format self) N (nth 0 (stack_sizes self) 0) (8 * h) (8 * w) ->
  map item_shape states = state_shapes self N (8 * h) (8 * w) ->
  exists output states',
    step m a states = Ok (output, states') /\
    tshape output = output_shape self (geometry_of self N (8 * h) (8 * w)) /\
    map item_shape states' = state_shapes self N (8 * h) (8 * w).
Proof.
  intros E Heq Hlen Hb Sa Hs.
  rewrite (build_constructed_model kw self wt input_shape E Hlen) in Hb.
  injection Hb as <-.
  destruct (init_facts _ _ E)
    as (s0 & s1 & s2 & s3 & r0 & r1 & r2 & r3 & ka0 & ka1 & ka2 & kh0 & kh1 & kh2 & kh3
        & layer & _ & _ & _ & _ & _ & HL & _).
  set (G := geometry_of self N (8 * h) (8 * w)).
  set (m := built_model self input_shape wt).
  destruct (states_fit_shapes self N (8 * h) (8 * w) states HL Hs) as (Hfit & Hcar).
  destruct (step_total m G a states) as (output & states' & Estep & Sout & Hfit' & Hcar').
  - apply (net_fits_init kw). exact E.
  - apply (convs_fit_built kw); assumption.
  - apply (selector_fits_init kw). exact E.
  - cbn [net m built_model]. rewrite HL. exact Hfit.
  - exact Hcar.
  - cbn [net m built_model]. rewrite HL. lia.
  - rewrite Sa. unfold unit_shape, G, geometry_of.
    cbn [g_fmt g_samples g_R g_S g_rows g_cols].
    change (2 ^ Z.of_nat 0) with 1. rewrite !Z.div_1_r. reflexivity.
  - exists output, states'. split; [exact Estep|]. split; [exact Sout|].
    pose proof (step_states m a states output states' Estep) as Hinv.
    cbv zeta in Hinv.
    destruct Hinv as (a' & R & C & A & Ahat & Es & carried & HR & HC & HE & Hst & Hcl & _).
    cbn [net m built_model] in *. rewrite HL in *.
    apply shapes_of_fit; try assumption.
    rewrite Hst, !length_app, !length_map, HR, HC, HE, Hcl. reflexivity.
Qed.

(** X12. A step keeps the shapes of the state.  For a constructed network
    whose representations below the top layer have the channels of their
    targets, built for a five-axis input shape, a step on a frame of
    stack_sizes[0] channels whose sides are multiples of 8 and on a state of
    the shapes of [state_shapes] (R and C of R_stack_sizes[l] channels, E of
    2 * stack_sizes[l] channels, the sides divided by 2 ** l, then the
    frame prediction and the time step when the network extrapolates)
    returns, and the state it returns has the same shapes. *)
Theorem step_keeps_shapes (kw : Config) (self : PredNet)
    (wt : string -> nat -> list T * list T) (input_shape : shape) (m : Model)
    (N h w : Z) (a : tensor) (states : list item) :
  __init__ kw = Ok self ->
  firstn 3 (R_stack_sizes self) = firstn 3 (stack_sizes self) ->
  List.length input_shape = 5%nat ->
  build self input_shape wt = Ok m ->
  tshape a = pos4 (data_format self) N (nth 0 (stack_sizes self) 0) (8 * h) (8 * w) ->
  map item_shape states = state_shapes self N (8 * h) (8 * w) ->
  exists output states',
    step m a states = Ok (output, states') /\
    map item_shape states' = state_shapes self N (8 * h) (8 * w).
Proof.
  intros E Heq Hlen Hb Sa Hs.
  destruct (step_constructed kw self wt input_shape m N h w a states E Heq Hlen Hb Sa Hs)
    as (output & states' & Estep & _ & Hs').
  exists output, states'. split; assumption.
Qed.

(** X13. The shape [compute_output_shape] returns is the shape of the
    output of a step.  For a constructed network whose representations
    below the top layer have the channels of their targets, built for the
    shape of clips of frames of stack_sizes[0] channels whose sides are
    multiples of 8: a step on such a frame and a state of the shapes of
    [state_shapes] returns an output whose shape, after the samples, is
    what [compute_output_shape] gives for the clip after the samples (and
    the time steps, with return_sequences), in every mode. *)
Theorem output_shape_of_step (kw : Config) (self : PredNet)
    (wt : string -> nat -> list T * list T) (m : Model)
    (b t N h w : Z) (a : tensor) (states : list item) :
  let input_shape :=
    image5 (data_format self) b t (nth 0 (stack_sizes self) 0) (8 * h) (8 * w) in
  __init__ kw = Ok self ->
  firstn 3 (R_stack_sizes self) = firstn 3 (stack_sizes self) ->
  build self input_shape wt = Ok m ->
  tshape a = pos4 (data_format self) N (nth 0 (stack_sizes self) 0) (8 * h) (8 * w) ->
  map item_shape states = state_shapes self N (8 * h) (8 * w) ->
  exists output states',
    step m a states = Ok (output, states') /\
    compute_output_shape self input_shape
    = Ok ((if return_sequences self then [b; t] else [b]) ++ tl (tshape output))%list.
Proof.
  intros input_shape E Heq Hb Sa Hs.
  assert (Hlen : List.length input_shape = 5%nat).
  { unfold input_shape, image5. destruct (data_format self =? "channels_first")%string;
      reflexivity. }
  destruct (step_constructed kw self wt input_shape m N h w a states E Heq Hlen Hb Sa Hs)
    as (output & states' & Estep & Sout & _).
  exists output, states'. split; [exact Estep|].
  rewrite Sout. apply (compute_output_shape_geometry kw). exact E.
Qed.

End ShapeInterface.

(** ** The initial state *)

Section InitialState.
Context {T : Type} `{Backend T}.

Local Abbreviation tensor := (@tensor T).
Local Abbreviation item := (@item T).
Local Abbreviation Model := (@Model T).
Local Abbreviation Conv2D := (@Conv2D T).
Local Abbreviation PredNet := (@PredNet T).
Local Abbreviation Config := (@Config T).


Lemma zeros_zero (s : shape) : Forall (eq zero) (tdata (zeros (T := T) s)).
Proof.
  unfold zeros. cbn [tdata]. apply Forall_forall. intros v Hv.
  apply repeat_spec in Hv. symmetry. exact Hv.
Qed.

Lemma get_initial_state_constructed (kw : Config) (self : PredNet)
    (wt : string -> nat -> list T * list T)
    (b t c rows cols N t' rows' cols' : Z) (x : tensor) :
  __init__ kw = Ok self ->
  tshape x = image5 (data_format self) N t' c rows' cols' ->
  exists states,
    get_initial_state
      (built_model self (image5 (data_format self) b t c rows cols) wt) x = Ok states /\
    map item_shape states = state_shapes self N rows cols /\
    Forall zero_item states.
Proof.
  intros E Sx.
  destruct (init_facts _ _ E)
    as (s0 & s1 & s2 & s3 & r0 & r1 & r2 & r3 & ka0 & ka1 & ka2 & kh0 & kh1 & kh2 & kh3
        & layer & HS & HR & _ & _ & _ & HL & Hlay & Hax & Hrow & Hcol & _).
  unfold get_initial_state, state_shapes. cbn [net input_spec built_model].
  rewrite Hrow, Hcol, Hax, Sx, HS, HR, HL. unfold channel_axis_of, extrapolating.
  destruct Hlay as [Ef | Ef]; rewrite Ef;
    destruct (extrap_start_time self) as [T0|];
    cbv -[Z.mul Z.div Z.pow zeros Z.eqb item_shape map]; rewrite Z.eqb_refl;
    cbv -[Z.mul Z.div Z.pow zeros Z.eqb item_shape map];
    (eexists; split; [reflexivity|]; split;
     [cbv -[Z.mul Z.div Z.pow]; change (2 ^ 0) with 1; rewrite ?Z.div_1_r; reflexivity|]);
    repeat (constructor; [first [apply zeros_zero | reflexivity]|]); constructor.
Qed.


Lemma initial_state_constructed_build (kw : Config) (self : PredNet)
    (wt : string -> nat -> list T * list T) (m : Model)
    (b t N t' c rows cols rows' cols' : Z) (x : tensor) :
  __init__ kw = Ok self ->
  build self (image5 (data_format self) b t c rows cols) wt = Ok m ->
  tshape x = image5 (data_format self) N t' c rows' cols' ->
  exists states,
    get_initial_state m x = Ok states /\
    map item_shape states = state_shapes self N rows cols /\
    Forall zero_item states.
Proof.
  intros E Hb Sx.
  rewrite (build_constructed_model kw self wt _ E) in Hb.
  2: { unfold image5. destruct (data_format self =? "channels_first")%string; reflexivity. }
  injection Hb as <-.
  apply (get_initial_state_constructed kw self wt b t c rows cols N t' rows' cols');
    assumption.
Qed.

(** X14. The initial state.  For a constructed network built for the shape
    of clips of [c]-channel frames of [rows] x [cols] pixels, and any clip
    [x] of five axes with [N] samples and [c] channels, [get_initial_state]
    returns a state of the shapes of [state_shapes] for [N] samples and the
    sides the layer was built for (not those of [x]): R and C of
    R_stack_sizes[l] channels and E of 2 * stack_sizes[l] channels at the
    sides divided by 2 ** l, then, when the network extrapolates, a frame of
    stack_sizes[0] channels and the time step; every tensor holds zeros and
    the time step is 0. *)
Theorem initial_state_shapes (kw : Config) (self : PredNet)
    (wt : string -> nat -> list T * list T) (m : Model)
    (b t c rows cols N t' rows' cols' : Z) (x : tensor) :
  __init__ kw = Ok self ->
  build self (image5 (data_format self) b t c rows cols) wt = Ok m ->
  tshape x = image5 (data_format self) N t' c rows' cols' ->
  exists states,
    get_initial_state m x = Ok states /\
    map item_shape states = state_shapes self N rows cols /\
    Forall zero_item states.
Proof.
  intros E Hb Sx.
  apply (initial_state_constructed_build kw self wt m b t N t' c rows cols rows' cols');
    assumption.
Qed.

(** X15. [get_initial_state] raises when the clip it is given has a number
    of channels other than that of the shape the layer was built for. *)
Theorem initial_state_channel_mismatch (kw : Config) (self : PredNet)
    (wt : string -> nat -> list T * list T) (m : Model)
    (b t c rows cols N t' c' rows' cols' : Z) (x : tensor) :
  __init__ kw = Ok self ->
  build self (image5 (data_format self) b t c rows cols) wt = Ok m ->
  tshape x = image5 (data_format self) N t' c' rows' cols' ->
  c' <> c ->
  exists e, get_initial_state m x = Raise e.
Proof.
  intros E Hb Sx Hne.
  rewrite (build_constructed_model kw self wt _ E) in Hb.
  2: { unfold image5. destruct (data_format self =? "channels_first")%string; reflexivity. }
  injection Hb as <-.
  destruct (init_facts _ _ E)
    as (s0 & s1 & s2 & s3 & r0 & r1 & r2 & r3 & ka0 & ka1 & ka2 & kh0 & kh1 & kh2 & kh3
        & layer & HS & HR & _ & _ & _ & HL & Hlay & Hax & Hrow & Hcol & _).
  unfold get_initial_state. cbn [net input_spec built_model].
  rewrite Hrow, Hcol, Hax, Sx, HS, HR, HL. unfold channel_axis_of, extrapolating.
  apply Z.eqb_neq in Hne.
  destruct Hlay as [Ef | Ef]; rewrite Ef;
    destruct (extrap_start_time self) as [T0|];
    cbv -[Z.mul Z.div Z.pow zeros Z.eqb]; rewrite Hne;
    eexists; reflexivity.
Qed.

(** X16. The first step runs.  For a constructed network whose
    representations below the top layer have the channels of their targets,
    built for the shape of a clip [x] of frames of stack_sizes[0] channels
    whose sides are multiples of 8: [get_initial_state] returns a state, a
    step on it and a frame of the clip's frame shape returns, and the state
    of that step has the shapes of the initial state. *)
Theorem first_step_runs (kw : Config) (self : PredNet)
    (wt : string -> nat -> list T * list T) (m : Model)
    (N t h w : Z) (x a : tensor) :
  __init__ kw = Ok self ->
  firstn 3 (R_stack_sizes self) = firstn 3 (stack_sizes self) ->
  tshape x = image5 (data_format self) N t (nth 0 (stack_sizes self) 0) (8 * h) (8 * w) ->
  build self (tshape x) wt = Ok m ->
  tshape a = pos4 (data_format self) N (nth 0 (stack_sizes self) 0) (8 * h) (8 * w) ->
  exists states output states',
    get_initial_state m x = Ok states /\
    step m a states = Ok (output, states') /\
    map item_shape states' = map item_shape states.
Proof.
  intros E Heq Sx Hb Sa.
  assert (Hlen : List.length (tshape x) = 5%nat).
  { rewrite Sx. unfold image5.
    destruct (data_format self =? "channels_first")%string; reflexivity. }
  pose proof Hb as Hb'. rewrite Sx in Hb'.
  destruct (initial_state_constructed_build kw self wt m N t N t
              (nth 0 (stack_sizes self) 0) (8 * h) (8 * w) (8 * h) (8 * w) x E Hb' Sx)
    as (states & Einit & Hs & _).
  destruct (step_constructed kw self wt (tshape x) m N h w a states E Heq Hlen Hb Sa Hs)
    as (output & states' & Estep & _ & Hs').
  exists states, output, states'. split; [exact Einit|]. split; [exact Estep|].
  congruence.
Qed.

End InitialState.

(** ** The built model, and the output of a step by mode *)

Section BuildProperties.
Context {T : Type} `{Backend T}.

Local Abbreviation tensor := (@tensor T).
Local Abbreviation item := (@item T).
Local Abbreviation Model := (@Model T).
Local Abbreviation Conv2D := (@Conv2D T).
Local Abbreviation PredNet := (@PredNet T).
Local Abbreviation Config := (@Config T).

(** the convolutions of the model [build] returns *)
Lemma built_model_convs (kw : Config) (self : PredNet)
    (wt : string -> nat -> list T * list T) (input_shape : shape) :
  __init__ kw = Ok self ->
  let m := built_model self input_shape wt in
  (forall c l, In c ["i"; "f"; "c"; "o"] -> (l < 4)%nat ->
     exists cv,
       conv m c l = Ok cv /\
       filters cv = nth l (R_stack_sizes self) 0 /\
       kernel_size cv = 3 /\
       input_dim cv
       = Some (nth l (stack_sizes self) 0 * 2 + nth l (R_stack_sizes self) 0
               + (if (l <? 3)%nat then nth (l + 1) (R_stack_sizes self) 0 else 0)) /\
       activation cv = (if (c =? "c")%string then LSTM_activation self
                        else LSTM_inner_activation self) /\
       (kernel cv, bias cv) = wt c l) /\
  (forall l, (l < 4)%nat ->
     exists cv,
       conv m "ahat" l = Ok cv /\
       filters cv = nth l (stack_sizes self) 0 /\
       kernel_size cv = nth l (Ahat_filt_sizes self) 0 /\
       input_dim cv = Some (nth l (R_stack_sizes self) 0) /\
       activation cv = (if Nat.eqb l 0 then relu else A_activation self) /\
       (kernel cv, bias cv) = wt "ahat" l) /\
  (forall l, (l < 3)%nat ->
     exists cv,
       conv m "a" l = Ok cv /\
       filters cv = nth (l + 1) (stack_sizes self) 0 /\
       kernel_size cv = nth l (A_filt_sizes self) 0 /\
       input_dim cv = Some (2 * nth l (R_stack_sizes self) 0) /\
       activation cv = A_activation self /\
       (kernel cv, bias cv) = wt "a" l) /\
  (forall c, In c ["i"; "f"; "c"; "o"; "ahat"] -> conv m c 4 = Raise IndexError) /\
  conv m "a" 3 = Raise IndexError.
Proof.
  intros E m. subst m.
  destruct (init_facts _ _ E)
    as (s0 & s1 & s2 & s3 & r0 & r1 & r2 & r3 & ka0 & ka1 & ka2 & kh0 & kh1 & kh2 & kh3
        & layer & HS & HR & HA & HAh & HRf & HL & _).
  unfold conv, built_model. rewrite HL, HS, HR, HA, HAh, HRf.
  split; [|split; [|split; [|split]]].
  - intros c l Hin Hl. cbn [In] in Hin.
    destruct Hin as [<- | [<- | [<- | [<- | []]]]];
      (destruct l as [|[|[|[|l]]]]; [| | | |lia]);
      (eexists; split; [reflexivity|]; cbn -[Z.mul Z.add];
       rewrite ?Z.add_0_r; destruct (wt _ _); repeat split; reflexivity).
  - intros l Hl.
    destruct l as [|[|[|[|l]]]]; [| | | |lia];
      (eexists; split; [reflexivity|]; cbn -[Z.mul Z.add];
       destruct (wt _ _); repeat split; reflexivity).
  - intros l Hl.
    destruct l as [|[|[|l]]]; [| | |lia];
      (eexists; split; [reflexivity|]; cbn -[Z.mul Z.add];
       destruct (wt _ _); repeat split; reflexivity).
  - intros c Hin. cbn [In] in Hin.
    destruct Hin as [<- | [<- | [<- | [<- | [<- | []]]]]]; reflexivity.
  - reflexivity.
Qed.

(** X17. [build] on a constructed network and a five-axis input shape
    returns, whatever the sizes in the shape.  The model has four
    convolutions in each of the families i, f, c, o and ahat and three in
    the family a.  The gates of layer [l] have R_stack_sizes[l] filters,
    kernel size 3, and 2 * stack_sizes[l] + R_stack_sizes[l] input
    channels, plus R_stack_sizes[l+1] below the top layer; the candidate 'c'
    has the cell activation and the gates i, f, o the inner activation.
    The prediction convolution of layer [l] has stack_sizes[l] filters,
    R_stack_sizes[l] input channels and kernel size Ahat_filt_sizes[l], with
    relu at layer 0 and the A activation above.  The target convolution of
    layer [l] has stack_sizes[l+1] filters, 2 * R_stack_sizes[l] input
    channels and kernel size A_filt_sizes[l]. *)
Theorem build_constructed (kw : Config) (self : PredNet)
    (wt : string -> nat -> list T * list T) (input_shape : shape) :
  __init__ kw = Ok self ->
  List.length input_shape = 5%nat ->
  exists m,
    build self input_shape wt = Ok m /\
    net m = self /\ input_spec m = input_shape /\
    (forall c l, In c ["i"; "f"; "c"; "o"] -> (l < 4)%nat ->
       exists cv,
         conv m c l = Ok cv /\
         filters cv = nth l (R_stack_sizes self) 0 /\
         kernel_size cv = 3 /\
         input_dim cv
         = Some (nth l (stack_sizes self) 0 * 2 + nth l (R_stack_sizes self) 0
                 + (if (l <? 3)%nat then nth (l + 1) (R_stack_sizes self) 0 else 0)) /\
         activation cv = (if (c =? "c")%string then LSTM_activation self
                          else LSTM_inner_activation self) /\
         (kernel cv, bias cv) = wt c l) /\
    (forall l, (l < 4)%nat ->
       exists cv,
         conv m "ahat" l = Ok cv /\
         filters cv = nth l (stack_sizes self) 0 /\
         kernel_size cv = nth l (Ahat_filt_sizes self) 0 /\
         input_dim cv = Some (nth l (R_stack_sizes self) 0) /\
         activation cv = (if Nat.eqb l 0 then relu else A_activation self) /\
         (kernel cv, bias cv) = wt "ahat" l) /\
    (forall l, (l < 3)%nat ->
       exists cv,
         conv m "a" l = Ok cv /\
         filters cv = nth (l + 1) (stack_sizes self) 0 /\
         kernel_size cv = nth l (A_filt_sizes self) 0 /\
         input_dim cv = Some (2 * nth l (R_stack_sizes self) 0) /\
         activation cv = A_activation self /\
         (kernel cv, bias cv) = wt "a" l) /\
    (forall c, In c ["i"; "f"; "c"; "o"; "ahat"] -> conv m c 4 = Raise IndexError) /\
    conv m "a" 3 = Raise IndexError.
Proof.
  intros E Hlen.
  exists (built_model self input_shape wt).
  split; [apply (build_constructed_model kw); assumption|].
  split; [reflexivity|]. split; [reflexivity|].
  apply (built_model_convs kw). exact E.
Qed.

(** X18. [build] raises an IndexError on an input shape of fewer than two
    axes: the rows and columns are read at negative positions. *)
Theorem build_short_shape (kw : Config) (self : PredNet)
    (wt : string -> nat -> list T * list T) (input_shape : shape) :
  __init__ kw = Ok self ->
  (List.length input_shape < 2)%nat ->
  build self input_shape wt = Raise IndexError.
Proof.
  intros E Hlen.
  destruct (init_facts _ _ E)
    as (s0 & s1 & s2 & s3 & r0 & r1 & r2 & r3 & ka0 & ka1 & ka2 & kh0 & kh1 & kh2 & kh3
        & layer & HS & HR & HA & HAh & HRf & HL & Hlay & _).
  unfold build. rewrite HL, HS, HR, HA, HAh, HRf.
  destruct input_shape as [|d0 [|d1 rest]]; [| |cbn in Hlen; lia];
    destruct Hlay as [-> | ->]; reflexivity.
Qed.


(** X19. The shape of the output of a step, by mode.  Under the conditions
    of X12 a step returns an output of shape (samples, frame shape) in mode
    'prediction', (samples, 4) in mode 'error', (samples, number of entries
    of a frame + 4) in mode 'all', and in a layer mode of layer [l] the
    image shape of R_stack_sizes[l] channels for type R, 2 * stack_sizes[l]
    for type E and stack_sizes[l] for types A and Ahat, with the sides of
    the frame divided by 2 ** l. *)
Theorem step_output_shape (kw : Config) (self : PredNet)
    (wt : string -> nat -> list T * list T) (input_shape : shape) (m : Model)
    (N h w : Z) (a : tensor) (states : list item) :
  let fmt := data_format self in
  let s0 := nth 0 (stack_sizes self) 0 in
  __init__ kw = Ok self ->
  firstn 3 (R_stack_sizes self) = firstn 3 (stack_sizes self) ->
  List.length input_shape = 5%nat ->
  build self input_shape wt = Ok m ->
  tshape a = pos4 fmt N s0 (8 * h) (8 * w) ->
  map item_shape states = state_shapes self N (8 * h) (8 * w) ->
  exists output states',
    step m a states = Ok (output, states') /\
    (output_mode self = "prediction" -> tshape output = pos4 fmt N s0 (8 * h) (8 * w)) /\
    (output_mode self = "error" -> tshape output = [N; 4]) /\
    (output_mode self = "all" -> tshape output = [N; s0 * (8 * h) * (8 * w) + 4]) /\
    (forall ty l,
       output_layer_type self = Some ty -> output_layer_num self = Some l ->
       tshape output
       = pos4 fmt N
              (if (ty =? "R")%string then nth l (R_stack_sizes self) 0
               else if (ty =? "E")%string then 2 * nth l (stack_sizes self) 0
               else nth l (stack_sizes self) 0)
              (8 * h / 2 ^ Z.of_nat l) (8 * w / 2 ^ Z.of_nat l)).
Proof.
  intros fmt s0 E Heq Hlen Hb Sa Hs.
  destruct (step_constructed kw self wt input_shape m N h w a states E Heq Hlen Hb Sa Hs)
    as (output & states' & Estep & Sout & _).
  exists output, states'. split; [exact Estep|].
  destruct (init_facts _ _ E)
    as (s0' & s1 & s2 & s3 & r0 & r1 & r2 & r3 & ka0 & ka1 & ka2 & kh0 & kh1 & kh2 & kh3
        & layer & HS & HR & _ & _ & _ & HL & Hlay & _ & _ & _ & Hmode & Hlayer & Hty & Hnum).
  rewrite Sout. unfold output_shape, selected_channels, type_is, unit_shape, geometry_of.
  cbn [g_fmt g_samples g_R g_S g_rows g_cols]. rewrite Hty, Hnum, HL. fold fmt.
  change (2 ^ Z.of_nat 0) with 1. rewrite !Z.div_1_r.
  split; [|split; [|split]].
  - intros Em. rewrite Em in *. vm_compute in Hlayer. injection Hlayer as <-. reflexivity.
  - intros Em. rewrite Em in *. vm_compute in Hlayer. injection Hlayer as <-. reflexivity.
  - intros Em. rewrite Em in *. vm_compute in Hlayer. injection Hlayer as <-.
    cbn [fst snd String.eqb Ascii.eqb Bool.eqb].
    replace ("all" =? "prediction")%string with false by reflexivity.
    replace ("all" =? "error")%string with false by reflexivity.
    f_equal. f_equal. f_equal. unfold pos4, prod.
    destruct (fmt =? "channels_first")%string; cbn [tl fold_right]; unfold s0; ring.
  - intros ty l Ety El.
    destruct (mode_cases _ _ Hmode Hlayer) as [(_ & ->) | (ty' & l' & Hin & Hl & _ & ->)];
      [discriminate|].
    cbn [fst snd] in *. injection Ety as ->. injection El as ->.
    cbn [In] in Hin.
    destruct Hin as [<- | [<- | [<- | [<- | []]]]]; reflexivity.
Qed.

End BuildProperties.

(** ** What a step reads, and the shape interface on any shape *)

Section MoreStepFacts.
Context {T : Type} `{Backend T}.

Local Abbreviation tensor := (@tensor T).
Local Abbreviation item := (@item T).
Local Abbreviation Model := (@Model T).
Local Abbreviation PredNet := (@PredNet T).
Local Abbreviation Config := (@Config T).

Lemma slice_app {A : Type} (l extra : list A) (a b : nat) :
  (b <= List.length l)%nat -> slice (l ++ extra) a b = slice l a b.
Proof.
  intros Hb. unfold slice.
  destruct (Nat.le_gt_cases a (List.length l)) as [Ha | Ha].
  - rewrite skipn_app. replace (a - List.length l)%nat with 0%nat by lia.
    cbn [skipn]. rewrite firstn_app.
    rewrite length_skipn.
    replace (b - a - (List.length l - a))%nat with 0%nat by lia.
    cbn [firstn]. apply app_nil_r.
  - replace (b - a)%nat with 0%nat by lia. reflexivity.
Qed.

(** X21. Without extrapolation a step reads only the first
    [3 * nb_layers] entries of the state: entries after them do not change
    what it returns. *)
Theorem step_ignores_extra_entries (m : Model) (a : tensor) (states extra : list item) :
  extrap_start_time (net m) = None ->
  (3 * nb_layers (net m) <= List.length states)%nat ->
  step m a (states ++ extra) = step m a states.
Proof.
  intros Hex Hlen. unfold step, step_input. rewrite Hex. cbn [Py.bind fst snd].
  unfold recurrence. cbv zeta.
  rewrite !slice_app by lia. reflexivity.
Qed.


Lemma index_Ok_neg {A : Type} (l : list A) (i : Z) :
  - Z.of_nat (List.length l) <= i < 0 -> exists x, index l i = Ok x.
Proof.
  intros Hi. unfold index.
  replace (0 <=? i) with false by (symmetry; apply Z.leb_gt; lia). cbn [andb].
  replace (i <? 0) with true by (symmetry; apply Z.ltb_lt; lia).
  replace (0 <=? Z.of_nat (List.length l) + i) with true
    by (symmetry; apply Z.leb_le; lia).
  cbn [andb]. unfold getitem.
  destruct (nth_error l (Z.to_nat (Z.of_nat (List.length l) + i))) as [x|] eqn:E.
  - exists x. reflexivity.
  - apply nth_error_None in E. lia.
Qed.

(** X22. The shape interface on a constructed network.  On an input shape
    of at least three axes [compute_output_shape] returns: the result starts
    with the first entry of the input shape (and the second, with
    return_sequences), followed by one entry in the modes 'error' and 'all',
    the input shape without its first two entries in mode 'prediction', and
    three entries in a layer mode.  On the empty shape it raises an
    IndexError. *)
Theorem compute_output_shape_total (kw : Config) (self : PredNet) (input_shape : shape) :
  __init__ kw = Ok self ->
  ((3 <= List.length input_shape)%nat ->
   exists out,
     compute_output_shape self input_shape
     = Ok ((if return_sequences self then firstn 2 input_shape else firstn 1 input_shape)
           ++ out)%list /\
     List.length out
     = match output_layer_type self with
       | Some _ => 3%nat
       | None => if (output_mode self =? "prediction")%string
                 then (List.length input_shape - 2)%nat else 1%nat
       end /\
     (output_mode self = "prediction" -> out = skipn 2 input_shape)) /\
  (input_shape = [] -> compute_output_shape self input_shape = Raise IndexError).
Proof.
  intros E.
  destruct (init_facts _ _ E)
    as (s0 & s1 & s2 & s3 & r0 & r1 & r2 & r3 & ka0 & ka1 & ka2 & kh0 & kh1 & kh2 & kh3
        & layer & HS & HR & _ & _ & _ & HL & Hlay & Hax & Hrow & Hcol & Hmode & Hlayer
        & Hty & Hnum).
  unfold compute_output_shape, type_is. rewrite Hrow, Hcol, Hty, Hnum, HS, HR, HL.
  destruct (mode_cases _ _ Hmode Hlayer) as [(Hin & ->) | (ty & l & Hin & Hl & Hm & ->)].
  - cbn [fst snd In] in *. split.
    + intros Hlen. destruct input_shape as [|d0 [|d1 [|d2 rest]]]; try (cbn in Hlen; lia).
      destruct Hin as [Hm | [Hm | [Hm | []]]]; rewrite <- Hm;
        destruct (return_sequences self); cbn -[Z.mul Z.add prod];
        (eexists; split; [reflexivity|]);
        (split; [cbn [List.length]; lia | first [discriminate | reflexivity]]).
    + intros ->.
      destruct Hin as [Hm | [Hm | [Hm | []]]]; rewrite <- Hm;
        destruct (return_sequences self); reflexivity.
  - cbn [fst snd In] in *. rewrite Hm. clear Hm Hmode Hlayer Hty Hnum. split.
    + intros Hlen.
      destruct (index_Ok_neg input_shape (-1)) as (x1 & E1); [lia|].
      destruct (index_Ok_neg input_shape (-2)) as (x2 & E2); [lia|].
      destruct (index_Ok_neg input_shape (-3)) as (x3 & E3); [lia|].
      destruct input_shape as [|d0 [|d1 [|d2 rest]]]; try (cbn in Hlen; lia).
      destruct Hin as [<- | [<- | [<- | [<- | []]]]];
        (destruct l as [|[|[|[|l]]]]; [| | | |lia]);
        destruct Hlay as [Ef | Ef]; rewrite Ef;
        cbn [String.eqb Ascii.eqb Bool.eqb append str]; cbn -[index Z.mul Z.div Z.pow];
        rewrite ?E1, ?E2, ?E3; cbn -[index Z.mul Z.div Z.pow];
        destruct (return_sequences self); cbn -[index Z.mul Z.div Z.pow];
        (eexists; split; [reflexivity|]); (split; [reflexivity | discriminate]).
    + intros ->.
      destruct Hin as [<- | [<- | [<- | [<- | []]]]];
        (destruct l as [|[|[|[|l]]]]; [| | | |lia]);
        destruct Hlay as [Ef | Ef]; rewrite Ef; reflexivity.
Qed.

End MoreStepFacts.

(** ** The first step on the zero state, with zero parameters *)

Section ZeroState.
Context {T : Type} `{Backend T}.

Local Abbreviation tensor := (@tensor T).
Local Abbreviation item := (@item T).
Local Abbreviation Model := (@Model T).
Local Abbreviation Conv2D := (@Conv2D T).
Local Abbreviation PredNet := (@PredNet T).
Local Abbreviation Config := (@Config T).
Local Abbreviation Activation := (@Activation T).

Lemma nth_zero (l : list T) (n : nat) : Forall (eq zero) l -> nth n l zero = zero.
Proof.
  intros Hl. revert n. induction Hl as [|x l Hx Hl IH]; intros [|n]; cbn [nth]; auto.
Qed.

Lemma nth_default (P : T -> Prop) (l : list T) (n : nat) (d : T) :
  Forall P l -> P d -> P (nth n l d).
Proof.
  intros Hl Hd. revert n. induction Hl as [|x l Hx Hl IH]; intros [|n]; cbn [nth]; auto.
Qed.

Lemma tget_zero (x : tensor) (idx : list Z) : all_zero x -> tget x idx = zero.
Proof. intros Hx. unfold tget. apply nth_zero. exact Hx. Qed.

Lemma tget_pad_zero (fmt : string) (x : tensor) (Hh W n c i j : Z) :
  all_zero x -> tget_pad fmt x Hh W n c i j = zero.
Proof.
  intros Hx. unfold tget_pad.
  destruct ((0 <=? i) && (i <? Hh) && (0 <=? j) && (j <? W)); [|reflexivity].
  apply tget_zero. exact Hx.
Qed.

Lemma sum_over_zeros (l : list Z) (g : Z -> T) :
  add zero zero = zero -> (forall k, g k = zero) -> sum_over l g = zero.
Proof.
  intros Hadd Hg. unfold sum_over.
  induction l as [|k l IH]; cbn [fold_right]; [reflexivity|].
  rewrite IH, Hg. exact Hadd.
Qed.

(** a convolution with zero kernel and bias, on a tensor of zeros, yields
    the activation of zero at every entry *)
Lemma convolve_zeros (cv : Conv2D) (x : tensor) :
  mul zero zero = zero -> add zero zero = zero ->
  zero_conv cv -> all_zero x ->
  convolve cv x = constant (tshape (convolve cv x)) (act_fn (activation cv) zero).
Proof.
  intros Hmul Hadd (Hk & Hb) Hx. unfold convolve, constant.
  destruct (dims4' (conv_data_format cv) (tshape x)) as [[[N C] Hh] W].
  unfold tabulate. cbn [tshape]. f_equal. apply map_ext. intros idx.
  destruct (unpos4 (conv_data_format cv) idx) as [[[n f] i] j].
  f_equal. rewrite (nth_zero _ _ Hb).
  rewrite sum_over_zeros; [exact Hadd | exact Hadd |].
  intros c. apply sum_over_zeros; [exact Hadd|]. intros di.
  apply sum_over_zeros; [exact Hadd|]. intros dj.
  rewrite (nth_zero _ _ Hk), tget_pad_zero by exact Hx. exact Hmul.
Qed.



Lemma constant_entries (s : shape) (v : T) : Forall (eq v) (tdata (constant s v)).
Proof.
  unfold constant, tabulate. cbn [tdata]. apply Forall_map. apply Forall_forall.
  intros idx _. reflexivity.
Qed.

Lemma firstn_Forall (P : T -> Prop) (n : nat) (l : list T) :
  Forall P l -> Forall P (firstn n l).
Proof.
  intros Hl. revert n. induction Hl as [|x l Hx Hl IH]; intros [|n]; cbn [firstn];
    constructor; auto.
Qed.

Lemma skipn_Forall (P : T -> Prop) (n : nat) (l : list T) :
  Forall P l -> Forall P (skipn n l).
Proof.
  intros Hl. revert n. induction Hl as [|x l Hx Hl IH]; intros [|n]; cbn [skipn];
    try constructor; auto.
Qed.

Lemma interleave_Forall (P : T -> Prop) (outer : nat) (parts : list (nat * list T)) :
  Forall (fun p => Forall P (snd p)) parts -> Forall P (interleave outer parts).
Proof.
  revert parts. induction outer as [|outer IH]; intros parts Hparts; cbn [interleave].
  - constructor.
  - apply Forall_app. split.
    + apply Forall_flat_map. eapply Forall_impl; [|exact Hparts].
      intros p Hp. apply firstn_Forall. exact Hp.
    + apply IH. apply Forall_map. eapply Forall_impl; [|exact Hparts].
      intros p Hp. cbn [snd]. apply skipn_Forall. exact Hp.
Qed.

Lemma concatenate_entries (P : T -> Prop) (tensors : list tensor) (axis : Z) :
  Forall (fun x => Forall P (tdata x)) tensors ->
  Forall P (tdata (concatenate tensors axis)).
Proof.
  intros Hall. unfold concatenate. cbv zeta. cbn [tdata].
  apply interleave_Forall. apply Forall_map.
  eapply Forall_impl; [|exact Hall]. intros x Hx. exact Hx.
Qed.

Lemma upsample_zero (fmt : string) (x : tensor) : all_zero x -> all_zero (upsample fmt x).
Proof.
  intros Hx. unfold all_zero, upsample.
  destruct (dims4' fmt (tshape x)) as [[[N C] Hh] W].
  unfold tabulate. cbn [tdata]. apply Forall_map. apply Forall_forall. intros idx _.
  destruct (unpos4 fmt idx) as [[[n c] i] j]. symmetry. apply tget_zero. exact Hx.
Qed.

Lemma map2_zero (f : T -> T -> T) (g : T) (l1 l2 : list T) :
  f g zero = zero -> f zero zero = zero ->
  Forall (fun u => u = g \/ u = zero) l1 -> Forall (eq zero) l2 ->
  Forall (eq zero) (map2 f l1 l2).
Proof.
  intros Hg Hz H1. revert l2. induction H1 as [|u l1 Hu H1 IH]; intros l2 H2.
  - constructor.
  - destruct H2 as [|v l2 Hv H2]; cbn [map2]; constructor.
    + subst v. destruct Hu as [-> | ->]; congruence.
    + apply IH. exact H2.
Qed.

(** the product (or sum) of a tensor whose entries are [g] or zero with a
    tensor of zeros is a tensor of zeros, when the operation maps these
    entries to zero *)
Lemma ew2_zero (f : T -> T -> T) (g : T) (x y : tensor) :
  f g zero = zero -> f zero zero = zero ->
  Forall (fun u => u = g \/ u = zero) (tdata x) -> all_zero y ->
  all_zero (ew2 f x y).
Proof.
  intros Hg Hz Hx Hy. unfold all_zero, ew2.
  destruct (shape_eqb (tshape x) (tshape y)).
  - cbn [tdata]. apply map2_zero with (g := g); assumption.
  - unfold tabulate. cbn [tdata]. apply Forall_map. apply Forall_forall. intros idx _.
    rewrite (tget_zero y _ Hy). unfold tget.
    destruct (nth_default (fun u => u = g \/ u = zero) (tdata x)
                (Z.to_nat (flat_index (tshape x) (clip_index (tshape x) idx))) zero Hx
                (or_intror eq_refl)) as [-> | ->]; congruence.
Qed.

Lemma apply_zero (act : Activation) (x : tensor) :
  act_fn act zero = zero -> all_zero x -> all_zero (apply act x).
Proof.
  intros Hact Hx. unfold all_zero, apply, tmap. cbn [tdata]. apply Forall_map.
  eapply Forall_impl; [|exact Hx]. intros v <-. symmetry. exact Hact.
Qed.



Lemma zero_item_tensor (states : list item) (n : nat) (x : tensor) :
  Forall zero_item states -> nth_error states n = Some (Tensor x) -> all_zero x.
Proof.
  intros Hall Hn. apply nth_error_In in Hn.
  rewrite Forall_forall in Hall. exact (Hall _ Hn).
Qed.

(** One layer of the top-down pass on a state of zeros, with zero
    parameters: the new cell and representation are zero, when the gates'
    value at zero times zero is zero and the cell activation maps zero to
    zero. *)
Lemma representation_update_zero (m : Model) (states : list item) (l : nat)
    (R_above : option tensor) (R_l C_l : tensor) :
  let self := net m in
  mul zero zero = zero -> add zero zero = zero ->
  mul (act_fn (LSTM_inner_activation self) zero) zero = zero ->
  act_fn (LSTM_activation self) zero = zero ->
  Forall zero_item states ->
  (forall c cv, In c ["i"; "f"; "c"; "o"] -> conv m c l = Ok cv ->
     zero_conv cv /\
     activation cv = (if (c =? "c")%string then LSTM_activation self
                      else LSTM_inner_activation self)) ->
  (forall above, R_above = Some above -> all_zero above) ->
  representation_update m states l R_above R_l C_l ->
  all_zero R_l /\ all_zero C_l.
Proof.
  intros self Hmul Hadd Hgate Hcell Hst Hconv Habove Hru.
  unfold representation_update in Hru. cbv zeta in Hru. fold self in Hru.
  destruct Hru as (r_prev & c_prev & e_prev & cvi & cvf & cvo & cvc & up
                   & N1 & N2 & N3 & Ei & Ef & Eo & Ec & Hup & HC & HR).
  set (inputs := concatenate ([r_prev; e_prev] ++ up) (channel_axis self)) in *.
  assert (Hin : all_zero inputs).
  { apply concatenate_entries. cbn [app].
    constructor; [exact (zero_item_tensor _ _ _ Hst N1)|].
    constructor; [exact (zero_item_tensor _ _ _ Hst N3)|].
    destruct (S l <? nb_layers self)%nat.
    - destruct Hup as (above & Ha & ->). constructor; [|constructor].
      apply upsample_zero. apply Habove. exact Ha.
    - subst up. constructor. }
  set (g := act_fn (LSTM_inner_activation self) zero) in *.
  assert (Hgates : forall c cv, In c ["i"; "f"; "o"] -> conv m c l = Ok cv ->
            Forall (fun u => u = g \/ u = zero) (tdata (convolve cv inputs))).
  { intros c cv Hc Ecv.
    destruct (Hconv c cv) as (Hz & Hact); [cbn [In] in *; tauto | exact Ecv |].
    rewrite (convolve_zeros cv inputs Hmul Hadd Hz Hin), Hact.
    replace (c =? "c")%string with false
      by (cbn [In] in Hc; destruct Hc as [<- | [<- | [<- | []]]]; reflexivity).
    eapply Forall_impl; [|apply constant_entries]. intros u <-. left. reflexivity. }
  assert (Hcand : all_zero (convolve cvc inputs)).
  { destruct (Hconv "c" cvc) as (Hz & Hact); [cbn [In]; tauto | exact Ec |].
    rewrite (convolve_zeros cvc inputs Hmul Hadd Hz Hin), Hact.
    cbn [String.eqb Ascii.eqb Bool.eqb]. rewrite Hcell. apply constant_entries. }
  assert (HCz : all_zero C_l).
  { rewrite HC. unfold plus, hadamard. apply ew2_zero with (g := zero).
    - exact Hadd.
    - exact Hadd.
    - assert (Hfc : all_zero (ew2 mul (convolve cvf inputs) c_prev)).
      { apply ew2_zero with (g := g); [exact Hgate | exact Hmul | |].
        - apply (Hgates "f"); [cbn [In]; tauto | exact Ef].
        - exact (zero_item_tensor _ _ _ Hst N2). }
      eapply Forall_impl; [|exact Hfc]. intros u <-. left. reflexivity.
    - apply ew2_zero with (g := g); [exact Hgate | exact Hmul | | exact Hcand].
      apply (Hgates "i"); [cbn [In]; tauto | exact Ei]. }
  split; [|exact HCz].
  rewrite HR. unfold hadamard. apply ew2_zero with (g := g); [exact Hgate | exact Hmul | |].
  - apply (Hgates "o"); [cbn [In]; tauto | exact Eo].
  - apply apply_zero; [exact Hcell | exact HCz].
Qed.

(** The top-down pass on a state of zeros, with zero parameters: every new
    representation is zero. *)
Lemma top_down_zero (m : Model) (states : list item) (R C : list tensor) :
  let self := net m in
  mul zero zero = zero -> add zero zero = zero ->
  mul (act_fn (LSTM_inner_activation self) zero) zero = zero ->
  act_fn (LSTM_activation self) zero = zero ->
  Forall zero_item states ->
  (forall l c cv, (l < nb_layers self)%nat -> In c ["i"; "f"; "c"; "o"] ->
     conv m c l = Ok cv ->
     zero_conv cv /\
     activation cv = (if (c =? "c")%string then LSTM_activation self
                      else LSTM_inner_activation self)) ->
  top_down m states R C ->
  forall l R_l, nth_error R l = Some R_l -> all_zero R_l.
Proof.
  intros self Hmul Hadd Hgate Hcell Hst Hconv (HlenR & HlenC & Hlayers).
  fold self in HlenR, HlenC, Hlayers.
  assert (Hind : forall n l, (nb_layers self - l <= n)%nat ->
            forall R_l, nth_error R l = Some R_l -> all_zero R_l).
  { induction n as [|n IH]; intros l Hn R_l NR.
    - exfalso. assert (Hlt : (l < List.length R)%nat) by (apply nth_error_Some; congruence).
      lia.
    - assert (Hlt : (l < nb_layers self)%nat).
      { rewrite <- HlenR. apply nth_error_Some. congruence. }
      destruct (Hlayers l Hlt) as (R_l' & C_l & NR' & _ & Hru).
      rewrite NR in NR'. injection NR' as <-.
      refine (proj1 (representation_update_zero m states l _ R_l C_l
                       Hmul Hadd Hgate Hcell Hst _ _ Hru)).
      + intros c cv Hc Ecv. exact (Hconv l c cv Hlt Hc Ecv).
      + intros above Ha. apply (IH (S l)); [lia | exact Ha]. }
  intros l R_l NR. exact (Hind (nb_layers self) l ltac:(lia) R_l NR).
Qed.



End ZeroState.

Section ZeroUnits.
Context {T : Type} `{Backend T}.

Local Abbreviation tensor := (@tensor T).
Local Abbreviation item := (@item T).
Local Abbreviation Model := (@Model T).
Local Abbreviation PredNet := (@PredNet T).
Local Abbreviation Config := (@Config T).

(** X20. The representation stays zero.  For a constructed network whose
    representations below the top layer have the channels of their targets,
    built for the shape of a clip [x] of frames of stack_sizes[0] channels
    whose sides are multiples of 8, with all kernels and biases zero, on
    numbers where zero times zero and zero plus zero are zero, the gates'
    value at zero times zero is zero and the cell activation maps zero to
    zero: the step on the initial state returns, and the representation R_l
    and the cell C_l of every layer in the returned state hold zeros,
    whatever the frame. *)
Theorem zero_state_units_stay_zero (kw : Config) (self : PredNet)
    (wt : string -> nat -> list T * list T) (m : Model)
    (N t h w : Z) (x a : tensor) (states : list item) :
  __init__ kw = Ok self ->
  firstn 3 (R_stack_sizes self) = firstn 3 (stack_sizes self) ->
  tshape x = image5 (data_format self) N t (nth 0 (stack_sizes self) 0) (8 * h) (8 * w) ->
  build self (tshape x) wt = Ok m ->
  (forall c l, Forall (eq zero) (fst (wt c l)) /\ Forall (eq zero) (snd (wt c l))) ->
  get_initial_state m x = Ok states ->
  tshape a = pos4 (data_format self) N (nth 0 (stack_sizes self) 0) (8 * h) (8 * w) ->
  mul zero zero = zero ->
  add zero zero = zero ->
  mul (act_fn (LSTM_inner_activation self) zero) zero = zero ->
  act_fn (LSTM_activation self) zero = zero ->
  exists output states',
    step m a states = Ok (output, states') /\
    forall j, (j < 8)%nat ->
      exists u, nth_error states' j = Some (Tensor u) /\ all_zero u.
Proof.
  intros E Heq Sx Hb Hz Hinit Sa Hmul Hadd Hgate Hcell.
  assert (Hlen : List.length (tshape x) = 5%nat).
  { rewrite Sx. unfold image5.
    destruct (data_format self =? "channels_first")%string; reflexivity. }
  pose proof Hb as Hb'. rewrite Sx in Hb'.
  destruct (initial_state_constructed_build kw self wt m N t N t
              (nth 0 (stack_sizes self) 0) (8 * h) (8 * w) (8 * h) (8 * w) x E Hb' Sx)
    as (states0 & Einit & Hs & Hzero).
  rewrite Hinit in Einit. injection Einit as <-. clear Hb'.
  destruct (step_constructed kw self wt (tshape x) m N h w a states E Heq Hlen Hb Sa Hs)
    as (output & states' & Estep & _ & _).
  exists output, states'. split; [exact Estep|].
  rewrite (build_constructed_model kw self wt (tshape x) E Hlen) in Hb.
  injection Hb as <-.
  set (m := built_model self (tshape x) wt) in *.
  apply step_Ok in Estep. destruct Estep as (a' & t' & _ & Erec).
  apply recurrence_Ok in Erec.
  destruct Erec as (R & C & A & Ahat & Es & Htd & _ & _ & carried & Hst & _).
  destruct (init_facts _ _ E)
    as (s0 & s1 & s2 & s3 & r0 & r1 & r2 & r3 & ka0 & ka1 & ka2 & kh0 & kh1 & kh2 & kh3
        & layer & _ & _ & _ & _ & _ & HL & _).
  destruct (built_model_convs kw self wt (tshape x) E) as (Hgatesb & _).
  fold m in Hgatesb.
  assert (Hconv : forall l c cv, (l < nb_layers (net m))%nat ->
            In c ["i"; "f"; "c"; "o"] -> conv m c l = Ok cv ->
            zero_conv cv /\
            activation cv = (if (c =? "c")%string then LSTM_activation (net m)
                             else LSTM_inner_activation (net m))).
  { cbn [net m built_model]. rewrite HL. intros l c cv Hl Hc Ecv.
    destruct (Hgatesb c l Hc Hl) as (cv' & Ecv' & _ & _ & _ & Hact & Hw).
    rewrite Ecv in Ecv'. injection Ecv' as <-.
    split; [|exact Hact].
    destruct (Hz c l) as (Hk & Hbi). rewrite <- Hw in Hk, Hbi. split; assumption. }
  pose proof (top_down_zero m states R C Hmul Hadd Hgate Hcell Hzero Hconv Htd) as HRz.
  destruct Htd as (HlenR & HlenC & Hlayers).
  cbn [net m built_model] in HlenR, HlenC, Hlayers. rewrite HL in HlenR, HlenC, Hlayers.
  intros j Hj. rewrite Hst.
  destruct (Nat.lt_ge_cases j 4) as [Hlt | Hge].
  - destruct (Hlayers j Hlt) as (R_l & C_l & NR & _ & _).
    exists R_l. split; [|exact (HRz j R_l NR)].
    rewrite nth_error_app1 by (rewrite length_map; lia).
    rewrite nth_error_map, NR. reflexivity.
  - destruct (Hlayers (j - 4)%nat ltac:(lia)) as (R_l & C_l & _ & NC & Hru).
    exists C_l. split.
    + rewrite nth_error_app2 by (rewrite length_map; lia). rewrite length_map, HlenR.
      rewrite nth_error_app1 by (rewrite length_map; lia).
      rewrite nth_error_map, NC. reflexivity.
    + refine (proj2 (representation_update_zero m states (j - 4) _ R_l C_l
                       Hmul Hadd Hgate Hcell Hzero _ _ Hru)).
      * intros c cv Hc Ecv. apply (Hconv (j - 4)%nat c cv); [|exact Hc | exact Ecv].
        cbn [net m built_model]. rewrite HL. lia.
      * intros above Ha. exact (HRz _ above Ha).
Qed.

End ZeroUnits.

(** ** The shape interface against the output of a step *)

Section OutputShape.
Context {T : Type} `{Backend T}.

Local Abbreviation tensor := (@tensor T).
Local Abbreviation item := (@item T).
Local Abbreviation Model := (@Model T).
Local Abbreviation PredNet := (@PredNet T).
Local Abbreviation Config := (@Config T).

(** the shape of the output in a layer mode *)
Lemma output_shape_layer_mode (kw : Config) (self : PredNet) (N rows cols : Z)
    (ty : string) (l : nat) :
  __init__ kw = Ok self ->
  output_layer_type self = Some ty -> output_layer_num self = Some l ->
  output_shape self (geometry_of self N rows cols)
  = pos4 (data_format self) N
         (if (ty =? "R")%string then nth l (R_stack_sizes self) 0
          else if (ty =? "E")%string then 2 * nth l (stack_sizes self) 0
          else nth l (stack_sizes self) 0)
         (rows / 2 ^ Z.of_nat l) (cols / 2 ^ Z.of_nat l).
Proof.
  intros E Ety El.
  destruct (init_facts _ _ E)
    as (s0' & s1 & s2 & s3 & r0 & r1 & r2 & r3 & ka0 & ka1 & ka2 & kh0 & kh1 & kh2 & kh3
        & layer & HS & HR & _ & _ & _ & HL & Hlay & _ & _ & _ & Hmode & Hlayer & Hty & Hnum).
  unfold output_shape, selected_channels, type_is, unit_shape, geometry_of.
  cbn [g_fmt g_samples g_R g_S g_rows g_cols]. rewrite Ety, El.
  rewrite Hty in Ety. rewrite Hnum in El.
  destruct (mode_cases _ _ Hmode Hlayer) as [(_ & ->) | (ty' & l' & Hin & Hl & _ & ->)];
    [discriminate|].
  cbn [fst snd] in *. injection Ety as ->. injection El as ->.
  cbn [In] in Hin.
  destruct Hin as [<- | [<- | [<- | [<- | []]]]]; reflexivity.
Qed.

(** C4. The output shape of the shape interface is the shape of the output
    of a step, after the samples.  For a constructed network whose
    representations below the top layer have the channels of their targets,
    built for the shape of clips of frames of stack_sizes[0] channels whose
    sides are multiples of 8: a step on such a frame and a state of the
    shapes of [state_shapes] returns, and in every mode
    [compute_output_shape] of the clip's shape is the samples (and the time
    steps, with return_sequences) followed by the shape of the step's output
    without its samples; in a layer mode of layer [l] this output has
    R_stack_sizes[l] channels for type R, 2 * stack_sizes[l] for type E and
    stack_sizes[l] for types A and Ahat, and the sides of the frame divided
    by 2 ** l. *)
Theorem output_shape_agrees (kw : Config) (self : PredNet)
    (wt : string -> nat -> list T * list T) (m : Model)
    (b t N h w : Z) (a : tensor) (states : list item) :
  let fmt := data_format self in
  let s0 := nth 0 (stack_sizes self) 0 in
  let input_shape := image5 fmt b t s0 (8 * h) (8 * w) in
  __init__ kw = Ok self ->
  firstn 3 (R_stack_sizes self) = firstn 3 (stack_sizes self) ->
  build self input_shape wt = Ok m ->
  tshape a = pos4 fmt N s0 (8 * h) (8 * w) ->
  map item_shape states = state_shapes self N (8 * h) (8 * w) ->
  exists output states',
    step m a states = Ok (output, states') /\
    compute_output_shape self input_shape
    = Ok ((if return_sequences self then [b; t] else [b]) ++ tl (tshape output))%list /\
    forall ty l,
      output_layer_type self = Some ty -> output_layer_num self = Some l ->
      tshape output
      = pos4 fmt N
             (if (ty =? "R")%string then nth l (R_stack_sizes self) 0
              else if (ty =? "E")%string then 2 * nth l (stack_sizes self) 0
              else nth l (stack_sizes self) 0)
             (8 * h / 2 ^ Z.of_nat l) (8 * w / 2 ^ Z.of_nat l).
Proof.
  intros fmt s0 input_shape E Heq Hb Sa Hs.
  assert (Hlen : List.length input_shape = 5%nat).
  { unfold input_shape, image5. destruct (fmt =? "channels_first")%string; reflexivity. }
  destruct (step_constructed kw self wt input_shape m N h w a states E Heq Hlen Hb Sa Hs)
    as (output & states' & Estep & Sout & _).
  exists output, states'. split; [exact Estep|]. split.
  - rewrite Sout. apply (compute_output_shape_geometry kw). exact E.
  - intros ty l Ety El. rewrite Sout.
    apply (output_shape_layer_mode kw); assumption.
Qed.

End OutputShape.

Import Examples.

(** C1. An input the check lets through: four layers and a caller's
    [R_filt_sizes] of length two.  The constructor builds the instance, with
    the constant (3, 3, 3, 3) in the place of the caller's list. *)
Theorem short_R_filt_sizes_accepted :
  List.length (kw_R_filt_sizes short_R_filt) <> List.length (kw_stack_sizes short_R_filt) /\
  __init__ short_R_filt = Ok (kitti_net short_R_filt) /\
  R_filt_sizes (kitti_net short_R_filt) = [3; 3; 3; 3].
Proof. split; [simpl; lia | split; reflexivity]. Qed.

(** C2. The two-layer configuration of the scenario is rejected by the
    constructor, in mode 'error' and in mode 'R1' alike. *)
Theorem two_layers_rejected :
  __init__ two_layers
    = Raise (AssertionError "len(R_filt_sizes) must equal len(stack_sizes)") /\
  __init__ (with_mode two_layers "R1")
    = Raise (AssertionError "len(R_filt_sizes) must equal len(stack_sizes)").
Proof. split; reflexivity. Qed.

Lemma config_round_trip_kitti :
  exists self',
    from_config (get_config (kitti_net kitti)) = Ok self' /\
    forall input_shape : shape,
      compute_output_shape self' input_shape
      = compute_output_shape (kitti_net kitti) input_shape.
Proof. apply (@config_round_trip _ _ kitti). reflexivity. Defined.

(** The minimum of two rationals is at most the second. *)
Lemma Qc_minimum_law : @MinimumLaw Qc QcBackend.backend.
Proof.
  split. intros x m. change (QcBackend.qmin x m <= m)%Qc. unfold QcBackend.qmin.
  destruct (x ?= m)%Qc eqn:E.
  - apply Qcle_alt. rewrite E. discriminate.
  - apply Qcle_alt. rewrite E. discriminate.
  - apply Qcle_refl.
Qed.

Lemma step_follows_recurrence_small :
  exists a' R C A Ahat E carried,
    top_down small_model small_states R C /\
    bottom_up small_model a' R A Ahat E /\
    small_next = (map Tensor R ++ map Tensor C ++ map Tensor E ++ carried)%list /\
    match extrap_start_time (net small_model) with
    | Some _ =>
        exists frame_prediction t,
          index small_states (-1) = Ok (Int t) /\
          nth_error Ahat 0 = Some frame_prediction /\
          carried = [Tensor frame_prediction; Int (t + 1)]
    | None => carried = []
    end.
Proof.
  apply (@step_follows_recurrence _ _ small_model small_frame small_states small_output).
  vm_compute. reflexivity.
Defined.

Lemma extrapolation_switch_small :
  (1 <= 1 -> small_output = small_output /\
             forall a2, step small_model a2 small_next = Ok (small_output2, small_next2)) /\
  (1 < 1 -> small_output = small_frame2) /\
  exists R C A Ahat E frame_prediction E_0,
    top_down small_model small_next R C /\
    bottom_up small_model small_output R A Ahat E /\
    selected_output (net small_model) R A Ahat E small_output2 /\
    nth_error A 0 = Some small_output /\
    nth_error Ahat 0 = Some frame_prediction /\
    nth_error E 0 = Some E_0 /\
    E_0 = concatenate
            [apply (error_activation (net small_model)) (minus frame_prediction small_output);
             apply (error_activation (net small_model)) (minus small_output frame_prediction)]
            (channel_axis (net small_model)) /\
    small_next2 = (map Tensor R ++ map Tensor C ++ map Tensor E
                   ++ [Tensor frame_prediction; Int (1 + 1)])%list /\
    nth_error small_next2 (2 * nb_layers (net small_model)) = Some (Tensor E_0).
Proof.
  apply (@extrapolation_switch _ _ small_model small_frame2 small_next 1 1 small_output
           small_output2 small_next2).
  - reflexivity.
  - reflexivity.
  - reflexivity.
  - vm_compute. reflexivity.
Defined.

(** the supplied second frame is not the prediction the step runs on *)
Lemma supplied_frame_differs : small_frame2 <> small_output.
Proof.
  intros Heq.
  apply (f_equal (fun x => Qnum (this (nth 1 (tdata x) 0%Qc)))) in Heq.
  vm_compute in Heq. discriminate Heq.
Qed.

(** in the step of the network with [pixel_max] 1/8 the prediction
    convolution of layer 0 exceeds [pixel_max], and the output is its
    clipping *)
Lemma tight_clipping_acts :
  step tight_model small_frame tight_states = Ok (tight_output, tight_next) /\
  conv tight_model "ahat" 0 = Ok tight_ahat0 /\
  nth_error tight_next 0 = Some (Tensor tight_R0) /\
  tight_output = K_minimum (convolve tight_ahat0 tight_R0) (pixel_max tight_net) /\
  ~ le (nth 0 (tdata (convolve tight_ahat0 tight_R0)) zero) (pixel_max tight_net).
Proof.
  split; [vm_compute; reflexivity|]. split; [reflexivity|]. split; [reflexivity|].
  split; [vm_compute; reflexivity|].
  apply Qclt_not_le. vm_compute. reflexivity.
Qed.

Lemma frame_prediction_clipped_tight :
  exists frame_prediction,
    frame_prediction_of tight_model small_frame tight_states frame_prediction /\
    Forall (fun v => le v (pixel_max (net tight_model))) (tdata frame_prediction) /\
    (output_layer_type (net tight_model) = None ->
     output_mode (net tight_model) = "prediction" ->
     tight_output = frame_prediction) /\
    (extrap_start_time (net tight_model) <> None ->
     index tight_next (-2) = Ok (Tensor frame_prediction)) /\
    exists cv R_0,
      conv tight_model "ahat" 0 = Ok cv /\
      nth_error tight_next 0 = Some (Tensor R_0) /\
      frame_prediction = K_minimum (convolve cv R_0) (pixel_max (net tight_model)).
Proof.
  apply (@frame_prediction_clipped _ _ Qc_minimum_law tight_model small_frame tight_states
           tight_output tight_next).
  vm_compute. reflexivity.
Defined.

(** C3. A valid configuration with stack_sizes[0] = 1 and R_stack_sizes[0] = 2:
    the A convolution of layer 0 is built for 4 input channels, twice
    R_stack_sizes[0], while the error tensor it is applied to has
    2 * stack_sizes[0] = 2 channels, and the step raises. *)
Theorem A_convolution_input_channels :
  __init__ mixed = Ok mixed_net /\
  build mixed_net [1; 2; 1; 8; 8] zero_weights = Ok mixed_model /\
  get_initial_state mixed_model small_clip = Ok mixed_states /\
  (exists cv, conv mixed_model "a" 0 = Ok cv /\
              input_dim cv = Some 4 /\ filters cv = 1 /\ kernel_size cv = 3) /\
  2 * nth 0 (stack_sizes mixed_net) 0 = 2 /\
  step mixed_model small_frame mixed_states
  = Raise (ValueError "the channels of the input differ from the kernel's").
Proof.
  split; [reflexivity|]. split; [reflexivity|]. split; [reflexivity|].
  split; [eexists; split; [reflexivity|]; repeat split|].
  split; [reflexivity|]. vm_compute. reflexivity.
Qed.

(** C10. With two layers the selector 'A1' of the top target is rejected, as
    every mode is: the constructor stops at the length check of
    R_filt_sizes. *)
Theorem top_target_selector_two_layers :
  str_in "A1" (default_output_modes ++ layer_output_modes 2) = true /\
  __init__ (with_mode two_layers "A1")
  = Raise (AssertionError "len(R_filt_sizes) must equal len(stack_sizes)").
Proof. split; reflexivity. Qed.

(** ** The further properties on the concrete configurations *)

Lemma mismatched_lengths_rejected_two_layers :
  exists msg, __init__ two_layers = Raise (AssertionError msg).
Proof.
  apply (@mismatched_lengths_rejected _ _ two_layers).
  right; right; right. simpl. lia.
Defined.

Lemma unknown_activation_rejected_example :
  exists name,
    In name [kw_error_activation unknown_activation; kw_A_activation unknown_activation;
             kw_LSTM_activation unknown_activation;
             kw_LSTM_inner_activation unknown_activation] /\
    __init__ unknown_activation
    = Raise (ValueError ("Unknown activation function:" ++ name)).
Proof.
  apply (@unknown_activation_rejected _ _ unknown_activation); reflexivity.
Defined.

Lemma invalid_mode_or_layout_rejected_R4 :
  (str_in (kw_output_mode (with_mode kitti "R4"))
          (default_output_modes ++ layer_output_modes 4) = false ->
   __init__ (with_mode kitti "R4")
   = Raise (AssertionError ("Invalid output_mode: " ++ kw_output_mode (with_mode kitti "R4")))) /\
  (str_in (kw_output_mode (with_mode kitti "R4"))
          (default_output_modes ++ layer_output_modes 4) = true ->
   str_in (kw_data_format (with_mode kitti "R4")) ["channels_last"; "channels_first"] = false ->
   __init__ (with_mode kitti "R4")
   = Raise (AssertionError "data_format must be in {channels_last, channels_first}")).
Proof.
  apply (@invalid_mode_or_layout_rejected _ _ (with_mode kitti "R4")); reflexivity.
Defined.

Lemma get_config_reads_back_kitti :
  get_config (kitti_net kitti)
  = with_sizes kitti (kw_stack_sizes kitti) (kw_R_stack_sizes kitti)
               (kw_A_filt_sizes kitti) (kw_Ahat_filt_sizes kitti) [3; 3; 3; 3].
Proof. apply (@get_config_reads_back _ _ kitti). reflexivity. Defined.

Lemma from_config_restores_kitti :
  from_config (get_config (kitti_net kitti)) = Ok (kitti_net kitti).
Proof. apply (@from_config_restores _ _ kitti). reflexivity. Defined.

Lemma output_mode_parsed_kitti :
  (In (output_mode (kitti_net kitti)) ["prediction"; "error"; "all"] /\
   output_layer_type (kitti_net kitti) = None /\
   output_layer_num (kitti_net kitti) = None) \/
  exists ty l,
    In ty ["R"; "E"; "A"; "Ahat"] /\ (l < nb_layers (kitti_net kitti))%nat /\
    output_mode (kitti_net kitti) = (ty ++ str l)%string /\
    output_layer_type (kitti_net kitti) = Some ty /\
    output_layer_num (kitti_net kitti) = Some l.
Proof. apply (@output_mode_parsed _ _ kitti). reflexivity. Defined.

Lemma step_short_state_empty :
  exists e, step small_model small_frame [] = Raise e.
Proof.
  apply (@step_short_state _ _ small_model small_frame []).
  apply Nat.ltb_lt. vm_compute. reflexivity.
Defined.

Lemma step_state_length_small :
  List.length small_next
  = (3 * nb_layers (net small_model)
     + (if extrapolating (net small_model) then 2 else 0))%nat /\
  forall j, (j < 3 * nb_layers (net small_model))%nat ->
    exists x, nth_error small_states j = Some (Tensor x).
Proof.
  apply (@step_state_length _ _ small_model small_frame small_states small_output).
  vm_compute. reflexivity.
Defined.

Lemma unit_mode_output_in_state_R1 :
  ("R" = "R" -> nth_error plain_R1_next 1 = Some (Tensor plain_R1_output)) /\
  ("R" = "E" ->
   nth_error plain_R1_next (2 * nb_layers (net (plain_model "R1" (Some "R", Some 1%nat))) + 1)
   = Some (Tensor plain_R1_output)).
Proof.
  apply (@unit_mode_output_in_state _ _ (plain_model "R1" (Some "R", Some 1%nat))
           small_frame plain_states plain_R1_output plain_R1_next "R" 1%nat).
  - vm_compute. reflexivity.
  - reflexivity.
  - reflexivity.
Defined.

Lemma bottom_target_is_input_A0 : plain_A0_output = small_frame.
Proof.
  apply (@bottom_target_is_input _ _ (plain_model "A0" (Some "A", Some 0%nat))
           small_frame plain_states plain_A0_output plain_A0_next).
  - vm_compute. reflexivity.
  - reflexivity.
  - reflexivity.
  - reflexivity.
Defined.

Lemma step_keeps_shapes_small :
  exists output states',
    step small_model small_frame small_states = Ok (output, states') /\
    map item_shape states' = state_shapes small_net 1 (8 * 1) (8 * 1).
Proof.
  apply (@step_keeps_shapes _ _ small small_net small_weights [1; 2; 1; 8; 8] small_model
           1 1 1 small_frame small_states); reflexivity.
Defined.

Lemma output_shape_of_step_small :
  exists output states',
    step small_model small_frame small_states = Ok (output, states') /\
    compute_output_shape small_net
      (image5 (data_format small_net) 1 2 (nth 0 (stack_sizes small_net) 0) (8 * 1) (8 * 1))
    = Ok ((if return_sequences small_net then [1; 2] else [1]) ++ tl (tshape output))%list.
Proof.
  apply (@output_shape_of_step _ _ small small_net small_weights small_model
           1 2 1 1 1 small_frame small_states); reflexivity.
Defined.

Lemma initial_state_shapes_small :
  exists states,
    get_initial_state small_model small_clip = Ok states /\
    map item_shape states = state_shapes small_net 1 8 8 /\
    Forall zero_item states.
Proof.
  apply (@initial_state_shapes _ _ small small_net small_weights small_model
           1 2 1 8 8 1 2 8 8 small_clip); reflexivity.
Defined.

Lemma initial_state_channel_mismatch_small :
  exists e, get_initial_state small_model (zeros [1; 2; 3; 8; 8]) = Raise e.
Proof.
  apply (@initial_state_channel_mismatch _ _ small small_net small_weights small_model
           1 2 1 8 8 1 2 3 8 8 (zeros [1; 2; 3; 8; 8]));
    [reflexivity | reflexivity | reflexivity | discriminate].
Defined.

Lemma first_step_runs_small :
  exists states output states',
    get_initial_state small_model small_clip = Ok states /\
    step small_model small_frame states = Ok (output, states') /\
    map item_shape states' = map item_shape states.
Proof.
  apply (@first_step_runs _ _ small small_net small_weights small_model
           1 2 1 1 small_clip small_frame); reflexivity.
Defined.

Lemma build_short_shape_empty :
  build small_net [] small_weights = Raise IndexError.
Proof.
  apply (@build_short_shape _ _ small small_net small_weights []);
    [reflexivity | simpl; lia].
Defined.

Lemma zero_weights_zero (c : string) (l : nat) :
  Forall (eq (zero (T := Qc))) (fst (zero_weights c l)) /\
  Forall (eq (zero (T := Qc))) (snd (zero_weights c l)).
Proof. split; repeat constructor. Qed.

Lemma build_constructed_small :
  exists m,
    build small_net [1; 2; 1; 8; 8] small_weights = Ok m /\
    net m = small_net /\ input_spec m = [1; 2; 1; 8; 8] /\
    (forall c l, In c ["i"; "f"; "c"; "o"] -> (l < 4)%nat ->
       exists cv,
         conv m c l = Ok cv /\
         filters cv = nth l (R_stack_sizes small_net) 0 /\
         kernel_size cv = 3 /\
         input_dim cv
         = Some (nth l (stack_sizes small_net) 0 * 2 + nth l (R_stack_sizes small_net) 0
                 + (if (l <? 3)%nat then nth (l + 1) (R_stack_sizes small_net) 0 else 0)) /\
         activation cv = (if (c =? "c")%string then LSTM_activation small_net
                          else LSTM_inner_activation small_net) /\
         (kernel cv, bias cv) = small_weights c l) /\
    (forall l, (l < 4)%nat ->
       exists cv,
         conv m "ahat" l = Ok cv /\
         filters cv = nth l (stack_sizes small_net) 0 /\
         kernel_size cv = nth l (Ahat_filt_sizes small_net) 0 /\
         input_dim cv = Some (nth l (R_stack_sizes small_net) 0) /\
         activation cv = (if Nat.eqb l 0 then relu else A_activation small_net) /\
         (kernel cv, bias cv) = small_weights "ahat" l) /\
    (forall l, (l < 3)%nat ->
       exists cv,
         conv m "a" l = Ok cv /\
         filters cv = nth (l + 1) (stack_sizes small_net) 0 /\
         kernel_size cv = nth l (A_filt_sizes small_net) 0 /\
         input_dim cv = Some (2 * nth l (R_stack_sizes small_net) 0) /\
         activation cv = A_activation small_net /\
         (kernel cv, bias cv) = small_weights "a" l) /\
    (forall c, In c ["i"; "f"; "c"; "o"; "ahat"] -> conv m c 4 = Raise IndexError) /\
    conv m "a" 3 = Raise IndexError.
Proof.
  apply (@build_constructed _ _ small small_net small_weights [1; 2; 1; 8; 8]); reflexivity.
Defined.

Lemma step_output_shape_small :
  exists output states',
    step small_model small_frame small_states = Ok (output, states') /\
    (output_mode small_net = "prediction" ->
     tshape output
     = pos4 (data_format small_net) 1 (nth 0 (stack_sizes small_net) 0) (8 * 1) (8 * 1)) /\
    (output_mode small_net = "error" -> tshape output = [1; 4]) /\
    (output_mode small_net = "all" ->
     tshape output = [1; nth 0 (stack_sizes small_net) 0 * (8 * 1) * (8 * 1) + 4]) /\
    (forall ty l,
       output_layer_type small_net = Some ty -> output_layer_num small_net = Some l ->
       tshape output
       = pos4 (data_format small_net) 1
              (if (ty =? "R")%string then nth l (R_stack_sizes small_net) 0
               else if (ty =? "E")%string then 2 * nth l (stack_sizes small_net) 0
               else nth l (stack_sizes small_net) 0)
              (8 * 1 / 2 ^ Z.of_nat l) (8 * 1 / 2 ^ Z.of_nat l)).
Proof.
  apply (@step_output_shape _ _ small small_net small_weights [1; 2; 1; 8; 8] small_model
           1 1 1 small_frame small_states); reflexivity.
Defined.

Lemma step_ignores_extra_entries_plain :
  step (plain_model "A0" (Some "A", Some 0%nat)) small_frame (plain_states ++ [Int 7])
  = step (plain_model "A0" (Some "A", Some 0%nat)) small_frame plain_states.
Proof.
  apply (@step_ignores_extra_entries _ _ (plain_model "A0" (Some "A", Some 0%nat))
           small_frame plain_states [Int 7]).
  - reflexivity.
  - apply Nat.leb_le. vm_compute. reflexivity.
Defined.

Lemma compute_output_shape_total_kitti :
  ((3 <= List.length [1; 2; 3; 8; 8])%nat ->
   exists out,
     compute_output_shape (kitti_net kitti) [1; 2; 3; 8; 8]
     = Ok ((if return_sequences (kitti_net kitti) then firstn 2 [1; 2; 3; 8; 8]
            else firstn 1 [1; 2; 3; 8; 8]) ++ out)%list /\
     List.length out
     = match output_layer_type (kitti_net kitti) with
       | Some _ => 3%nat
       | None => if (output_mode (kitti_net kitti) =? "prediction")%string
                 then (List.length [1; 2; 3; 8; 8] - 2)%nat else 1%nat
       end /\
     (output_mode (kitti_net kitti) = "prediction" -> out = skipn 2 [1; 2; 3; 8; 8])) /\
  ([1; 2; 3; 8; 8] = [] ->
   compute_output_shape (kitti_net kitti) [1; 2; 3; 8; 8] = Raise IndexError).
Proof.
  apply (@compute_output_shape_total _ _ kitti (kitti_net kitti) [1; 2; 3; 8; 8]).
  reflexivity.
Defined.



Lemma zero_state_units_stay_zero_plain :
  exists output states',
    step (plain_model "A0" (Some "A", Some 0%nat)) small_frame plain_states
    = Ok (output, states') /\
    forall j, (j < 8)%nat ->
      exists u, nth_error states' j = Some (Tensor u) /\ all_zero u.
Proof.
  apply (@zero_state_units_stay_zero _ _ (plain "A0") (plain_net "A0" (Some "A", Some 0%nat))
           zero_weights (plain_model "A0" (Some "A", Some 0%nat))
           1 2 1 1 small_clip small_frame plain_states);
    [reflexivity | reflexivity | reflexivity | reflexivity | exact zero_weights_zero
     | reflexivity | reflexivity | reflexivity | reflexivity
     | apply Qc_is_canon; reflexivity | reflexivity].
Defined.

(** On a clip of one-channel frames, a network with stack_sizes[0] = 3 in
    mode 'prediction' is built, gets its initial state and steps; the output
    of the step has three channels, while [compute_output_shape] gives the
    one channel of the input shape. *)
Lemma output_shape_differs :
  __init__ wide = Ok wide_net /\
  tshape small_clip = [1; 2; 1; 8; 8] /\
  tshape small_frame = [1; 1; 8; 8] /\
  build wide_net (tshape small_clip) wide_weights = Ok wide_model /\
  get_initial_state wide_model small_clip = Ok wide_states /\
  step wide_model small_frame wide_states = Ok (wide_output, wide_next) /\
  tshape wide_output = [1; 3; 8; 8] /\
  compute_output_shape wide_net (tshape small_clip) = Ok [1; 1; 8; 8] /\
  compute_output_shape wide_net (tshape small_clip)
  <> Ok ((if return_sequences wide_net then [1; 2] else [1]) ++ tl (tshape wide_output))%list.
Proof.
  split; [reflexivity|]. split; [reflexivity|]. split; [reflexivity|].
  split; [reflexivity|]. split; [reflexivity|]. split; [vm_compute; reflexivity|].
  split; [reflexivity|]. split; [reflexivity|].
  vm_compute. discriminate.
Qed.

Lemma output_shape_agrees_small :
  (exists output states',
     step small_model small_frame small_states = Ok (output, states') /\
     compute_output_shape small_net
       (image5 (data_format small_net) 1 2 (nth 0 (stack_sizes small_net) 0) (8 * 1) (8 * 1))
     = Ok ((if return_sequences small_net then [1; 2] else [1]) ++ tl (tshape output))%list /\
     forall ty l,
       output_layer_type small_net = Some ty -> output_layer_num small_net = Some l ->
       tshape output
       = pos4 (data_format small_net) 1
              (if (ty =? "R")%string then nth l (R_stack_sizes small_net) 0
               else if (ty =? "E")%string then 2 * nth l (stack_sizes small_net) 0
               else nth l (stack_sizes small_net) 0)
              (8 * 1 / 2 ^ Z.of_nat l) (8 * 1 / 2 ^ Z.of_nat l)) /\
  (let self := plain_net "E1" (Some "E", Some 1%nat) in
   exists output states',
     step (plain_model "E1" (Some "E", Some 1%nat)) small_frame plain_states
     = Ok (output, states') /\
     compute_output_shape self
       (image5 (data_format self) 1 2 (nth 0 (stack_sizes self) 0) (8 * 1) (8 * 1))
     = Ok ((if return_sequences self then [1; 2] else [1]) ++ tl (tshape output))%list /\
     forall ty l,
       output_layer_type self = Some ty -> output_layer_num self = Some l ->
       tshape output
       = pos4 (data_format self) 1
              (if (ty =? "R")%string then nth l (R_stack_sizes self) 0
               else if (ty =? "E")%string then 2 * nth l (stack_sizes self) 0
               else nth l (stack_sizes self) 0)
              (8 * 1 / 2 ^ Z.of_nat l) (8 * 1 / 2 ^ Z.of_nat l)).
Proof.
  split.
  - apply (@output_shape_agrees _ _ small small_net small_weights small_model
             1 2 1 1 1 small_frame small_states); reflexivity.
  - apply (@output_shape_agrees _ _ (plain "E1") (plain_net "E1" (Some "E", Some 1%nat))
             zero_weights (plain_model "E1" (Some "E", Some 1%nat))
             1 2 1 1 1 small_frame plain_states); reflexivity.
Defined.

(** in mode 'E1' of that network the shape interface gives two channels of
    4 x 4 entries *)
Lemma output_shape_E1 :
  __init__ (plain "E1") = Ok (plain_net "E1" (Some "E", Some 1%nat)) /\
  compute_output_shape (plain_net "E1" (Some "E", Some 1%nat)) [1; 2; 1; 8; 8]
  = Ok [1; 2; 4; 4].
Proof. split; reflexivity. Qed.
